(** * cdav-library: the transport, the multi-status reducer and the
      collection model, embedded from the JavaScript sources

    Sources embedded here:
    - the class [Request] ([src/unnamed/part_000], imported by the models as
      [request.js]): [request], [propFind] and the other verbs,
      [_parseMultiStatusResponse], [wasRequestSuccessful],
      [getStatusCodeFromString], [getDefaultHeaders];
    - [src/src/models/davCollection.js] (class [DavCollection]);
    - [src/src/models/davCollectionPublishable.js] (mixin);
    - [addressBookPropSet] ([src/unnamed/part_001]);
    - the class [CalendarTrashBin] ([src/unnamed/part_002]).

    JavaScript strings are modelled as [string], read as UTF-8: the string
    operations of the sources (concatenation, comparison, [split] on an ASCII
    separator, the last character against ['/'], [length === 0]) do the same
    on bytes as on UTF-16 code units.  A JavaScript object used as a map is
    an insertion-ordered list of own properties ([JsObject]), since the code
    observes the key order ([Object.keys(..)[0]], [Object.entries]).
    Members inherited from [Object.prototype] are not own properties; the
    places where the code could reach one are flagged [Unmodelled]. *)

From Stdlib Require Import String Ascii List ZArith Bool Lia PeanoNat DecimalString
  DecimalNat Permutation.
Import ListNotations.
Open Scope string_scope.
Set Warnings "-register-all".

(* ================================================================== *)
(** ** JavaScript string primitives used by the sources *)

Module Js.

(** [s.slice(-1)]: the last character as a string, [""] for [""]. *)
Fixpoint slice_last (s : string) : string :=
  match s with
  | EmptyString => EmptyString
  | String c EmptyString => String c EmptyString
  | String _ r => slice_last r
  end.

(** [s.split(sep)] for a one-character separator; never empty. *)
Fixpoint split (sep : ascii) (s : string) : list string :=
  match s with
  | EmptyString => [EmptyString]
  | String c r =>
      if Ascii.eqb c sep then EmptyString :: split sep r
      else match split sep r with
           | [] => [String c EmptyString]
           | h :: t => String c h :: t
           end
  end.

Definition is_digit (c : ascii) : bool :=
  let n := nat_of_ascii c in (48 <=? n)%nat && (n <=? 57)%nat.

Definition digit_value (c : ascii) : Z := (Z.of_nat (nat_of_ascii c) - 48)%Z.

(** White space skipped by [parseInt] (WhiteSpace and LineTerminator of
    ECMAScript).  One byte: TAB, LF, VT, FF, CR, SP. *)
Definition is_space (c : ascii) : bool :=
  let n := nat_of_ascii c in
  ((9 <=? n)%nat && (n <=? 13)%nat) || (n =? 32)%nat.

(** Two bytes in UTF-8: U+00A0. *)
Definition is_space2 (c1 c2 : ascii) : bool :=
  (nat_of_ascii c1 =? 194)%nat && (nat_of_ascii c2 =? 160)%nat.

(** Three bytes in UTF-8: U+1680, U+2000..U+200A, U+2028, U+2029, U+202F,
    U+205F, U+3000, U+FEFF. *)
Definition is_space3 (c1 c2 c3 : ascii) : bool :=
  let a := nat_of_ascii c1 in
  let b := nat_of_ascii c2 in
  let c := nat_of_ascii c3 in
  ((a =? 225) && (b =? 154) && (c =? 128))%nat
  || ((a =? 226) && (b =? 128)
      && (((128 <=? c) && (c <=? 138)) || (c =? 168) || (c =? 169) || (c =? 175)))%nat
  || ((a =? 226) && (b =? 129) && (c =? 159))%nat
  || ((a =? 227) && (b =? 128) && (c =? 128))%nat
  || ((a =? 239) && (b =? 187) && (c =? 191))%nat.

Fixpoint trim_start (s : string) : string :=
  match s with
  | EmptyString => EmptyString
  | String c1 r1 =>
      if is_space c1 then trim_start r1
      else match r1 with
           | String c2 r2 =>
               if is_space2 c1 c2 then trim_start r2
               else match r2 with
                    | String c3 r3 =>
                        if is_space3 c1 c2 c3 then trim_start r3 else s
                    | EmptyString => s
                    end
           | EmptyString => s
           end
  end.

(** The longest prefix of decimal digits, as a number; [None] if empty. *)
Fixpoint digits (s : string) (acc : option Z) : option Z :=
  match s with
  | String c r =>
      if is_digit c
      then digits r (Some (10 * match acc with Some a => a | None => 0 end
                           + digit_value c)%Z)
      else acc
  | EmptyString => acc
  end.

(** A JavaScript number as far as the sources meet one: an integer-valued
    double, or [None] for [NaN] and for [undefined] coerced to a number.
    The integers [2^1024] and [-2^1024], which no finite double reaches,
    stand for [Infinity] and [-Infinity]: they compare with every finite
    number as the infinities do. *)
Definition number := option Z.

(** The double nearest to an integer, ties to the even significand: an
    integer of more than 53 bits loses its low bits, and one that rounds
    to [2^1024] or beyond becomes an infinity. *)
Definition round_double (n : Z) : Z :=
  let a := Z.abs n in
  let e := (Z.log2 a - 52)%Z in
  if (e <=? 0)%Z then n
  else
    let q := Z.shiftr a e in
    let r := Z.land a (Z.ones e) in
    let half := Z.shiftl 1 (e - 1) in
    let q' := if (half <? r)%Z || ((r =? half)%Z && Z.odd q) then (q + 1)%Z else q in
    let v := Z.shiftl q' e in
    (Z.sgn n * (if (Z.shiftl 1 1024 <=? v)%Z then Z.shiftl 1 1024 else v))%Z.

(** [parseInt(x, 10)] where [x] is a string or [undefined] ([None]): the
    mathematical integer of the digits, as a Number, that is rounded to the
    nearest double.  (Beyond twenty significant digits the standard lets an
    implementation replace the further digits by zeros before it rounds;
    the model rounds the integer itself.) *)
Definition parseInt (x : option string) : number :=
  match x with
  | None => None
  | Some s =>
      option_map round_double
        match trim_start s with
        | String "-" r => option_map Z.opp (digits r None)
        | String "+" r => digits r None
        | t => digits t None
        end
  end.

(** [a >= lo && a < hi] on numbers; every comparison with [NaN] is false. *)
Definition in_range (lo hi : Z) (a : number) : bool :=
  match a with
  | Some n => (lo <=? n)%Z && (n <? hi)%Z
  | None => false
  end.

End Js.

(* ================================================================== *)
(** ** Ordinary objects as ordered lists of own properties *)

Module JsObject.

Definition t (V : Type) := list (string * V).

Section Ops.
Context {V : Type}.

Fixpoint get (o : t V) (k : string) : option V :=
  match o with
  | [] => None
  | (k', v) :: r => if String.eqb k' k then Some v else get r k
  end.

(** [o[k] = v] on own properties: an existing key keeps its place, a new
    key goes last. *)
Fixpoint set (o : t V) (k : string) (v : V) : t V :=
  match o with
  | [] => [(k, v)]
  | (k', v') :: r =>
      if String.eqb k' k then (k', v) :: r else (k', v') :: set r k v
  end.

(** [delete o[k]]. *)
Fixpoint delete (o : t V) (k : string) : t V :=
  match o with
  | [] => []
  | (k', v') :: r =>
      if String.eqb k' k then delete r k else (k', v') :: delete r k
  end.

(** An array index is the canonical decimal form of an integer below
    2^32 - 1; such keys are enumerated first, in numeric order. *)
Fixpoint all_digits (s : string) : bool :=
  match s with
  | EmptyString => true
  | String c r => Js.is_digit c && all_digits r
  end.

Definition array_index (s : string) : option Z :=
  match s with
  | EmptyString => None
  | String "0" EmptyString => Some 0%Z
  | String "0" _ => None
  | String _ _ =>
      if all_digits s then
        match Js.digits s None with
        | Some n => if (n <? 4294967295)%Z then Some n else None
        | None => None
        end
      else None
  end.

Fixpoint insert_index (e : Z * (string * V)) (l : list (Z * (string * V)))
  : list (Z * (string * V)) :=
  match l with
  | [] => [e]
  | e' :: r => if (fst e <=? fst e')%Z then e :: l else e' :: insert_index e r
  end.

Fixpoint index_entries (o : t V) : list (Z * (string * V)) :=
  match o with
  | [] => []
  | (k, v) :: r =>
      match array_index k with
      | Some n => insert_index (n, (k, v)) (index_entries r)
      | None => index_entries r
      end
  end.

Definition named_entries (o : t V) : t V :=
  filter (fun e => match array_index (fst e) with
                   | Some _ => false | None => true end) o.

(** [Object.entries(o)] in the order of OrdinaryOwnPropertyKeys. *)
Definition entries (o : t V) : list (string * V) :=
  map snd (index_entries o) ++ named_entries o.

(** [Object.keys(o)]. *)
Definition keys (o : t V) : list string := map fst (entries o).

(** [Object.assign(target, src)]. *)
Definition assign (target src : t V) : t V :=
  fold_left (fun acc e => set acc (fst e) (snd e)) (entries src) target.

End Ops.

End JsObject.

(* ================================================================== *)
(** ** Values, errors and the external collaborators *)

(** The values a property map holds: a string, a sequence of strings, a
    nested structured value, or nothing ([undefined]). *)
Inductive JsVal : Type :=
| JUndefined
| JStr (s : string)
| JArr (items : list string)
| JObj (fields : list (string * JsVal)).

Definition PropertyMap := JsObject.t JsVal.
Definition MultiStatus := JsObject.t PropertyMap.

(** ToBoolean. *)
Definition truthy (v : JsVal) : bool :=
  match v with
  | JUndefined => false
  | JStr s => negb (String.eqb s "")
  | JArr _ | JObj _ => true
  end.

(** [o[k] = v] as an assignment statement on an ordinary object: the key
    [__proto__] reaches the prototype accessor and creates no own property. *)
Definition js_put {V} (o : JsObject.t V) (k : string) (v : V) : JsObject.t V :=
  if String.eqb k "__proto__" then o else JsObject.set o k v.

(** The error classes of [src/errors/]. *)
Inductive ErrorKind : Type :=
| NetworkRequestAbortedError
| NetworkRequestError
| NetworkRequestClientError
| NetworkRequestServerError
| NetworkRequestHttpError.

Inductive JsError : Type :=
| NetworkFailure (kind : ErrorKind) (body : option string) (status : Js.number)
| TypeError (what : string)
| Unmodelled (what : string).

(** A settled promise, or the result of a call that may throw. *)
Inductive Outcome (A : Type) : Type :=
| Resolved (a : A)
| Rejected (e : JsError).
Arguments Resolved {A} a.
Arguments Rejected {A} e.

(** [v[k]] for a key of the form [{ns}name]: such a key is never an index,
    ["length"] or the name of a prototype member, so strings and arrays
    answer [undefined]; reading a property of [undefined] throws. *)
Definition js_read (v : JsVal) (k : string) : Outcome JsVal :=
  match v with
  | JUndefined => Rejected (TypeError "Cannot read properties of undefined")
  | JObj fields =>
      Resolved (match JsObject.get fields k with Some x => x | None => JUndefined end)
  | JStr _ | JArr _ => Resolved JUndefined
  end.

(** The state and error monad of the model: a call runs on a state, settles
    to a value or an error, and leaves the effects it performed. *)
Definition M (S A : Type) : Type := S -> Outcome A * S.

Definition ret {S A} (a : A) : M S A := fun s => (Resolved a, s).

Definition throw {S A} (e : JsError) : M S A := fun s => (Rejected e, s).

Definition bind {S A B} (m : M S A) (k : A -> M S B) : M S B :=
  fun s => match m s with
           | (Resolved a, s') => k a s'
           | (Rejected e, s') => (Rejected e, s')
           end.

Definition of_outcome {S A} (o : Outcome A) : M S A := fun s => (o, s).

Declare Scope js_scope.
Delimit Scope js_scope with js.
Notation "x <- m ;; k" := (bind m (fun x => k))
  (at level 61, m at next level, right associativity) : js_scope.
Notation "m ;;; k" := (bind m (fun _ => k))
  (at level 61, right associativity) : js_scope.

(** *** The response document, as the XPath queries of the reducer see it *)

(** An element matched by [d:prop/*]. *)
Record PropNode : Type := {
  namespaceURI : option string;
  localName : string;
  textContent : string
}.

(** A [d:propstat]: [string(d:status)] and the elements of [d:prop/*]. *)
Record PropStat : Type := {
  status_text : string;
  prop_nodes : list PropNode
}.

(** A [/d:multistatus/d:response]: [string(d:href)] and its [d:propstat]s. *)
Record ResponseNode : Type := {
  href : string;
  propStats : list PropStat
}.

Definition Document := list ResponseNode.

(** *** XML skeletons ([src/utility/xmlUtility.js]) *)

Definition QName : Type := string * string.

Inductive XmlNode : Type :=
| Xml (name : QName) (attributes : list (string * string))
      (children : list XmlNode) (value : option JsVal).

(** Modelled from the spec: [XMLUtility.getRootSkeleton], whose file is not
    among the sources.  It builds a root node and a chain of nested
    single-child nodes and hands back the innermost children list; what the
    caller pushes on that list ([leaf]) is part of the returned tree. *)
Fixpoint skeleton_chain (nested : list QName) (leaf : list XmlNode) : list XmlNode :=
  match nested with
  | [] => leaf
  | n :: ns => [Xml n [] (skeleton_chain ns leaf) None]
  end.

Definition getRootSkeleton (root : QName) (nested : list QName)
                           (leaf : list XmlNode) : XmlNode :=
  Xml root [] (skeleton_chain nested leaf) None.

(** *** Namespaces ([src/utility/namespaceUtility.js]) *)
Module NS.
Definition DAV := "DAV:".
Definition IETF_CARDDAV := "urn:ietf:params:xml:ns:carddav".
Definition OWNCLOUD := "http://owncloud.org/ns".
Definition CALENDARSERVER := "http://calendarserver.org/ns/".
End NS.

(** *** The HTTP client (axios) *)

Record AxiosConfig : Type := {
  cfg_url : string;
  cfg_method : string;
  cfg_headers : JsObject.t string;
  cfg_data : option string
}.

(** What the [catch] handler of [request] inspects on a rejection:
    [axios.isCancel(error)], [error.request], [error.status], [error.data]. *)
Record AxiosError : Type := {
  isCancel : bool;
  error_request : bool;
  error_status : Js.number;
  error_data : option string
}.

(** The error axios raises for a response whose status [validateStatus]
    refuses (axios, [lib/core/settle.js]: [new AxiosError(message, code,
    config, request, response)]; axios is not among the sources).  Like
    every error axios raises once the request was made, it carries the
    request; the response data is under [error.response], not under
    [error.data]. *)
Definition axios_status_error (status : Z) : AxiosError :=
  {| isCancel := false;
     error_request := true;
     error_status := Some status;
     error_data := None |}.

Inductive AxiosOutcome : Type :=
| AxiosFulfilled (status : Z) (data : string)
| AxiosRejected (error : AxiosError).

(** The parser handed to [Request] ([src/parser.js]): what [canParse] and
    [parse] return, and where they throw instead of returning. *)
Record Parser : Type := {
  canParse : string -> bool;
  parse : Document -> PropNode -> JsVal;
  canParse_throws : string -> bool;
  parse_throws : Document -> PropNode -> bool
}.

Record Request : Type := {
  baseUrl : string;
  parser : Parser
}.

(** What the sources read of a [URL] object. *)
Record URL : Type := {
  url_href : string;
  url_pathname : string
}.

(** Everything the sources call but do not define. *)
Class Platform : Type := {
  (** the prefix map [XMLUtility.serialize] keeps between calls *)
  PrefixMap : Type;
  (** [XMLUtility.serialize(skeleton)] *)
  xml_serialize : PrefixMap -> XmlNode -> string * PrefixMap;
  (** [new DOMParser().parseFromString(body, 'application/xml')] *)
  dom_parseFromString : string -> Document;
  (** [new URL(url, base)]; [None] where the constructor throws *)
  new_URL : string -> string -> option URL;
  (** [axios.request(config)], given the requests sent before *)
  axios_request : list AxiosConfig -> AxiosConfig -> AxiosOutcome;
  (** [src/propset/davCollectionPropSet.js] *)
  davCollectionPropSet : PropertyMap -> list XmlNode;
  (** [DavObject.getPropFindList()] *)
  DavObject_getPropFindList : list QName;
  (** [StringUtility.uri(token, checker)] *)
  StringUtility_uri : string -> (string -> bool) -> string
}.

(** The effects visible outside a node: requests sent, [debug] calls made,
    and the serializer's prefix map. *)
Record World `{Platform} : Type := {
  sent : list AxiosConfig;
  debugged : list string;
  prefixes : PrefixMap
}.

(* ================================================================== *)
(** ** [src/request.js] *)

Section RequestClass.
Context `{Platform}.

Record Response : Type := {
  body : JsVal;
  status : Z
}.

(** Check if response code is in the 2xx section. *)
Definition wasRequestSuccessful (status : Js.number) : bool :=
  Js.in_range 200 300 status.

(** Extract numeric status code from string like "HTTP/1.1 200 OK". *)
Definition getStatusCodeFromString (status : string) : Js.number :=
  Js.parseInt (nth_error (Js.split " " status) 1).

Definition getDefaultHeaders : JsObject.t string :=
  [("Depth", "0"); ("Content-Type", "application/xml; charset=utf-8")].

(** The key [`{${propNode.namespaceURI}}${propNode.localName}`]. *)
Definition clark (n : PropNode) : string :=
  "{" ++ match namespaceURI n with Some u => u | None => "null" end
      ++ "}" ++ localName n.

(** The innermost loop of the reducer, over [d:prop/*]. *)
Definition parse_prop (rq : Request) (document : Document)
                      (parsedProperties : PropertyMap) (propNode : PropNode)
  : PropertyMap :=
  if canParse (parser rq) (clark propNode)
  then js_put parsedProperties (clark propNode)
              (parse (parser rq) document propNode)
  else parsedProperties.

(** The loop over [d:propstat], with its [continue]. *)
Definition parse_propstat (rq : Request) (document : Document)
                          (parsedProperties : PropertyMap) (propStatNode : PropStat)
  : PropertyMap :=
  if negb (wasRequestSuccessful (getStatusCodeFromString (status_text propStatNode)))
  then parsedProperties
  else fold_left (parse_prop rq document) (prop_nodes propStatNode) parsedProperties.

(** The body of the loop over [d:response]: a fresh [parsedProperties]. *)
Definition parse_response (rq : Request) (document : Document)
                          (responseNode : ResponseNode) : PropertyMap :=
  fold_left (parse_propstat rq document) (propStats responseNode) [].

(** The loop over [/d:multistatus/d:response]:
    [result[href] = parsedProperties]. *)
Definition reduce_responses (rq : Request) (document : Document)
                            (responses : list ResponseNode) : MultiStatus :=
  fold_left (fun result responseNode =>
               js_put result (href responseNode)
                      (parse_response rq document responseNode))
            responses [].

Definition reduce_document (rq : Request) (document : Document) : MultiStatus :=
  reduce_responses rq document document.

(** Parses a multi status response (207), sorts them by path and drops all
    unsuccessful responses: the map it returns where the parser does not
    throw. *)
Definition _parseMultiStatusResponse (rq : Request) (body : string) : MultiStatus :=
  reduce_document rq (dom_parseFromString body).

(** Whether the reducer throws at an element of [d:prop/*]: in [canParse],
    or in [parse] once [canParse] has accepted the element. *)
Definition prop_throws (rq : Request) (document : Document) (propNode : PropNode)
  : bool :=
  canParse_throws (parser rq) (clark propNode)
  || (canParse (parser rq) (clark propNode)
      && parse_throws (parser rq) document propNode).

(** Whether [_parseMultiStatusResponse] throws: at some element under a
    successful propstat block; the map under construction is then lost. *)
Definition _parseMultiStatusResponse_throws (rq : Request) (body : string) : bool :=
  let document := dom_parseFromString body in
  existsb (fun responseNode =>
             existsb (fun propStatNode =>
                        wasRequestSuccessful
                          (getStatusCodeFromString (status_text propStatNode))
                        && existsb (prop_throws rq document) (prop_nodes propStatNode))
                     (propStats responseNode))
          document.

Definition multistatus_value (m : MultiStatus) : JsVal :=
  JObj (map (fun e => (fst e, JObj (snd e))) m).

(** [responseBody[Object.keys(responseBody)[0]]]. *)
Definition first_entry (m : MultiStatus) : JsVal :=
  match JsObject.keys m with
  | k :: _ => match JsObject.get m k with
              | Some props => JObj props
              | None => JUndefined
              end
  | [] => JUndefined
  end.

(** [new URL(url, this.baseUrl).href]; the constructor throws a
    [TypeError] on a url it cannot resolve. *)
Definition absoluteUrl (rq : Request) (url : string) : Outcome string :=
  match new_URL url (baseUrl rq) with
  | Some urlObject => Resolved (url_href urlObject)
  | None => Rejected (TypeError "Invalid URL")
  end.

(** [new URL(url, this.baseUrl).pathname]. *)
Definition pathname (rq : Request) (url : string) : Outcome string :=
  match new_URL url (baseUrl rq) with
  | Some urlObject => Resolved (url_pathname urlObject)
  | None => Rejected (TypeError "Invalid URL")
  end.

(** The [catch] handler of [request]. *)
Definition request_catch (error : AxiosError) : JsError :=
  if isCancel error then
    NetworkFailure NetworkRequestAbortedError None (Some (-1)%Z)
  else if error_request error then
    NetworkFailure NetworkRequestError None (Some (-1)%Z)
  else if Js.in_range 400 500 (error_status error) then
    NetworkFailure NetworkRequestClientError (error_data error) (error_status error)
  else if Js.in_range 500 600 (error_status error) then
    NetworkFailure NetworkRequestServerError (error_data error) (error_status error)
  else
    NetworkFailure NetworkRequestHttpError (error_data error) (error_status error).

(** What the [catch] handler of [request] makes of an exception thrown in
    the [then] handler: an [Error] is no cancellation and has no [request],
    [status] or [data], so the last branch is taken with both [undefined]. *)
Definition request_catch_thrown : JsError :=
  NetworkFailure NetworkRequestHttpError None None.

(** Whether the [then] handler of [request] throws: only the reduction of
    a 207 body can. *)
Definition request_then_throws (rq : Request) (status : Z) (data : string) : bool :=
  (status =? 207)%Z && _parseMultiStatusResponse_throws rq data.

(** The [then] handler of [request], where it returns. *)
Definition request_then (rq : Request) (method : string)
                        (assignHeaders : JsObject.t string)
                        (status : Z) (data : string) : Response :=
  let responseBody :=
    if (status =? 207)%Z then
      let parsed := _parseMultiStatusResponse rq data in
      if match Js.parseInt (JsObject.get assignHeaders "Depth") with
         | Some d => (d =? 0)%Z
         | None => false
         end && String.eqb method "PROPFIND"
      then first_entry parsed
      else multistatus_value parsed
    else JStr data in
  {| body := responseBody; status := status |}.

(** The configuration [request] hands to [axios.request], for the absolute
    url [href]. *)
Definition request_config (method href : string)
                          (headers : JsObject.t string) (body : option string)
  : AxiosConfig :=
  {| cfg_url := href;
     cfg_method := method;
     cfg_headers := JsObject.assign (JsObject.assign [] getDefaultHeaders) headers;
     cfg_data := body |}.

(** Sends generic request.  [axios.defaults.validateStatus] is set so that
    the client rejects every status outside the 2xx section.  A url that
    [absoluteUrl] cannot resolve makes the call throw before anything is
    handed to the client; an exception of the [then] handler reaches the
    [catch] handler. *)
Definition request (rq : Request) (method url : string)
                   (headers : JsObject.t string) (body : option string)
  : M World Response :=
  fun w =>
    match absoluteUrl rq url with
    | Rejected e => (Rejected e, w)
    | Resolved href =>
        let config := request_config method href headers body in
        let assignHeaders := cfg_headers config in
        let w' := {| sent := (sent w ++ [config])%list;
                     debugged := debugged w;
                     prefixes := prefixes w |} in
        match axios_request (sent w) config with
        | AxiosFulfilled status data =>
            if request_then_throws rq status data
            then (Rejected request_catch_thrown, w')
            else (Resolved (request_then rq method assignHeaders status data), w')
        | AxiosRejected error =>
            (Rejected (request_catch error), w')
        end
    end.

Definition serialize (skeleton : XmlNode) : M World string :=
  fun w =>
    let (xml, p) := xml_serialize (prefixes w) skeleton in
    (Resolved xml, {| sent := sent w; debugged := debugged w; prefixes := p |}).

(** A call of a [debug] function made by [debugFactory]; the call is
    recorded whether or not [debugFactory.enabled] lets it print. *)
Definition debug (message : string) : M World unit :=
  fun w =>
    (Resolved tt, {| sent := sent w;
                     debugged := (debugged w ++ [message])%list;
                     prefixes := prefixes w |}).

Definition get (rq : Request) url headers body := request rq "GET" url headers body.
Definition patch (rq : Request) url headers body := request rq "PATCH" url headers body.
Definition post (rq : Request) url headers body := request rq "POST" url headers body.
Definition put (rq : Request) url headers body := request rq "PUT" url headers body.
Definition delete (rq : Request) url headers body := request rq "DELETE" url headers body.
Definition lock (rq : Request) url headers body := request rq "LOCK" url headers body.
Definition unlock (rq : Request) url headers body := request rq "UNLOCK" url headers body.
Definition propPatch (rq : Request) url headers body :=
  request rq "PROPPATCH" url headers body.
Definition mkCol (rq : Request) url headers body := request rq "MKCOL" url headers body.
Definition report (rq : Request) url headers body := request rq "REPORT" url headers body.

(** Sends a COPY request. *)
Definition copy (rq : Request) (url destination depth : string) (overwrite : bool)
                (headers : JsObject.t string) (body : option string) :=
  let headers := js_put headers "Destination" destination in
  let headers := js_put headers "Depth" depth in
  let headers := js_put headers "Overwrite" (if overwrite then "T" else "F") in
  request rq "COPY" url headers body.

(** Sends a MOVE request. *)
Definition move (rq : Request) (url destination : string) (overwrite : bool)
                (headers : JsObject.t string) (body : option string) :=
  let headers := js_put headers "Destination" destination in
  let headers := js_put headers "Depth" "Infinity" in
  let headers := js_put headers "Overwrite" (if overwrite then "T" else "F") in
  request rq "MOVE" url headers body.

(** Sends a PROPFIND request.  A numeric [depth] is carried by its decimal
    string, which is what [parseInt] and the wire see. *)
Definition propFind (rq : Request) (url : string) (properties : list QName)
                    (depth : string) (headers : JsObject.t string)
  : M World Response :=
  (let headers := js_put headers "Depth" depth in
   body <- serialize (getRootSkeleton (NS.DAV, "propfind") [(NS.DAV, "prop")]
                        (map (fun p => Xml p [] [] None) properties)) ;;
   request rq "PROPFIND" url headers (Some body))%js.

End RequestClass.

(* ================================================================== *)
(** ** [src/propset/addressBookPropSet.js] *)

(** Creates the propset xml structure for
    [{urn:ietf:params:xml:ns:carddav}addressbook-description] and
    [{http://owncloud.org/ns}enabled]. *)
Definition addressBookPropSet (props : PropertyMap) : list XmlNode :=
  fold_left
    (fun xmlified e =>
       let (key, value) := e : string * JsVal in
       if String.eqb key "{urn:ietf:params:xml:ns:carddav}addressbook-description"
       then (xmlified
              ++ [Xml (NS.IETF_CARDDAV, "addressbook-description") [] [] (Some value)])%list
       else if String.eqb key "{http://owncloud.org/ns}enabled"
       then (xmlified
              ++ [Xml (NS.OWNCLOUD, "enabled") [] []
                      (Some (JStr (if truthy value then "1" else "0")))])%list
       else xmlified)
    (JsObject.entries props) [].

(* ================================================================== *)
(** ** [src/models/davCollection.js] *)

Section DavCollectionClass.
Context `{Platform}.

(** A constructor registered as a factory: its class name and, when it has
    one, its static [getPropFindList()]. *)
Record Factory : Type := {
  factory_name : string;
  factory_getPropFindList : option (list QName)
}.

(** A property defined by [_exposeProperty]. *)
Record Exposed : Type := {
  exposed_localName : string;
  exposed_key : string;
  exposed_mutable : bool
}.

(** The fields of a [DavCollection].  [_parent] names the enclosing
    collection by its url ([None] for [null]); [_getPropFindList] is the
    static [getPropFindList()] of the node's constructor. *)
Record DavCollection : Type := {
  _parent : option string;
  _request : Request;
  _url : string;
  _props : JsVal;
  _collectionFactoryMapper : JsObject.t Factory;
  _objectFactoryMapper : JsObject.t Factory;
  _updatedProperties : list string;
  _childrenNames : list string;
  _propFindList : list QName;
  _propSetFactory : list (PropertyMap -> list XmlNode);
  _exposed : list Exposed;
  _getPropFindList : list QName
}.

(** What [_handleMultiStatusResponse] instantiates, with the arguments
    given to each constructor ([this] and [this._request] are named by the
    parent's url and request). *)
Inductive Node : Type :=
| NewDavObject (parent : string) (url : string) (props : JsVal)
| NewObject (factory : Factory) (parent : string) (url : string)
            (props : JsVal) (isPartial : bool)
| NewDavCollection (collection : DavCollection)
| NewCollection (factory : Factory) (parent : string) (url : string)
                (props : JsVal).

Record State : Type := {
  this : DavCollection;
  world : World
}.

Definition io {A} (m : M World A) : M State A :=
  fun s => let (r, w) := m (world s) in (r, {| this := this s; world := w |}).

Definition self : M State DavCollection := fun s => (Resolved (this s), s).

Definition assign_this (f : DavCollection -> DavCollection) : M State unit :=
  fun s => (Resolved tt, {| this := f (this s); world := world s |}).

Definition xmlKey (xmlNamespace xmlName : string) : string :=
  "{" ++ xmlNamespace ++ "}" ++ xmlName.

Definition expose (localName xmlNamespace xmlName : string) (mutable : bool) : Exposed :=
  {| exposed_localName := localName;
     exposed_key := xmlKey xmlNamespace xmlName;
     exposed_mutable := mutable |}.

(** A list of all property names that should be included in propfind
    requests that may include this collection. *)
Definition DavCollection_getPropFindList : list QName :=
  [(NS.DAV, "displayname"); (NS.DAV, "owner"); (NS.DAV, "resourcetype");
   (NS.DAV, "sync-token"); (NS.DAV, "current-user-privilege-set")].

(** [constructor(parent, request, url, props)]. *)
Definition new_DavCollection (parent : option string) (request : Request)
                             (url : string) (props : JsVal) : DavCollection :=
  (* This is a collection, so always make sure to end with a / *)
  let url := if negb (String.eqb (Js.slice_last url) "/") then url ++ "/" else url in
  {| _parent := parent;
     _request := request;
     _url := url;
     _props := props;
     _collectionFactoryMapper := [];
     _objectFactoryMapper := [];
     _updatedProperties := [];
     _childrenNames := [];
     _propFindList := (DavObject_getPropFindList ++ DavCollection_getPropFindList)%list;
     _propSetFactory := [davCollectionPropSet];
     _exposed := [expose "displayname" NS.DAV "displayname" true;
                  expose "owner" NS.DAV "owner" false;
                  expose "resourcetype" NS.DAV "resourcetype" false;
                  expose "syncToken" NS.DAV "sync-token" false;
                  expose "currentUserPrivilegeSet" NS.DAV
                         "current-user-privilege-set" false];
     _getPropFindList := DavCollection_getPropFindList |}.

(** The getter [url]. *)
Definition url (c : DavCollection) : string := _url c.

Definition with_props (props : JsVal) (c : DavCollection) : DavCollection :=
  {| _parent := _parent c; _request := _request c; _url := _url c;
     _props := props;
     _collectionFactoryMapper := _collectionFactoryMapper c;
     _objectFactoryMapper := _objectFactoryMapper c;
     _updatedProperties := _updatedProperties c;
     _childrenNames := _childrenNames c;
     _propFindList := _propFindList c;
     _propSetFactory := _propSetFactory c;
     _exposed := _exposed c;
     _getPropFindList := _getPropFindList c |}.

Definition with_updatedProperties (l : list string) (c : DavCollection) : DavCollection :=
  {| _parent := _parent c; _request := _request c; _url := _url c;
     _props := _props c;
     _collectionFactoryMapper := _collectionFactoryMapper c;
     _objectFactoryMapper := _objectFactoryMapper c;
     _updatedProperties := l;
     _childrenNames := _childrenNames c;
     _propFindList := _propFindList c;
     _propSetFactory := _propSetFactory c;
     _exposed := _exposed c;
     _getPropFindList := _getPropFindList c |}.

Definition with_childrenNames (l : list string) (c : DavCollection) : DavCollection :=
  {| _parent := _parent c; _request := _request c; _url := _url c;
     _props := _props c;
     _collectionFactoryMapper := _collectionFactoryMapper c;
     _objectFactoryMapper := _objectFactoryMapper c;
     _updatedProperties := _updatedProperties c;
     _childrenNames := l;
     _propFindList := _propFindList c;
     _propSetFactory := _propSetFactory c;
     _exposed := _exposed c;
     _getPropFindList := _getPropFindList c |}.

Definition with_factories (cm om : JsObject.t Factory) (pf : list QName)
                          (ps : list (PropertyMap -> list XmlNode))
                          (ex : list Exposed) (gp : list QName)
                          (c : DavCollection) : DavCollection :=
  {| _parent := _parent c; _request := _request c; _url := _url c;
     _props := _props c;
     _collectionFactoryMapper := cm;
     _objectFactoryMapper := om;
     _updatedProperties := _updatedProperties c;
     _childrenNames := _childrenNames c;
     _propFindList := pf;
     _propSetFactory := ps;
     _exposed := ex;
     _getPropFindList := gp |}.

(** [Object.entries(v)]: own enumerable properties; a string or an array
    is enumerated by index. *)
Definition indexed (l : list JsVal) : list (string * JsVal) :=
  map (fun p => (NilEmpty.string_of_uint (Nat.to_uint (fst p)), snd p))
      (combine (seq 0 (length l)) l).

Definition characters (s : string) : list JsVal :=
  map (fun c => JStr (String c EmptyString)) (list_ascii_of_string s).

Definition object_entries (v : JsVal) : Outcome (list (string * JsVal)) :=
  match v with
  | JUndefined => Rejected (TypeError "Cannot convert undefined or null to object")
  | JObj fields => Resolved (JsObject.entries fields)
  | JStr s => Resolved (indexed (characters s))
  | JArr items => Resolved (indexed (map JStr items))
  end.

(** Names a mapper created by [{}] inherits from [Object.prototype]. *)
Definition inherited_names : list string :=
  ["constructor"; "__defineGetter__"; "__defineSetter__"; "hasOwnProperty";
   "__lookupGetter__"; "__lookupSetter__"; "isPrototypeOf";
   "propertyIsEnumerable"; "toString"; "valueOf"; "__proto__";
   "toLocaleString"].

(** [mapper[key]]: the registered constructor, or [undefined]. *)
Definition mapper_lookup (mapper : JsObject.t Factory) (key : string)
  : Outcome (option Factory) :=
  match JsObject.get mapper key with
  | Some f => Resolved (Some f)
  | None => if existsb (String.eqb key) inherited_names
            then Rejected (Unmodelled "member inherited from Object.prototype")
            else Resolved None
  end.

(** [v.length === 0]. *)
Definition length_is_zero (v : JsVal) : bool :=
  match v with
  | JStr s => (String.length s =? 0)%nat
  | JArr items => (List.length items =? 0)%nat
  | JUndefined | JObj _ => false
  end.

(** [v.find(r => r !== `{${NS.DAV}}collection`)]. *)
Definition find_collectionType (v : JsVal) : Outcome (option string) :=
  match v with
  | JArr items =>
      Resolved (List.find (fun r => negb (String.eqb r (xmlKey NS.DAV "collection"))) items)
  | JUndefined => Rejected (TypeError "Cannot read properties of undefined")
  | JStr _ | JObj _ => Rejected (TypeError "find is not a function")
  end.

(** [v.split(';')[0]]. *)
Definition split_contentType (v : JsVal) : Outcome string :=
  match v with
  | JStr s => Resolved (hd EmptyString (Js.split ";" s))
  | JUndefined => Rejected (TypeError "Cannot read properties of undefined")
  | JArr _ | JObj _ => Rejected (TypeError "split is not a function")
  end.

(** The test [path === this._url || path + '/' === this.url]. *)
Definition is_own_url (c : DavCollection) (path : string) : bool :=
  String.eqb path (_url c) || String.eqb (path ++ "/") (url c).

(** The test that sends an entry to the object branch. *)
Definition object_condition (resourcetype getcontenttype : JsVal) : bool :=
  (negb (truthy resourcetype) || length_is_zero resourcetype)
  && truthy getcontenttype.

(** The callback of [Object.entries(response.body).forEach] for an entry
    that is not filtered out: the child it pushes. *)
Definition resolve_entry (c : DavCollection) (isPartial : bool)
                         (path : string) (props : JsVal) : M World Node :=
  (url <- of_outcome (pathname (_request c) path) ;;
   resourcetype <- of_outcome (js_read props "{DAV:}resourcetype") ;;
   getcontenttype <- of_outcome (js_read props "{DAV:}getcontenttype") ;;
   (* empty resourcetype property => this is no collection *)
   if object_condition resourcetype getcontenttype then
     debug (path ++ " was identified as a file") ;;;
     contentType <- of_outcome (split_contentType getcontenttype) ;;
     factory <- of_outcome (mapper_lookup (_objectFactoryMapper c) contentType) ;;
     match factory with
     | None =>
         debug ("No constructor for content-type " ++ contentType ++ " (" ++ path
                ++ ") registered, treating as generic object") ;;;
         ret (NewDavObject (_url c) url props)
     | Some f => ret (NewObject f (_url c) url props isPartial)
     end
   else
     debug (path ++ " was identified as a collection") ;;;
     (* get first collection type other than DAV collection *)
     collectionType <- of_outcome (find_collectionType resourcetype) ;;
     match collectionType with
     | None =>
         debug ("Collection-type of " ++ path
                ++ " was not specified, treating as generic collection") ;;;
         ret (NewDavCollection (new_DavCollection (Some (_url c)) (_request c) url props))
     | Some collectionType =>
         if String.eqb collectionType "" then
           debug ("Collection-type of " ++ path
                  ++ " was not specified, treating as generic collection") ;;;
           ret (NewDavCollection (new_DavCollection (Some (_url c)) (_request c) url props))
         else
           factory <- of_outcome (mapper_lookup (_collectionFactoryMapper c) collectionType) ;;
           match factory with
           | None =>
               debug ("No constructor for collection-type " ++ collectionType ++ " ("
                      ++ path ++ ") registered, treating as generic collection") ;;;
               ret (NewDavCollection
                      (new_DavCollection (Some (_url c)) (_request c) url props))
           | Some f => ret (NewCollection f (_url c) url props)
           end
     end)%js.

(** The [forEach] loop with its two accumulators [index] and [children]. *)
Fixpoint resolve_entries (c : DavCollection) (isPartial : bool)
                         (entries : list (string * JsVal))
                         (index : list string) (children : list Node)
  : M World (list string * list Node) :=
  match entries with
  | [] => ret (index, children)
  | (path, props) :: rest =>
      (* The DAV Server will always return a propStat block containing
         properties of the current url; we are not interested *)
      if is_own_url c path then resolve_entries c isPartial rest index children
      else
        (child <- resolve_entry c isPartial path props ;;
         resolve_entries c isPartial rest
                         (index ++ [path])%list (children ++ [child])%list)%js
  end.

Definition _handleMultiStatusResponse (responseBody : JsVal) (isPartial : bool)
  : M State (list Node) :=
  (c <- self ;;
   entries <- of_outcome (object_entries responseBody) ;;
   r <- io (resolve_entries c isPartial entries [] []) ;;
   assign_this (with_childrenNames (_childrenNames c ++ fst r)%list) ;;;
   ret (snd r))%js.

(** Finds all children of a collection. *)
Definition findAll : M State (list Node) :=
  (c <- self ;;
   response <- io (propFind (_request c) (_url c) (_propFindList c) "1" []) ;;
   _handleMultiStatusResponse (body response) false)%js.

(** Finds all children of a collection filtered by filter. *)
Definition findAllByFilter (filter : Node -> bool) : M State (list Node) :=
  (all <- findAll ;; ret (List.filter filter all))%js.

(** Find one object by its uri; [None] is [undefined]. *)
Definition find (uri : string) : M State (option Node) :=
  (c <- self ;;
   response <- io (propFind (_request c) (_url c ++ uri) (_propFindList c) "0" []) ;;
   children <- _handleMultiStatusResponse
                 (JObj [(_url c ++ uri, body response)]) false ;;
   ret (nth_error children 0))%js.

Definition _getAvailableNameFromToken (c : DavCollection) (token : string) : string :=
  StringUtility_uri token
    (fun name =>
       negb (existsb (String.eqb (_url c ++ name)) (_childrenNames c))
       && negb (existsb (String.eqb (_url c ++ name ++ "/")) (_childrenNames c))).

(** Creates a new webdav collection. *)
Definition createCollection (name : string) (props : option (list XmlNode))
  : M State (option Node) :=
  (io (debug "creating a collection") ;;;
   c <- self ;;
   let props :=
     match props with
     | Some p => p
     | None => [Xml (NS.DAV, "resourcetype") []
                    [Xml (NS.DAV, "collection") [] [] None] None]
     end in
   let uri := _getAvailableNameFromToken c name in
   data <- io (serialize (getRootSkeleton (NS.DAV, "mkcol")
                            [(NS.DAV, "set"); (NS.DAV, "prop")] props)) ;;
   io (mkCol (_request c) (url c ++ uri) [] (Some data)) ;;;
   find (uri ++ "/"))%js.

(** Creates a new webdav object inside this collection. *)
Definition createObject (name : string) (headers : JsObject.t string)
                        (data : string) : M State (option Node) :=
  (io (debug "creating an object") ;;;
   c <- self ;;
   io (put (_request c) (url c ++ name) headers (Some data)) ;;;
   find name)%js.

(** The [forEach] of [update]:
    [properties[updatedProperty] = this._props[updatedProperty]]. *)
Fixpoint gather_properties (props : JsVal) (updatedProperties : list string)
                           (properties : PropertyMap) : Outcome PropertyMap :=
  match updatedProperties with
  | [] => Resolved properties
  | updatedProperty :: rest =>
      match js_read props updatedProperty with
      | Resolved v => gather_properties props rest (js_put properties updatedProperty v)
      | Rejected e => Rejected e
      end
  end.

(** [this._propSetFactory.reduce((arr, p) => [...arr, ...p(properties)], [])]. *)
Definition propSet_of (factories : list (PropertyMap -> list XmlNode))
                      (properties : PropertyMap) : list XmlNode :=
  fold_left (fun arr p => (arr ++ p properties)%list) factories [].

Definition propertyupdate (propSet : list XmlNode) : XmlNode :=
  getRootSkeleton (NS.DAV, "propertyupdate") [(NS.DAV, "set"); (NS.DAV, "prop")] propSet.

(** Sends a PropPatch request to update the collections' properties.  The
    request is only made if properties actually changed. *)
Definition update : M State unit :=
  (c <- self ;;
   if (List.length (_updatedProperties c) =? 0)%nat then ret tt
   else
     properties <- of_outcome (gather_properties (_props c) (_updatedProperties c) []) ;;
     let propSet := propSet_of (_propSetFactory c) properties in
     body <- io (serialize (propertyupdate propSet)) ;;
     io (propPatch (_request c) (_url c) [] (Some body)) ;;;
     ret tt)%js.

(** Deletes the DavCollection on the server. *)
Definition delete_ (headers : JsObject.t string) : M State unit :=
  (c <- self ;;
   io (delete (_request c) (_url c) headers None) ;;;
   ret tt)%js.

Definition register_propFindList (factory : Factory) (l : list QName) : list QName :=
  match factory_getPropFindList factory with
  | Some more => (l ++ more)%list
  | None => l
  end.

Definition _registerCollectionFactory (identifier : string) (factory : Factory)
  : M State unit :=
  if String.eqb identifier "__proto__"
  then throw (Unmodelled "factory installed as prototype of the mapper")
  else assign_this (fun c =>
         with_factories (JsObject.set (_collectionFactoryMapper c) identifier factory)
                        (_objectFactoryMapper c)
                        (register_propFindList factory (_propFindList c))
                        (_propSetFactory c) (_exposed c) (_getPropFindList c) c).

Definition _registerObjectFactory (identifier : string) (factory : Factory)
  : M State unit :=
  if String.eqb identifier "__proto__"
  then throw (Unmodelled "factory installed as prototype of the mapper")
  else assign_this (fun c =>
         with_factories (_collectionFactoryMapper c)
                        (JsObject.set (_objectFactoryMapper c) identifier factory)
                        (register_propFindList factory (_propFindList c))
                        (_propSetFactory c) (_exposed c) (_getPropFindList c) c).

Definition _registerPropSetFactory (factory : PropertyMap -> list XmlNode)
  : M State unit :=
  assign_this (fun c =>
    with_factories (_collectionFactoryMapper c) (_objectFactoryMapper c)
                   (_propFindList c) (_propSetFactory c ++ [factory])%list
                   (_exposed c) (_getPropFindList c) c).

Definition is_exposed (c : DavCollection) (localName : string) : option Exposed :=
  List.find (fun e => String.eqb (exposed_localName e) localName) (_exposed c).



(** [Object.defineProperty(this, localName, ..)].  A name that is already
    an accessor of the node (an exposed property, or [url]) is not
    configurable and cannot be redefined.  Any other name is defined, be it
    new or the name of a member: the accessor then replaces the data field
    or shadows the method, and the node is no longer [intact]. *)
Definition _exposeProperty (localName xmlNamespace xmlName : string) (mutable : bool)
  : M State unit :=
  (c <- self ;;
   if String.eqb localName "url" then throw (TypeError "Cannot redefine property: url")
   else match is_exposed c localName with
        | Some _ => throw (TypeError "Cannot redefine property")
        | None =>
            assign_this
              (with_factories (_collectionFactoryMapper c) (_objectFactoryMapper c)
                 (_propFindList c) (_propSetFactory c)
                 (_exposed c ++ [expose localName xmlNamespace xmlName mutable])%list
                 (_getPropFindList c))
        end)%js.

(** [this._props[key] = val] in module (strict) code. *)
Definition props_assign (props : JsVal) (key : string) (val : JsVal) : Outcome JsVal :=
  match props with
  | JObj fields => Resolved (JObj (js_put fields key val))
  | JUndefined => Rejected (TypeError "Cannot set properties of undefined")
  | JStr _ => Rejected (TypeError "Cannot create property on string")
  | JArr _ => Rejected (Unmodelled "named property on an array")
  end.

(** The assignment [node.localName = val] for [url] and for the names
    defined by [_exposeProperty]. *)
Definition set_property (localName : string) (val : JsVal) : M State unit :=
  (c <- self ;;
   if String.eqb localName "url"
   then throw (TypeError "Cannot set property url which has only a getter")
   else match is_exposed c localName with
        | None => throw (Unmodelled "assignment to a name that is not exposed")
        | Some e =>
            if exposed_mutable e then
              props <- of_outcome (props_assign (_props c) (exposed_key e) val) ;;
              assign_this (with_props props) ;;;
              if existsb (String.eqb (exposed_key e)) (_updatedProperties c)
              then ret tt
              else assign_this (fun c' =>
                     with_updatedProperties
                       (_updatedProperties c' ++ [exposed_key e])%list c')
            else throw (TypeError "Cannot set property which has only a getter")
        end)%js.

(** The getter of an exposed property. *)
Definition get_property (c : DavCollection) (localName : string) : Outcome JsVal :=
  match is_exposed c localName with
  | Some e => js_read (_props c) (exposed_key e)
  | None => Rejected (Unmodelled "read of a name that is not exposed")
  end.


(** Get updated properties for this collection from server. *)
Definition _updatePropsFromServer : M State unit :=
  (c <- self ;;
   response <- io (propFind (_request c) (url c) (_getPropFindList c) "0" []) ;;
   assign_this (with_props (body response)))%js.

End DavCollectionClass.

(* ================================================================== *)
(** ** [src/models/davCollectionPublishable.js] *)

Section DavCollectionPublishable.
Context `{Platform}.

Definition publish_url_key : string := "{http://calendarserver.org/ns/}publish-url".


Definition xml_content_type : JsObject.t string :=
  [("Content-Type", "application/xml; charset=utf-8")].

(** Publishes the DavCollection. *)
Definition publish : M State unit :=
  (c <- self ;;
   io (debug ("Publishing " ++ url c)) ;;;
   xml <- io (serialize (getRootSkeleton (NS.CALENDARSERVER, "publish-calendar") [] [])) ;;
   io (post (_request c) (_url c) xml_content_type (Some xml)) ;;;
   _updatePropsFromServer)%js.

(** [delete this._props[key]]. *)
Definition props_delete (props : JsVal) (key : string) : Outcome JsVal :=
  match props with
  | JObj fields => Resolved (JObj (JsObject.delete fields key))
  | JUndefined => Rejected (TypeError "Cannot convert undefined or null to object")
  | JStr _ | JArr _ => Resolved props
  end.

(** Unpublishes the DavCollection. *)
Definition unpublish : M State unit :=
  (c <- self ;;
   io (debug ("Unpublishing " ++ url c)) ;;;
   xml <- io (serialize (getRootSkeleton (NS.CALENDARSERVER, "unpublish-calendar") [] [])) ;;
   io (post (_request c) (_url c) xml_content_type (Some xml)) ;;;
   c' <- self ;;
   props <- of_outcome (props_delete (_props c') publish_url_key) ;;
   assign_this (with_props props))%js.

End DavCollectionPublishable.

(* ================================================================== *)
(** ** The operations a caller can run on a collection *)

Section Operations.
Context `{Platform}.

Inductive Operation : Type :=
| OpFindAll
| OpFindAllByFilter (filter : Node -> bool)
| OpFind (uri : string)
| OpCreateCollection (name : string) (props : option (list XmlNode))
| OpCreateObject (name : string) (headers : JsObject.t string) (data : string)
| OpUpdate
| OpDelete (headers : JsObject.t string)
| OpRegisterCollectionFactory (identifier : string) (factory : Factory)
| OpRegisterObjectFactory (identifier : string) (factory : Factory)
| OpRegisterPropSetFactory (factory : PropertyMap -> list XmlNode)
| OpExposeProperty (localName xmlNamespace xmlName : string) (mutable : bool)
| OpSetProperty (localName : string) (val : JsVal)
| OpUpdatePropsFromServer
| OpHandleMultiStatusResponse (responseBody : JsVal) (isPartial : bool)
| OpPublish
| OpUnpublish.


(** The state an operation leaves, whether it settles or throws. *)
Definition perform (s : State) (op : Operation) : State :=
  match op with
  | OpFindAll => snd (findAll s)
  | OpFindAllByFilter filter => snd (findAllByFilter filter s)
  | OpFind uri => snd (find uri s)
  | OpCreateCollection name props => snd (createCollection name props s)
  | OpCreateObject name headers data => snd (createObject name headers data s)
  | OpUpdate => snd (update s)
  | OpDelete headers => snd (delete_ headers s)
  | OpRegisterCollectionFactory i f => snd (_registerCollectionFactory i f s)
  | OpRegisterObjectFactory i f => snd (_registerObjectFactory i f s)
  | OpRegisterPropSetFactory f => snd (_registerPropSetFactory f s)
  | OpExposeProperty l ns n m => snd (_exposeProperty l ns n m s)
  | OpSetProperty l v => snd (set_property l v s)
  | OpUpdatePropsFromServer => snd (_updatePropsFromServer s)
  | OpHandleMultiStatusResponse b p => snd (_handleMultiStatusResponse b p s)
  | OpPublish => snd (publish s)
  | OpUnpublish => snd (unpublish s)
  end.

Definition node_props (n : Node) : JsVal :=
  match n with
  | NewDavObject _ _ props => props
  | NewObject _ _ _ props _ => props
  | NewDavCollection c => _props c
  | NewCollection _ _ _ props => props
  end.


(** Instantiated through the object branch ([DavObject] or a registered
    object constructor). *)
Definition is_object_node (n : Node) : bool :=
  match n with
  | NewDavObject _ _ _ | NewObject _ _ _ _ _ => true
  | NewDavCollection _ | NewCollection _ _ _ _ => false
  end.

End Operations.

(* ================================================================== *)
(** ** A concrete platform and concrete responses, for running the model *)

Module Sample.

Definition displayname := "{DAV:}displayname".
Definition resourcetype := "{DAV:}resourcetype".
Definition getcontenttype := "{DAV:}getcontenttype".

(** Decodes the three properties above and [publish-url]; a resourcetype
    element lists its types separated by blanks.  The decoder throws on a
    content type that holds no [/]. *)
Definition sample_parser : Parser :=
  {| canParse := fun key =>
       existsb (String.eqb key)
               [displayname; resourcetype; getcontenttype;
                "{http://calendarserver.org/ns/}publish-url"];
     parse := fun _ node =>
       if String.eqb (localName node) "resourcetype"
       then JArr (filter (fun t => negb (String.eqb t ""))
                         (Js.split " " (textContent node)))
       else JStr (textContent node);
     canParse_throws := fun _ => false;
     parse_throws := fun _ node =>
       String.eqb (localName node) "getcontenttype"
       && (List.length (Js.split "/" (textContent node)) =? 1)%nat |}.

Definition rq : Request := {| baseUrl := "https://host/dav/"; parser := sample_parser |}.

Definition dav (name text : string) : PropNode :=
  {| namespaceURI := Some "DAV:"; localName := name; textContent := text |}.

Definition ok (nodes : list PropNode) : PropStat :=
  {| status_text := "HTTP/1.1 200 OK"; prop_nodes := nodes |}.

Definition not_found (nodes : list PropNode) : PropStat :=
  {| status_text := "HTTP/1.1 404 Not Found"; prop_nodes := nodes |}.

(** Depth 1 on [/dav/alice/]: the collection itself and one calendar. *)
Definition doc_alice : Document :=
  [ {| href := "/dav/alice/";
       propStats := [ok [dav "displayname" "Alice"; dav "resourcetype" "{DAV:}collection"]] |};
    {| href := "/dav/alice/personal/";
       propStats :=
         [ok [dav "resourcetype" "{DAV:}collection {urn:ietf:params:xml:ns:caldav}calendar";
              dav "displayname" "Personal"];
          not_found [dav "getcontenttype" "text/calendar"]] |} ].

(** Depth 0 on [/dav/alice/personal/]. *)
Definition doc_personal : Document :=
  [ {| href := "/dav/alice/personal/";
       propStats := [ok [dav "resourcetype" "{DAV:}collection";
                         dav "displayname" "Personal"]] |} ].

(** Two responses, the requested path second. *)
Definition doc_two : Document :=
  [ {| href := "/dav/alice/other/";
       propStats := [ok [dav "resourcetype" "{DAV:}collection";
                         dav "displayname" "Other"]] |};
    {| href := "/dav/alice/work/";
       propStats := [ok [dav "resourcetype" "{DAV:}collection";
                         dav "displayname" "Work"]] |} ].

(** The same href in two responses. *)
Definition doc_twice : Document :=
  [ {| href := "/dav/alice/a";
       propStats := [ok [dav "displayname" "First"]] |};
    {| href := "/dav/alice/a";
       propStats := [ok [dav "getcontenttype" "text/vcard"]] |} ].

(** A child for which no requested property was found. *)
Definition doc_bare : Document :=
  [ {| href := "/dav/alice/bare";
       propStats := [not_found [dav "resourcetype" ""; dav "displayname" ""]] |} ].

(** The collection echoed under its absolute URI, with one calendar. *)
Definition doc_absolute : Document :=
  [ {| href := "https://host/dav/alice/";
       propStats := [ok [dav "displayname" "Alice"; dav "resourcetype" "{DAV:}collection"]] |};
    {| href := "https://host/dav/alice/personal/";
       propStats := [ok [dav "resourcetype" "{DAV:}collection";
                         dav "displayname" "Personal"]] |} ].

(** A content type the decoder throws on. *)
Definition doc_broken : Document :=
  [ {| href := "/dav/alice/broken";
       propStats := [ok [dav "getcontenttype" "calendar"]] |} ].

(** A vCard with an entity tag, which the sample parser does not decode. *)
Definition doc_card : Document :=
  [ {| href := "/dav/alice/card.vcf";
       propStats := [ok [dav "getetag" "W/1"; dav "getcontenttype" "text/vcard"]] |} ].

(** The deleted objects of a trash bin: one event. *)
Definition doc_deleted : Document :=
  [ {| href := "/dav/alice/objects/e.ics";
       propStats := [ok [dav "getcontenttype" "text/calendar; charset=utf-8"]] |} ].

(** [new URL(url, base)] for the urls of the sample: an absolute URI of the
    sample host, or else a path on it; [//] names no host and is refused. *)
Definition sample_URL (url base : string) : option URL :=
  if String.eqb url "//" then None
  else if String.prefix "https://host/" url
       then Some {| url_href := url;
                    url_pathname := String.substring 12 (String.length url - 12) url |}
       else Some {| url_href := "https://host" ++ url; url_pathname := url |}.

Fixpoint render (n : XmlNode) : string :=
  match n with
  | Xml (ns, l) _ children value =>
      "<{" ++ ns ++ "}" ++ l ++ ">"
      ++ String.concat "" (map render children)
      ++ match value with Some (JStr s) => s | _ => "" end
      ++ "</>"
  end.

(** A stand-in for the encoder of [{DAV:}displayname]. *)
Definition displayname_propSet (props : PropertyMap) : list XmlNode :=
  flat_map (fun e => if String.eqb (fst e) displayname
                     then [Xml (NS.DAV, "displayname") [] [] (Some (snd e))]
                     else [])
           (JsObject.entries props).

(** The server: PROPFIND and REPORT answer 207 with the document of the
    url, GET is answered 404, which the client refuses, every other method
    answers 207 with an empty body. *)
#[export] Instance platform : Platform :=
  {| PrefixMap := unit;
     xml_serialize := fun p n => (render n, p);
     dom_parseFromString := fun body =>
       if String.eqb body "https://host/dav/alice/" then doc_alice
       else if String.eqb body "https://host/dav/alice/personal/" then doc_personal
       else if String.eqb body "https://host/dav/alice/work/" then doc_two
       else if String.eqb body "https://host/dav/alice/a" then doc_twice
       else if String.eqb body "https://host/dav/alice/bare" then doc_bare
       else if String.eqb body "https://host/dav/alice/echo/" then doc_absolute
       else if String.eqb body "https://host/dav/alice/broken" then doc_broken
       else if String.eqb body "https://host/dav/alice/card.vcf" then doc_card
       else if String.eqb body "https://host/dav/alice/objects" then doc_deleted
       else [];
     new_URL := sample_URL;
     axios_request := fun _ config =>
       if String.eqb (cfg_method config) "PROPFIND"
          || String.eqb (cfg_method config) "REPORT"
       then AxiosFulfilled 207 (cfg_url config)
       else if String.eqb (cfg_method config) "GET"
       then AxiosRejected (axios_status_error 404)
       else AxiosFulfilled 207 "";
     davCollectionPropSet := displayname_propSet;
     DavObject_getPropFindList := [(NS.DAV, "getcontenttype"); (NS.DAV, "getetag");
                                   (NS.DAV, "resourcetype")];
     StringUtility_uri := fun token _ => token |}.

Definition world0 : World := {| sent := []; debugged := []; prefixes := tt |}.

Definition alice : DavCollection :=
  new_DavCollection None rq "/dav/alice"
                    (JObj [(displayname, JStr "Alice");
                           (publish_url_key, JStr "https://host/p/1")]).

Definition state0 : State := {| this := alice; world := world0 |}.

(** [alice.displayname = 'Alice B.'] *)
Definition state_dirty : State :=
  snd (set_property "displayname" (JStr "Alice B.") state0).

End Sample.

(* ================================================================== *)
(** ** Vocabulary of the statements *)

Section Vocabulary.
Context `{Platform}.

(** [props[key]] of an object: [undefined] when there is no such key. *)
Definition prop_of (fields : PropertyMap) (key : string) : JsVal :=
  match JsObject.get fields key with Some v => v | None => JUndefined end.

(** A propstat block whose status line carries a code in the 2xx section. *)
Definition successful (ps : PropStat) : bool :=
  wasRequestSuccessful (getStatusCodeFromString (status_text ps)).

(** A response without its unsuccessful propstat blocks. *)
Definition successful_only (r : ResponseNode) : ResponseNode :=
  {| href := href r; propStats := filter successful (propStats r) |}.

(** The property elements a response writes, in document order: those
    under a successful propstat that the parser accepts. *)
Definition writes (rq : Request) (r : ResponseNode) : list PropNode :=
  flat_map (fun ps => if successful ps
                      then filter (fun n => canParse (parser rq) (clark n)) (prop_nodes ps)
                      else [])
           (propStats r).

(** The last [response] element of a path. *)
Definition last_response (path : string) (responses : list ResponseNode)
  : option ResponseNode :=
  List.find (fun r => String.eqb (href r) path) (rev responses).

(** The last value written for a key by one response. *)
Definition last_write_within (rq : Request) (document : Document)
                             (r : ResponseNode) (key : string) : option JsVal :=
  option_map (parse (parser rq) document)
             (List.find (fun n => String.eqb (clark n) key) (rev (writes rq r))).

(** The last value written for a key across all the [response] elements
    of a path (the reading "per-property-key last-write-wins"). *)
Definition last_write_across (rq : Request) (document : Document)
                             (path key : string) : option JsVal :=
  option_map (parse (parser rq) document)
             (List.find (fun n => String.eqb (clark n) key)
                (rev (flat_map (fun r => if String.eqb (href r) path
                                         then writes rq r else [])
                               document))).

(** The reading of the reducer in which, for a path met in several
    [response] elements, each key holds the last value written for it
    across all of them. *)
Definition per_key_last_write_wins (rq : Request) (body : string)
                                   (path key : string) : Prop :=
  forall props,
    JsObject.get (_parseMultiStatusResponse rq body) path = Some props ->
    JsObject.get props key = last_write_across rq (dom_parseFromString body) path key.


(** [child] is what the callback of [_handleMultiStatusResponse]
    instantiates for the entry [e]. *)
Definition child_of (c : DavCollection) (isPartial : bool)
                    (e : string * JsVal) (child : Node) : Prop :=
  exists w0 w1, resolve_entry c isPartial (fst e) (snd e) w0 = (Resolved child, w1).

(** The value a call settled with, or [d] if it threw. *)
Definition resolved_or {A} (d : A) (o : Outcome A) : A :=
  match o with Resolved a => a | Rejected _ => d end.

(** The reading of [update] in which a successful response clears the
    dirty set. *)
Definition dirty_set_cleared_on_success (s : State) : Prop :=
  fst (update s) = Resolved tt -> _updatedProperties (this (snd (update s))) = [].

(** The reading of [find] in which the returned node holds the property
    map that the 207 body [data] of the server associates with the path
    [url + uri]. *)
Definition find_returns_requested_entry (s : State) (uri data : string) : Prop :=
  (forall config,
      cfg_method config = "PROPFIND" ->
      absoluteUrl (_request (this s)) (_url (this s) ++ uri)
      = Resolved (cfg_url config) ->
      axios_request (sent (world s)) config = AxiosFulfilled 207 data) ->
  forall node props,
    fst (find uri s) = Resolved (Some node) ->
    JsObject.get (_parseMultiStatusResponse (_request (this s)) data)
                 (_url (this s) ++ uri) = Some props ->
    node_props node = JObj props.



(** The reading of the classification in which a getcontenttype that is
    merely present makes an untyped entry an object. *)
Definition object_iff_content_type_present
           (c : DavCollection) (isPartial : bool) (path : string)
           (fields : PropertyMap) (w : World) : Prop :=
  forall n,
    fst (resolve_entry c isPartial path (JObj fields) w) = Resolved n ->
    (is_object_node n = true
     <-> (prop_of fields "{DAV:}resourcetype" = JUndefined
          \/ prop_of fields "{DAV:}resourcetype" = JArr [])
         /\ JsObject.get fields "{DAV:}getcontenttype" <> None).

End Vocabulary.

(* ================================================================== *)
(** ** The remaining methods of the sources *)

(** [s.slice(0, -1)]: everything but the last character. *)
Fixpoint slice_init (s : string) : string :=
  match s with
  | EmptyString => EmptyString
  | String _ EmptyString => EmptyString
  | String c r => String c (slice_init r)
  end.

(** [s.lastIndexOf(c)] for a one-character [c]; [None] is [-1]. *)
Fixpoint lastIndexOf (c : ascii) (s : string) : option nat :=
  match s with
  | EmptyString => None
  | String a r =>
      match lastIndexOf c r with
      | Some i => Some (S i)
      | None => if Ascii.eqb a c then Some 0%nat else None
      end
  end.

(** [s.slice(n)] for [n >= 0]. *)
Fixpoint slice_from (n : nat) (s : string) : string :=
  match n, s with
  | O, _ => s
  | S n', String _ r => slice_from n' r
  | S _, EmptyString => EmptyString
  end.

(** [s.includes(sub)] and [s.indexOf(sub) !== -1] on strings. *)
Fixpoint includes (sub s : string) : bool :=
  String.prefix sub s
  || match s with
     | EmptyString => false
     | String _ r => includes sub r
     end.

(** A string in which the character [c] does not occur. *)
Definition lacks (c : ascii) (s : string) : Prop := ~ In c (list_ascii_of_string s).

(** An object as the sources build them: no key twice. *)
Definition js_wf {V} (o : JsObject.t V) : Prop := NoDup (map fst o).

Section RequestRest.
Context `{Platform}.

(** Returns name of file / folder of a url.  The pathname of a URL is
    ASCII, so its last character is its last byte. *)
Definition filename (rq : Request) (url : string) : Outcome string :=
  match pathname rq url with
  | Rejected e => Rejected e
  | Resolved pathname0 =>
      let pathname1 := if String.eqb (Js.slice_last pathname0) "/"
                       then slice_init pathname0 else pathname0 in
      Resolved match lastIndexOf "/" pathname1 with
               | Some slashPos => slice_from slashPos pathname1
               | None => Js.slice_last pathname1
               end
  end.

End RequestRest.

Section DavCollectionRest.
Context `{Platform}.

(** [v.includes(x)] on the value of a property getter. *)
Definition value_includes (v : JsVal) (x : string) : Outcome bool :=
  match v with
  | JArr items => Resolved (existsb (String.eqb x) items)
  | JStr s => Resolved (includes x s)
  | JUndefined => Rejected (TypeError "Cannot read properties of undefined")
  | JObj _ => Rejected (TypeError "includes is not a function")
  end.

Definition isReadable (c : DavCollection) : Outcome bool :=
  match get_property c "currentUserPrivilegeSet" with
  | Resolved v => value_includes v "{DAV:}read"
  | Rejected e => Rejected e
  end.

Definition isWriteable (c : DavCollection) : Outcome bool :=
  match get_property c "currentUserPrivilegeSet" with
  | Resolved v => value_includes v "{DAV:}write"
  | Rejected e => Rejected e
  end.

(** [a.find((r) => b.indexOf(r) === -1)] followed by [=== undefined]: the
    callback runs on the elements of [a] only, so nothing is asked of [b]
    when [a] is empty. *)
Definition no_difference (a b : JsVal) : Outcome bool :=
  match a with
  | JArr own =>
      match own, b with
      | [], _ => Resolved true
      | _ :: _, JArr foreign =>
          Resolved (forallb (fun r => existsb (String.eqb r) foreign) own)
      | _ :: _, JStr foreign =>
          Resolved (forallb (fun r => includes r foreign) own)
      | _ :: _, JUndefined =>
          Rejected (TypeError "Cannot read properties of undefined")
      | _ :: _, JObj _ => Rejected (TypeError "indexOf is not a function")
      end
  | JUndefined => Rejected (TypeError "Cannot read properties of undefined")
  | JStr _ | JObj _ => Rejected (TypeError "find is not a function")
  end.

(** Checks whether this is of the same type as another collection. *)
Definition isSameCollectionTypeAs (c collection : DavCollection) : Outcome bool :=
  match get_property c "resourcetype" with
  | Rejected e => Rejected e
  | Resolved ownResourceType =>
      match get_property collection "resourcetype" with
      | Rejected e => Rejected e
      | Resolved foreignResourceType =>
          match no_difference ownResourceType foreignResourceType with
          | Rejected e => Rejected e
          | Resolved ownSame =>
              match no_difference foreignResourceType ownResourceType with
              | Rejected e => Rejected e
              | Resolved foreignSame => Resolved (ownSame && foreignSame)
              end
          end
      end
  end.

(** The checker [_getAvailableNameFromToken] hands to [StringUtility.uri]. *)
Definition name_is_available (c : DavCollection) (name : string) : bool :=
  negb (existsb (String.eqb (_url c ++ name)) (_childrenNames c))
  && negb (existsb (String.eqb (_url c ++ name ++ "/")) (_childrenNames c)).


(** A call that rejects with [e] after handing exactly one request, of the
    given method, to the client, and leaves the node as it was. *)
Definition rejects_after_one_request {A} (method : string) (m : M State A)
                                     (s : State) (e : JsError) : Prop :=
  fst (m s) = Rejected e
  /\ this (snd (m s)) = this s
  /\ exists config, sent (world (snd (m s))) = (sent (world s) ++ [config])%list
                    /\ cfg_method config = method.

(** A url that [new URL] resolves against the base url of the request. *)
Definition resolves (rq : Request) (url : string) : Prop :=
  exists href, absoluteUrl rq url = Resolved href.

(** A call that rejects with [e] before anything is handed to the client,
    and leaves the node as it was. *)
Definition rejects_before_any_request {A} (m : M State A)
                                      (s : State) (e : JsError) : Prop :=
  fst (m s) = Rejected e
  /\ this (snd (m s)) = this s
  /\ sent (world (snd (m s))) = sent (world s).

(** A call whose first request goes to [url] and which ends there: with the
    error of the URL constructor and nothing sent when [url] does not
    resolve, with [e] after that one request otherwise. *)
Definition ends_at_first_request {A} (method url : string) (m : M State A)
                                 (s : State) (e : JsError) : Prop :=
  match absoluteUrl (_request (this s)) url with
  | Resolved _ => rejects_after_one_request method m s e
  | Rejected e' => rejects_before_any_request m s e'
  end.


End DavCollectionRest.

(* ================================================================== *)
(** ** The calendar trash bin ([src/unnamed/part_002]) *)

Section CalendarTrashBinClass.
Context `{Platform}.

(** [NS.NEXTCLOUD], and the static [getPropFindList()] of [VObject]; their
    files are not among the sources. *)
Variable NS_NEXTCLOUD : string.
Variable VObject_getPropFindList : list QName.

(** [NS.IETF_CALDAV]. *)
Definition NS_IETF_CALDAV : string := "urn:ietf:params:xml:ns:caldav".

Definition VObject : Factory :=
  {| factory_name := "VObject";
     factory_getPropFindList := Some VObject_getPropFindList |}.

(** [constructor(...args)]: the base constructor, then
    [_registerObjectFactory('text/calendar', VObject)] and
    [_exposeProperty('retentionDuration', ..)]. *)
Definition new_CalendarTrashBin (parent : option string) (request : Request)
                                (url : string) (props : JsVal) : DavCollection :=
  let c := new_DavCollection parent request url props in
  with_factories (_collectionFactoryMapper c)
    (JsObject.set (_objectFactoryMapper c) "text/calendar" VObject)
    (register_propFindList VObject (_propFindList c))
    (_propSetFactory c)
    (_exposed c ++ [expose "retentionDuration" NS_NEXTCLOUD
                           "trash-bin-retention-duration" false])%list
    (_getPropFindList c) c.

(** The body of the REPORT of [findDeletedObjects]. *)
Definition deleted_objects_query : XmlNode :=
  getRootSkeleton (NS_IETF_CALDAV, "calendar-query") []
    [Xml (NS.DAV, "prop") []
         (map (fun p => Xml p [] [] None) VObject_getPropFindList
          ++ [Xml (NS_NEXTCLOUD, "calendar-uri") [] [] None;
              Xml (NS_NEXTCLOUD, "deleted-at") [] [] None])%list
         None;
     Xml (NS_IETF_CALDAV, "filter") []
         [Xml (NS_IETF_CALDAV, "comp-filter") [("name", "VCALENDAR")]
              [Xml (NS_IETF_CALDAV, "comp-filter") [("name", "VEVENT")] [] None]
              None]
         None].

Definition findDeletedObjects : M State (list Node) :=
  (c <- self ;;
   xml <- io (serialize deleted_objects_query) ;;
   response <- io (report (_request c) (_url c ++ "objects") [("Depth", "1")]
                          (Some xml)) ;;
   _handleMultiStatusResponse (body response) false)%js.

Definition restore (uri : string) : M State unit :=
  (c <- self ;;
   io (move (_request c) uri (_url c ++ "restore/file") false [] None) ;;;
   ret tt)%js.

End CalendarTrashBinClass.

(* ================================================================== *)
(** ** A platform whose server cannot be reached *)

Module Offline.

Definition unreachable : AxiosError :=
  {| isCancel := false; error_request := true;
     error_status := None; error_data := None |}.

(** The platform of [Sample], except that the client rejects every request
    without a response. *)
Definition platform : Platform :=
  {| PrefixMap := unit;
     xml_serialize := fun p n => (Sample.render n, p);
     dom_parseFromString := fun _ => [];
     new_URL := Sample.sample_URL;
     axios_request := fun _ _ => AxiosRejected unreachable;
     davCollectionPropSet := Sample.displayname_propSet;
     DavObject_getPropFindList := [(NS.DAV, "getcontenttype"); (NS.DAV, "getetag");
                                   (NS.DAV, "resourcetype")];
     StringUtility_uri := fun token _ => token |}.

End Offline.

(* ================================================================== *)
(** * Properties *)

(** ** Own properties *)

Module JsObjectFacts.
Import JsObject.

Section Facts.
Context {V : Type}.
Implicit Types (o : t V) (k : string) (v : V).

Lemma get_set_same o k v : get (set o k v) k = Some v.
Proof.
  induction o as [|[k' v'] r IH]; simpl.
  - now rewrite String.eqb_refl.
  - destruct (String.eqb k' k) eqn:E; simpl; rewrite E; auto.
Qed.

Lemma get_set_other o k k' v : k <> k' -> get (set o k v) k' = get o k'.
Proof.
  intros Hne. induction o as [|[k0 v0] r IH]; simpl.
  - destruct (String.eqb k k') eqn:E; auto.
    apply String.eqb_eq in E. contradiction.
  - destruct (String.eqb k0 k) eqn:E; simpl.
    + apply String.eqb_eq in E. subst k0.
      destruct (String.eqb k k') eqn:E'; auto.
      apply String.eqb_eq in E'. contradiction.
    + now rewrite IH.
Qed.

Lemma get_delete_same o k : get (delete o k) k = None.
Proof.
  induction o as [|[k' v'] r IH]; simpl; auto.
  destruct (String.eqb k' k) eqn:E; simpl; auto. now rewrite E.
Qed.

Lemma get_delete_other o k k' : k <> k' -> get (delete o k) k' = get o k'.
Proof.
  intros Hne. induction o as [|[k0 v0] r IH]; simpl; auto.
  destruct (String.eqb k0 k) eqn:E; simpl.
  - apply String.eqb_eq in E. subst k0.
    destruct (String.eqb k k') eqn:E'; auto.
    apply String.eqb_eq in E'. contradiction.
  - now rewrite IH.
Qed.

(** Reading after the assignment statement [o[k] = v]. *)
Lemma get_put o k v k' :
  get (js_put o k v) k' =
  if String.eqb k "__proto__" then get o k'
  else if String.eqb k k' then Some v else get o k'.
Proof.
  unfold js_put. destruct (String.eqb k "__proto__"); auto.
  destruct (String.eqb k k') eqn:E.
  - apply String.eqb_eq in E. subst. apply get_set_same.
  - apply get_set_other. intros ->. now rewrite String.eqb_refl in E.
Qed.

(** A loop of assignments: the last write to a key wins. *)
Lemma get_fold_put {X : Type} (key : X -> string) (val : X -> V)
      (xs : list X) (init : t V) (k : string) :
  get (fold_left (fun acc x => js_put acc (key x) (val x)) xs init) k =
  if String.eqb k "__proto__" then get init k
  else match List.find (fun x => String.eqb (key x) k) (rev xs) with
       | Some x => Some (val x)
       | None => get init k
       end.
Proof.
  induction xs as [|x xs IH] using rev_ind; simpl.
  - now destruct (String.eqb k "__proto__").
  - rewrite fold_left_app, rev_app_distr. simpl.
    rewrite get_put, IH.
    destruct (String.eqb (key x) k) eqn:E.
    + apply String.eqb_eq in E. subst k.
      now destruct (String.eqb (key x) "__proto__").
    + now destruct (String.eqb (key x) "__proto__"), (String.eqb k "__proto__").
Qed.

End Facts.
End JsObjectFacts.

(** ** The model on small inputs *)

Example status_line_ok : getStatusCodeFromString "HTTP/1.1 200 OK" = Some 200%Z.
Proof. reflexivity. Qed.

Example status_line_two_blanks : getStatusCodeFromString "HTTP/1.1  200 OK" = None.
Proof. reflexivity. Qed.

Example status_line_not_found :
  wasRequestSuccessful (getStatusCodeFromString "HTTP/1.1 404 Not Found") = false.
Proof. reflexivity. Qed.

Example status_line_empty : wasRequestSuccessful (getStatusCodeFromString "") = false.
Proof. reflexivity. Qed.

Example keys_indices_first :
  JsObject.keys [("b", 1); ("10", 2); ("9", 3); ("01", 4)] = ["9"; "10"; "b"; "01"].
Proof. reflexivity. Qed.

Example content_type_without_parameters :
  split_contentType (JStr "text/calendar; charset=utf-8") = Resolved "text/calendar".
Proof. reflexivity. Qed.

Example url_gets_separator :
  url (new_DavCollection (H := Sample.platform) None Sample.rq "/dav/alice" JUndefined)
  = "/dav/alice/".
Proof. reflexivity. Qed.

Example twice_keeps_last_response :
  reduce_document Sample.rq Sample.doc_twice
  = [("/dav/alice/a", [("{DAV:}getcontenttype", JStr "text/vcard")])].
Proof. reflexivity. Qed.

(** The end-to-end scenario: Depth 1 on the home of alice returns the one
    calendar, as a generic collection since no factory is registered. *)
Example findAll_alice :
  exists c,
    fst (findAll Sample.state0) = Resolved [NewDavCollection c]
    /\ url c = "/dav/alice/personal/"
    /\ js_read (_props c) "{DAV:}displayname" = Resolved (JStr "Personal")
    /\ _parent c = Some "/dav/alice/".
Proof. eexists. repeat split. Qed.

Example propfind_sent_by_find :
  map (fun config => (cfg_method config, cfg_url config,
                      JsObject.get (cfg_headers config) "Depth"))
      (sent (world (snd (find "personal/" Sample.state0))))
  = [("PROPFIND", "https://host/dav/alice/personal/", Some "0")].
Proof. reflexivity. Qed.

(** ** The multi-status reducer *)

Section ReducerFacts.
Context `{Platform}.
Variable rq : Request.
Variable document : Document.

Lemma clark_not_proto (n : PropNode) : String.eqb (clark n) "__proto__" = false.
Proof. reflexivity. Qed.

Lemma parse_prop_filter (nodes : list PropNode) (acc : PropertyMap) :
  fold_left (parse_prop rq document) nodes acc =
  fold_left (fun a n => js_put a (clark n) (parse (parser rq) document n))
            (filter (fun n => canParse (parser rq) (clark n)) nodes) acc.
Proof.
  revert acc. induction nodes as [|n nodes IH]; intros acc; simpl; auto.
  unfold parse_prop at 2.
  destruct (canParse (parser rq) (clark n)); simpl; apply IH.
Qed.

Lemma parse_propstat_writes (pss : list PropStat) (acc : PropertyMap) :
  fold_left (parse_propstat rq document) pss acc =
  fold_left (fun a n => js_put a (clark n) (parse (parser rq) document n))
            (flat_map (fun ps => if successful ps
                                 then filter (fun n => canParse (parser rq) (clark n))
                                             (prop_nodes ps)
                                 else []) pss) acc.
Proof.
  revert acc. induction pss as [|ps pss IH]; intros acc; simpl; auto.
  rewrite fold_left_app, <- IH. f_equal.
  unfold parse_propstat, successful.
  destruct (wasRequestSuccessful (getStatusCodeFromString (status_text ps))); simpl; auto.
  apply parse_prop_filter.
Qed.

Lemma find_none_of_false {X} (f : X -> bool) (l : list X) :
  (forall x, f x = false) -> List.find f l = None.
Proof. intros Hf. induction l; simpl; auto. now rewrite Hf. Qed.

(** Within one response the last write to a key wins. *)
Lemma parse_response_get (r : ResponseNode) (key : string) :
  JsObject.get (parse_response rq document r) key = last_write_within rq document r key.
Proof.
  unfold parse_response, last_write_within, writes.
  rewrite parse_propstat_writes, JsObjectFacts.get_fold_put. simpl.
  destruct (String.eqb key "__proto__") eqn:E.
  - apply String.eqb_eq in E. subst key.
    rewrite find_none_of_false; auto using clark_not_proto.
  - now destruct (List.find _ _).
Qed.

(** Across responses the last [response] of a path replaces the others. *)
Lemma reduce_responses_get (responses : list ResponseNode) (path : string) :
  JsObject.get (reduce_responses rq document responses) path =
  if String.eqb path "__proto__" then None
  else option_map (parse_response rq document) (last_response path responses).
Proof.
  unfold reduce_responses, last_response.
  rewrite JsObjectFacts.get_fold_put. simpl.
  now destruct (String.eqb path "__proto__").
Qed.

Lemma writes_successful_only (r : ResponseNode) :
  writes rq (successful_only r) = writes rq r.
Proof.
  unfold writes, successful_only. simpl.
  induction (propStats r) as [|ps pss IH]; simpl; auto.
  destruct (successful ps) eqn:E; simpl; rewrite ?E, IH; auto.
Qed.

Lemma parse_response_successful_only (r : ResponseNode) :
  parse_response rq document (successful_only r) = parse_response rq document r.
Proof.
  unfold parse_response. rewrite !parse_propstat_writes.
  fold (writes rq (successful_only r)). fold (writes rq r).
  now rewrite writes_successful_only.
Qed.

Lemma reduce_responses_successful_only (responses : list ResponseNode) :
  reduce_responses rq document (map successful_only responses) =
  reduce_responses rq document responses.
Proof.
  unfold reduce_responses. generalize (@nil (string * PropertyMap)).
  induction responses as [|r rs IH]; intros acc; simpl; auto.
  now rewrite parse_response_successful_only, IH.
Qed.

Lemma in_writes (r : ResponseNode) (n : PropNode) :
  In n (writes rq r) ->
  exists ps, In ps (propStats r) /\ successful ps = true
             /\ In n (prop_nodes ps) /\ canParse (parser rq) (clark n) = true.
Proof.
  unfold writes. rewrite in_flat_map. intros (ps & Hps & Hn).
  exists ps. destruct (successful ps); [|contradiction].
  apply filter_In in Hn. tauto.
Qed.

End ReducerFacts.

(** C1: for every 207 body given to the reducer, a propstat block whose
    status line parses to a code outside [200,300) (or to no number) leaves
    the accumulated map as it was, so deleting all such blocks from the
    document does not change the result; and every property of every path in
    the result of [_parseMultiStatusResponse] was written from an element
    under a 2xx propstat block of a response with that href. *)
Theorem C1_unsuccessful_propstat_contributes_nothing
        `{Platform} (rq : Request) (body : string) :
  let document := dom_parseFromString body in
  (forall ps parsedProperties,
      wasRequestSuccessful (getStatusCodeFromString (status_text ps)) = false ->
      parse_propstat rq document parsedProperties ps = parsedProperties)
  /\ _parseMultiStatusResponse rq body
     = reduce_responses rq document (map successful_only document)
  /\ (forall path props key v,
         JsObject.get (_parseMultiStatusResponse rq body) path = Some props ->
         JsObject.get props key = Some v ->
         exists r ps n,
           In r document /\ href r = path
           /\ In ps (propStats r)
           /\ wasRequestSuccessful (getStatusCodeFromString (status_text ps)) = true
           /\ In n (prop_nodes ps) /\ clark n = key
           /\ canParse (parser rq) key = true
           /\ v = parse (parser rq) document n).
Proof.
  intros document. split; [|split].
  - intros ps acc Hps. unfold parse_propstat. now rewrite Hps.
  - unfold _parseMultiStatusResponse, reduce_document. fold document.
    now rewrite reduce_responses_successful_only.
  - intros path props key v Hpath Hkey.
    unfold _parseMultiStatusResponse, reduce_document in Hpath. fold document in Hpath.
    rewrite reduce_responses_get in Hpath.
    destruct (String.eqb path "__proto__"); [discriminate|].
    unfold last_response in Hpath.
    destruct (List.find _ _) as [r|] eqn:Hfind; [|discriminate].
    injection Hpath as <-.
    apply find_some in Hfind. destruct Hfind as [Hin Hhref].
    apply in_rev in Hin. apply String.eqb_eq in Hhref.
    rewrite parse_response_get in Hkey. unfold last_write_within in Hkey.
    destruct (List.find _ (rev (writes rq r))) as [n|] eqn:Hn; [|discriminate].
    injection Hkey as <-.
    apply find_some in Hn. destruct Hn as [Hn Hclark].
    apply in_rev in Hn. apply String.eqb_eq in Hclark.
    apply in_writes in Hn. destruct Hn as (ps & Hps & Hok & Hnode & Hcan).
    exists r, ps, n. subst key. repeat split; auto.
Qed.

(** C7 (amended): when the same href appears in several [response] elements
    of one 207 body, the reducer's entry for that path is the property map of
    the last of them alone (an href [__proto__] makes no entry); per-key
    last-write-wins holds inside one [response], across its propstat
    blocks. *)
Theorem C7_last_response_replaces_the_entry
        `{Platform} (rq : Request) (body : string) (path : string) :
  let document := dom_parseFromString body in
  JsObject.get (_parseMultiStatusResponse rq body) path
  = (if String.eqb path "__proto__" then None
     else option_map (parse_response rq document) (last_response path document))
  /\ (forall r key,
         JsObject.get (parse_response rq document r) key
         = last_write_within rq document r key).
Proof.
  intros document. split.
  - apply reduce_responses_get.
  - intros r key. apply parse_response_get.
Qed.

(** ** The transport *)

Lemma in_range_true (lo hi : Z) (a : Js.number) :
  Js.in_range lo hi a = true <-> exists n, a = Some n /\ (lo <= n < hi)%Z.
Proof.
  unfold Js.in_range. destruct a as [n|]; split.
  - intros Hr. apply andb_true_iff in Hr. exists n. split; auto. lia.
  - intros (m & [= <-] & Hm). apply andb_true_iff. lia.
  - discriminate.
  - intros (m & Hm & _). discriminate.
Qed.

Lemma in_range_false (lo hi : Z) (a : Js.number) :
  Js.in_range lo hi a = false <-> forall n, a = Some n -> (n < lo \/ hi <= n)%Z.
Proof.
  unfold Js.in_range. destruct a as [n|]; split.
  - intros Hr m [= <-]. apply andb_false_iff in Hr. lia.
  - intros Hn. specialize (Hn n eq_refl). apply andb_false_iff. lia.
  - intros _ m. discriminate.
  - reflexivity.
Qed.

(** Closes the propositional and arithmetic side of a case of the [catch]
    handler. *)
Ltac status_cases :=
  repeat match goal with
         | H : _ /\ _ |- _ => destruct H
         | H : exists _, _ |- _ => destruct H
         | H : _ \/ _ |- _ => destruct H
         end;
  try discriminate; try congruence;
  repeat match goal with
         | Hs : ?e = Some ?n, Hf : forall m, ?e = Some m -> _ |- _ =>
             specialize (Hf n Hs)
         end;
  repeat match goal with
         | H1 : ?e = Some ?a, H2 : ?e = Some ?b |- _ =>
             rewrite H1 in H2; injection H2 as H2; try subst
         end;
  try lia; try tauto;
  try (eexists; split; [eassumption|lia]).

(** C8 (the code at a response it misclassifies): [request] throws a
    [TypeError], and hands nothing to the client, when the url does not
    resolve; otherwise it hands the client one configuration.  When the
    client fulfils it, [request] resolves unless the [then] handler throws,
    which is reported as a [NetworkRequestHttpError] without status.  When
    the client rejects it, the error kind follows the cascade of the [catch]
    handler: [NetworkRequestAbortedError] for a cancellation; otherwise
    [NetworkRequestError] as soon as the error carries a request; only for
    an error without request does the status decide between
    [NetworkRequestClientError], [NetworkRequestServerError] and
    [NetworkRequestHttpError].  The error axios raises for a refused status
    carries the request: a 404 or a 503 answered by the server is rejected
    as a [NetworkRequestError] with status -1 and no body. *)
Theorem C8_refused_status_is_a_network_error
        `{Platform} (rq : Request) (method url : string)
        (headers : JsObject.t string) (body : option string) (w : World) :
  let r := request rq method url headers body w in
  (forall e, absoluteUrl rq url = Rejected e -> r = (Rejected e, w))
  /\ (forall href,
        absoluteUrl rq url = Resolved href ->
        let config := request_config method href headers body in
        sent (snd r) = (sent w ++ [config])%list
        /\ (forall status data,
              axios_request (sent w) config = AxiosFulfilled status data ->
              fst r = if request_then_throws rq status data
                      then Rejected (NetworkFailure NetworkRequestHttpError None None)
                      else Resolved (request_then rq method (cfg_headers config)
                                                  status data))
        /\ (forall error,
              axios_request (sent w) config = AxiosRejected error ->
              exists kind b st,
                fst r = Rejected (NetworkFailure kind b st)
                /\ (kind = NetworkRequestAbortedError <-> isCancel error = true)
                /\ (kind = NetworkRequestError
                    <-> isCancel error = false /\ error_request error = true)
                /\ (kind = NetworkRequestClientError
                    <-> isCancel error = false /\ error_request error = false
                        /\ exists n, error_status error = Some n /\ (400 <= n < 500)%Z)
                /\ (kind = NetworkRequestServerError
                    <-> isCancel error = false /\ error_request error = false
                        /\ exists n, error_status error = Some n /\ (500 <= n < 600)%Z)
                /\ (kind = NetworkRequestHttpError
                    <-> isCancel error = false /\ error_request error = false
                        /\ forall n, error_status error = Some n ->
                                     (n < 400 \/ 600 <= n)%Z)
                /\ (isCancel error = true \/ error_request error = true ->
                    b = None /\ st = Some (-1)%Z)
                /\ (isCancel error = false /\ error_request error = false ->
                    b = error_data error /\ st = error_status error))
        /\ (forall status,
              axios_request (sent w) config = AxiosRejected (axios_status_error status) ->
              fst r = Rejected (NetworkFailure NetworkRequestError None (Some (-1)%Z)))).
Proof.
  intros r. unfold r, request. split.
  - intros e He. now rewrite He.
  - intros href Hhref. cbv zeta. rewrite Hhref.
    set (config := request_config method href headers body).
    split; [|split; [|split]].
    + destruct (axios_request (sent w) config) as [status data|error];
        [destruct (request_then_throws rq status data)|]; reflexivity.
    + intros status data Hax. rewrite Hax.
      now destruct (request_then_throws rq status data).
    + intros error Hax. rewrite Hax. cbn [fst]. unfold request_catch.
      destruct (isCancel error) eqn:Ec; [|destruct (error_request error) eqn:Er];
        [| |destruct (Js.in_range 400 500 (error_status error)) eqn:E4;
            [|destruct (Js.in_range 500 600 (error_status error)) eqn:E5]];
        (eexists _, _, _; split; [reflexivity|]);
        repeat match goal with
               | E : Js.in_range _ _ _ = true |- _ =>
                   apply in_range_true in E; destruct E as (? & ? & ?)
               | E : Js.in_range _ _ _ = false |- _ => rewrite in_range_false in E
               end;
        repeat split; intros; status_cases.
    + intros status Hax. rewrite Hax. reflexivity.
Qed.

(** ** The url of a collection *)


Section UrlInvariant.
Context `{Platform}.















End UrlInvariant.

(** ** What a call keeps of the node *)

Section Preservation.
Context `{Platform}.
Variable I : DavCollection -> Prop.








End Preservation.


Section IntactInvariant.
Context `{Platform}.











End IntactInvariant.


(** ** Unpublishing *)

Lemma props_delete_spec (props props' : JsVal) (key : string) :
  props_delete props key = Resolved props' ->
  js_read props' key = Resolved JUndefined
  /\ (forall k, k <> key -> js_read props' k = js_read props k)
  /\ (forall fields, props = JObj fields -> props' = JObj (JsObject.delete fields key)).
Proof.
  destruct props as [|s|items|fields]; simpl; intros [= <-]; simpl.
  - repeat split; auto. discriminate.
  - repeat split; auto. discriminate.
  - rewrite JsObjectFacts.get_delete_same. repeat split; auto.
    + intros k Hk. rewrite JsObjectFacts.get_delete_other; auto.
    + now intros ? [= <-].
Qed.

(** C10: when [unpublish()] on a publishable collection resolves, the node
    differs from the node before the call in [_props] only, and there only
    in the key [{http://calendarserver.org/ns/}publish-url], which is gone;
    every other key reads as before and the dirty set is untouched. *)
Theorem C10_unpublish_removes_only_publish_url
        `{Platform} (s s' : State) :
  unpublish s = (Resolved tt, s') ->
  exists props',
    this s' = with_props props' (this s)
    /\ js_read props' publish_url_key = Resolved JUndefined
    /\ (forall k, k <> publish_url_key ->
                  js_read props' k = js_read (_props (this s)) k)
    /\ (forall fields, _props (this s) = JObj fields ->
                       props' = JObj (JsObject.delete fields publish_url_key))
    /\ _updatedProperties (this s') = _updatedProperties (this s).
Proof.
  unfold unpublish, bind, self, io, debug, serialize, post, request,
         of_outcome, assign_this.
  cbn [this world fst snd sent debugged prefixes].
  destruct (xml_serialize _ _) as [xml p].
  cbn [this world fst snd sent debugged prefixes].
  destruct (absoluteUrl _ _) as [href|e]; [|discriminate].
  cbn [this world fst snd sent debugged prefixes].
  destruct (axios_request _ _) as [st data|error]; [|discriminate].
  destruct (request_then_throws _ _ _); [discriminate|].
  cbn [this world fst snd sent debugged prefixes].
  destruct (props_delete (_props (this s)) publish_url_key) as [props'|e] eqn:Hd;
    [|discriminate].
  intros [= <-]. cbn [this].
  exists props'. apply props_delete_spec in Hd. destruct Hd as (H1 & H2 & H3).
  repeat split; auto.
Qed.

(** ** Updating the dirty properties *)

(** C2 (amended): [update()] on a [DavCollection] whose dirty set
    ([_updatedProperties]) is empty settles at once and sends nothing; with
    exactly one dirty key on an object-valued [_props] it sends exactly one
    request, a PROPPATCH to the node's url (which resolves to [href]) whose
    body is the serialized [propertyupdate/set/prop] skeleton holding what
    the registered encoders make of that key and its current value; it
    resolves when the client fulfils the request, unless the reduction of a
    207 answer throws, and it leaves the node, dirty set included, as it
    was. *)
Theorem C2_update_sends_one_proppatch_and_keeps_dirty_set
        `{Platform} (s : State) :
  let c := this s in
  (_updatedProperties c = [] -> update s = (Resolved tt, s))
  /\ (forall key fields href,
         _updatedProperties c = [key] ->
         _props c = JObj fields ->
         absoluteUrl (_request c) (_url c) = Resolved href ->
         let properties := js_put [] key (prop_of fields key) in
         let xml := xml_serialize (prefixes (world s))
                      (propertyupdate (propSet_of (_propSetFactory c) properties)) in
         let config := request_config "PROPPATCH" href [] (Some (fst xml)) in
         sent (world (snd (update s))) = (sent (world s) ++ [config])%list
         /\ cfg_method config = "PROPPATCH"
         /\ this (snd (update s)) = c
         /\ _updatedProperties (this (snd (update s))) = [key]
         /\ (forall st data,
                axios_request (sent (world s)) config = AxiosFulfilled st data ->
                fst (update s)
                = if request_then_throws (_request c) st data
                  then Rejected request_catch_thrown
                  else Resolved tt)).
Proof.
  intros c. split.
  - intros Hd. unfold update, bind, self. fold c. now rewrite Hd.
  - intros key fields href Hd Hp Hhref properties xml config.
    assert (Hrun : snd (update s)
                   = {| this := c;
                        world := {| sent := (sent (world s) ++ [config])%list;
                                    debugged := debugged (world s);
                                    prefixes := snd xml |} |}
                   /\ (forall st data,
                          axios_request (sent (world s)) config = AxiosFulfilled st data ->
                          fst (update s)
                          = if request_then_throws (_request c) st data
                            then Rejected request_catch_thrown
                            else Resolved tt)).
    { unfold update, bind, self, of_outcome, io, serialize, propPatch, request.
      fold c. rewrite Hd, Hp, Hhref.
      cbn [List.length Nat.eqb gather_properties js_read this world fst snd
           sent debugged prefixes].
      fold (prop_of fields key). fold properties.
      unfold xml, config.
      destruct (xml_serialize _ _) as [x p].
      cbn [this world fst snd sent debugged prefixes].
      destruct (axios_request _ _) as [st data|error] eqn:Hax;
        [destruct (request_then_throws (_request c) st data) eqn:Ht|];
        cbn [this world fst snd sent debugged prefixes]; split; auto;
        intros st' data' Hf; try discriminate;
        injection Hf as <- <-; now rewrite Ht. }
    destruct Hrun as [Hs Hok]. rewrite Hs. cbn [this world sent].
    repeat split; auto.
Qed.

(** ** Child resolution *)

(** Runs the monadic code in a hypothesis through its case distinctions. *)
Ltac run_in Hr :=
  repeat (cbn [fst snd this world sent debugged prefixes] in Hr;
          match type of Hr with
          | context [match ?x with _ => _ end] => destruct x eqn:?
          | context [if ?b then _ else _] => destruct b eqn:?
          end);
  cbn [fst snd this world sent debugged prefixes] in Hr.

Lemma length_append (a b : string) :
  String.length (a ++ b) = (String.length a + String.length b)%nat.
Proof. induction a; simpl; auto. Qed.

Section ResolutionFacts.
Context `{Platform}.

(** Every constructor receives the entry's own property map. *)
Lemma resolve_entry_props (c : DavCollection) (isPartial : bool) (path : string)
      (props : JsVal) (w w' : World) (n : Node) :
  resolve_entry c isPartial path props w = (Resolved n, w') -> node_props n = props.
Proof.
  unfold resolve_entry, bind, of_outcome, debug, ret.
  intros Hr. run_in Hr; try discriminate; injection Hr as <- _; reflexivity.
Qed.



Lemma is_own_url_child (c : DavCollection) (uri : string) :
  uri <> "" -> is_own_url c (_url c ++ uri) = false.
Proof.
  intros Hne. unfold is_own_url, url. apply orb_false_iff.
  split; apply String.eqb_neq; intros Heq;
    apply (f_equal String.length) in Heq; rewrite !length_append in Heq.
  - destruct uri; [contradiction|]. simpl in Heq. lia.
  - simpl in Heq. lia.
Qed.

(** The children the loop returns are, in order, what [resolve_entry]
    makes of the entries that are not the collection itself. *)
Lemma resolve_entries_spec (c : DavCollection) (isPartial : bool)
      (entries : list (string * JsVal)) :
  forall index children w r w',
    resolve_entries c isPartial entries index children w = (Resolved r, w') ->
    let kept := filter (fun e => negb (is_own_url c (fst e))) entries in
    fst r = (index ++ map fst kept)%list
    /\ exists new, snd r = (children ++ new)%list
                   /\ Forall2 (child_of c isPartial) kept new.
Proof.
  induction entries as [|[path props] rest IH]; intros index children w r w' Hr; simpl in *.
  - injection Hr as <- _. simpl. rewrite !app_nil_r. split; auto.
    exists []. rewrite app_nil_r. split; auto.
  - destruct (is_own_url c path) eqn:Ho; simpl.
    + apply IH in Hr. exact Hr.
    + unfold bind in Hr.
      destruct (resolve_entry c isPartial path props w) as [[child|e] w1] eqn:He;
        [|discriminate].
      apply IH in Hr. destruct Hr as (Hi & new & Hc & Hf).
      rewrite <- app_assoc in Hi. split; [exact Hi|].
      exists (child :: new). rewrite <- app_assoc in Hc. split; [exact Hc|].
      constructor; auto. exists w, w1. exact He.
Qed.

Lemma entries_singleton {V} (k : string) (v : V) :
  JsObject.entries [(k, v)] = [(k, v)].
Proof.
  unfold JsObject.entries, JsObject.named_entries. simpl.
  now destruct (JsObject.array_index k).
Qed.

Lemma depth0_headers :
  JsObject.get (JsObject.assign (JsObject.assign [] getDefaultHeaders)
                                (js_put [] "Depth" "0")) "Depth" = Some "0".
Proof. reflexivity. Qed.

Lemma first_entry_of (m : MultiStatus) (k : string) (ks : list string)
      (props : PropertyMap) :
  JsObject.keys m = k :: ks -> JsObject.get m k = Some props ->
  first_entry m = JObj props.
Proof. intros Hk Hg. unfold first_entry. now rewrite Hk, Hg. Qed.

End ResolutionFacts.


(** C3 (amended): [find(uri)], for a non-empty [uri], issues a Depth-0
    PROPFIND; when the server answers 207, the node it returns holds exactly
    the property map of the first entry (in key order) of the reduced body,
    whatever the path of that entry is, which is the map of [url + uri]
    when that path is the first (for instance the only) one in the body; the
    node never holds a map keyed by path. *)
Theorem C3_find_returns_the_first_entry
        `{Platform} (s : State) (uri data k : string) (ks : list string)
        (props : PropertyMap) (found : option Node) :
  let c := this s in
  uri <> "" ->
  (forall config,
      cfg_method config = "PROPFIND" ->
      absoluteUrl (_request c) (_url c ++ uri) = Resolved (cfg_url config) ->
      axios_request (sent (world s)) config = AxiosFulfilled 207 data) ->
  JsObject.keys (_parseMultiStatusResponse (_request c) data) = k :: ks ->
  JsObject.get (_parseMultiStatusResponse (_request c) data) k = Some props ->
  fst (find uri s) = Resolved found ->
  exists node, found = Some node /\ node_props node = JObj props.
Proof.
  intros c Huri Hax Hkeys Hget.
  unfold find, propFind, serialize, request, bind, self, io.
  cbn [fst snd this world sent debugged prefixes]. fold c.
  destruct (xml_serialize _ _) as [xml p].
  cbn [fst snd this world sent debugged prefixes].
  destruct (absoluteUrl (_request c) (_url c ++ uri)) as [href|e] eqn:Hhref;
    [|discriminate].
  rewrite Hax by (try reflexivity; exact Hhref).
  destruct (request_then_throws (_request c) 207 data); [discriminate|].
  cbn [fst snd this world sent debugged prefixes].
  unfold request_then, request_config. cbn [cfg_headers body].
  rewrite depth0_headers.
  change (Js.parseInt (Some "0")) with (Some 0%Z).
  change ((207 =? 207)%Z) with true.
  change ((0 =? 0)%Z) with true.
  change (String.eqb "PROPFIND" "PROPFIND") with true.
  cbn [andb].
  rewrite (first_entry_of _ _ _ _ Hkeys Hget).
  unfold _handleMultiStatusResponse, bind, self, of_outcome, io, assign_this, ret.
  cbn [fst snd this world object_entries]. fold c.
  rewrite entries_singleton. cbn [resolve_entries].
  rewrite (is_own_url_child c uri Huri). unfold bind.
  match goal with
  | |- context [resolve_entry ?a ?b ?p ?v ?w0] =>
      destruct (resolve_entry a b p v w0) as [[child|e] w1] eqn:He
  end; cbn [fst snd ret nth_error]; [|discriminate].
  intros [= <-]. exists child. split; auto.
  eapply resolve_entry_props; eauto.
Qed.

Section Classification.
Context `{Platform}.

(** What each branch of the callback logs first and what it can return. *)
Lemma resolve_entry_branch (c : DavCollection) (isPartial : bool) (path url : string)
      (props rt ct : JsVal) (w : World) :
  pathname (_request c) path = Resolved url ->
  js_read props "{DAV:}resourcetype" = Resolved rt ->
  js_read props "{DAV:}getcontenttype" = Resolved ct ->
  let r := resolve_entry c isPartial path props w in
  (object_condition rt ct = true ->
     (exists rest, debugged (snd r)
                   = (debugged w ++ (path ++ " was identified as a file")%string :: rest)%list)
     /\ (forall n, fst r = Resolved n -> is_object_node n = true))
  /\ (object_condition rt ct = false ->
     (exists rest, debugged (snd r)
                   = (debugged w ++ (path ++ " was identified as a collection")%string :: rest)%list)
     /\ (forall n, fst r = Resolved n -> is_object_node n = false)).
Proof.
  intros Hpath Hrt Hct r. subst r.
  unfold resolve_entry, bind, of_outcome, debug, ret. rewrite Hpath, Hrt, Hct.
  cbv beta iota.
  destruct (object_condition rt ct); split; try (intro; discriminate); intros _.
  - cbn [fst snd sent debugged prefixes].
    destruct (split_contentType ct) as [contentType|e];
      [destruct (mapper_lookup (_objectFactoryMapper c) contentType) as [[f|]|e]|];
      cbn [fst snd sent debugged prefixes];
      (split; [eexists; rewrite <- ?app_assoc; reflexivity
              |intros n Hn; try discriminate; injection Hn as <-; reflexivity]).
  - cbn [fst snd sent debugged prefixes].
    destruct (find_collectionType rt) as [[collectionType|]|e];
      [destruct (String.eqb collectionType "");
       [|destruct (mapper_lookup (_collectionFactoryMapper c) collectionType)
           as [[f|]|e]]| |];
      cbn [fst snd sent debugged prefixes];
      (split; [eexists; rewrite <- ?app_assoc; reflexivity
              |intros n Hn; try discriminate; injection Hn as <-; reflexivity]).
Qed.

(** What the object branch instantiates for a content type that
    [Object.prototype] does not define. *)
Lemma object_branch_instantiates (c : DavCollection) (isPartial : bool)
      (path url : string) (props rt : JsVal) (s : string) (w : World) :
  pathname (_request c) path = Resolved url ->
  js_read props "{DAV:}resourcetype" = Resolved rt ->
  js_read props "{DAV:}getcontenttype" = Resolved (JStr s) ->
  object_condition rt (JStr s) = true ->
  let contentType := hd EmptyString (Js.split ";" s) in
  existsb (String.eqb contentType) inherited_names = false ->
  fst (resolve_entry c isPartial path props w)
  = Resolved match JsObject.get (_objectFactoryMapper c) contentType with
             | Some f => NewObject f (_url c) url props isPartial
             | None => NewDavObject (_url c) url props
             end.
Proof.
  intros Hpath Hrt Hct Hcond contentType Hin.
  unfold resolve_entry, bind, of_outcome, debug, ret. rewrite Hpath, Hrt, Hct.
  cbv beta iota. rewrite Hcond.
  cbn [fst snd sent debugged prefixes split_contentType].
  fold contentType. unfold mapper_lookup. rewrite Hin.
  now destruct (JsObject.get (_objectFactoryMapper c) contentType).
Qed.

(** The test of the callback on values of the decoders' types. *)
Lemma object_condition_typed (rt ct : JsVal) :
  (rt = JUndefined \/ exists types, rt = JArr types) ->
  (ct = JUndefined \/ exists s, ct = JStr s) ->
  object_condition rt ct = true
  <-> (rt = JUndefined \/ rt = JArr []) /\ (exists s, ct = JStr s /\ s <> "").
Proof.
  intros [-> | [types ->]] [-> | [s ->]]; unfold object_condition; simpl.
  - split; [discriminate|]. intros (_ & s & Hs & _). discriminate.
  - destruct (String.eqb s "") eqn:E; simpl; split; try discriminate.
    + apply String.eqb_eq in E. intros (_ & s' & [= <-] & Hne). contradiction.
    + intros _. split; auto. exists s. split; auto. now apply String.eqb_neq.
    + auto.
  - rewrite andb_false_r. split; [discriminate|].
    intros (_ & s & Hs & _). discriminate.
  - destruct types as [|t types]; simpl.
    + destruct (String.eqb s "") eqn:E; simpl; split; try discriminate.
      * apply String.eqb_eq in E. intros (_ & s' & [= <-] & Hne). contradiction.
      * intros _. split; auto. exists s. split; auto. now apply String.eqb_neq.
      * auto.
    + split; [discriminate|]. intros ([Hu | Hu] & _); discriminate.
Qed.

End Classification.

(** C5 (amended): for every entry whose path resolves to a path name and
    whose property map holds what the decoders produce (a resourcetype that
    is absent or a list, a getcontenttype that is absent or a string), the
    entry is classified as a file, and whatever
    is instantiated for it is an object, if and only if its resourcetype is
    absent or an empty list and its getcontenttype is present and not the
    empty string; every other entry is classified as a collection.  In the
    first case an object is indeed instantiated, unless the content type is
    the name of a member of [Object.prototype]. *)
Theorem C5_object_iff_untyped_with_content_type
        `{Platform} (c : DavCollection) (isPartial : bool) (path url : string)
        (fields : PropertyMap) (w : World) :
  let rt := prop_of fields "{DAV:}resourcetype" in
  let ct := prop_of fields "{DAV:}getcontenttype" in
  pathname (_request c) path = Resolved url ->
  (rt = JUndefined \/ exists types, rt = JArr types) ->
  (ct = JUndefined \/ exists s, ct = JStr s) ->
  let object_like :=
    (rt = JUndefined \/ rt = JArr []) /\ (exists s, ct = JStr s /\ s <> "") in
  let r := resolve_entry c isPartial path (JObj fields) w in
  (object_like ->
     exists rest, debugged (snd r)
                  = (debugged w ++ (path ++ " was identified as a file")%string :: rest)%list)
  /\ (~ object_like ->
     exists rest, debugged (snd r)
                  = (debugged w ++ (path ++ " was identified as a collection")%string :: rest)%list)
  /\ (forall n, fst r = Resolved n -> (is_object_node n = true <-> object_like))
  /\ (forall s, ct = JStr s -> object_like ->
                existsb (String.eqb (hd EmptyString (Js.split ";" s))) inherited_names
                = false ->
                exists n, fst r = Resolved n /\ is_object_node n = true).
Proof.
  intros rt ct Hpath Hrt Hct object_like r.
  assert (Hinst : forall s, ct = JStr s -> object_like ->
                existsb (String.eqb (hd EmptyString (Js.split ";" s))) inherited_names
                = false ->
                exists n, fst r = Resolved n /\ is_object_node n = true).
  { intros s Hs Ho Hin. unfold r.
    rewrite (object_branch_instantiates c isPartial path url (JObj fields) rt s w);
      auto.
    - destruct (JsObject.get (_objectFactoryMapper c) _); eexists; split; reflexivity.
    - cbn [js_read]. fold (prop_of fields "{DAV:}getcontenttype"). fold ct.
      now rewrite Hs.
    - rewrite <- Hs. apply (object_condition_typed rt ct Hrt Hct). exact Ho. }
  pose proof (object_condition_typed rt ct Hrt Hct) as Hcond. fold object_like in Hcond.
  destruct (resolve_entry_branch c isPartial path url (JObj fields) rt ct w
              Hpath eq_refl eq_refl) as [Hobj Hcol]. fold r in Hobj, Hcol.
  destruct (object_condition rt ct) eqn:E.
  - destruct (Hobj eq_refl) as [Hlog Hnode].
    assert (Ho : object_like) by now apply Hcond.
    split; [|split; [|split]]; auto.
    + intros Hn. contradiction.
    + intros n Hn. split; auto.
  - destruct (Hcol eq_refl) as [Hlog Hnode].
    assert (Ho : ~ object_like) by (intros Ho; apply Hcond in Ho; discriminate).
    split; [|split; [|split]]; auto.
    + intros Hn. contradiction.
    + intros n Hn. rewrite (Hnode n Hn). split; [discriminate|]. intros Hn'. contradiction.
Qed.

Section CollectionBranch.
Context `{Platform}.

(** Where the collection branch works as described: the resourcetype is a
    list, and the first type other than [{DAV:}collection], if any, is a
    non-empty name that [Object.prototype] does not define. *)
Lemma collection_branch_dispatch (c : DavCollection) (isPartial : bool)
      (path url : string) (props ct : JsVal) (types : list string) (w : World) :
  pathname (_request c) path = Resolved url ->
  js_read props "{DAV:}resourcetype" = Resolved (JArr types) ->
  js_read props "{DAV:}getcontenttype" = Resolved ct ->
  object_condition (JArr types) ct = false ->
  let collectionType :=
    List.find (fun r => negb (String.eqb r "{DAV:}collection")) types in
  (forall t, collectionType = Some t ->
             t <> "" /\ existsb (String.eqb t) inherited_names = false) ->
  let generic :=
    NewDavCollection (new_DavCollection (Some (_url c)) (_request c) url props) in
  fst (resolve_entry c isPartial path props w)
  = Resolved match collectionType with
             | None => generic
             | Some t =>
                 match JsObject.get (_collectionFactoryMapper c) t with
                 | Some f => NewCollection f (_url c) url props
                 | None => generic
                 end
             end.
Proof.
  intros Hpath Hrt Hct Hcond collectionType Hty generic.
  unfold resolve_entry, bind, of_outcome, debug, ret. rewrite Hpath, Hrt, Hct.
  cbv beta iota. rewrite Hcond.
  cbn [fst snd sent debugged prefixes find_collectionType].
  change (xmlKey NS.DAV "collection") with "{DAV:}collection".
  fold collectionType.
  destruct collectionType as [t|] eqn:Et; [|reflexivity].
  destruct (Hty t eq_refl) as [Hne Hin].
  apply String.eqb_neq in Hne. rewrite Hne.
  unfold mapper_lookup. rewrite Hin.
  now destruct (JsObject.get (_collectionFactoryMapper c) t).
Qed.

End CollectionBranch.

(** C6 (the code at an entry it mishandles): an entry that is not the
    collection itself, whose path resolves to a path name, and whose
    property map has no resourcetype and no
    usable getcontenttype (for instance the empty map the reducer yields
    when no property was found) is classified as a collection, after which
    resolution throws a [TypeError]; no child is instantiated, generic or
    not, and the node is left as it was. *)
Theorem C6_entry_without_resourcetype_throws
        `{Platform} (s : State) (path url : string) (fields : PropertyMap)
        (isPartial : bool) :
  is_own_url (this s) path = false ->
  pathname (_request (this s)) path = Resolved url ->
  prop_of fields "{DAV:}resourcetype" = JUndefined ->
  truthy (prop_of fields "{DAV:}getcontenttype") = false ->
  let r := _handleMultiStatusResponse (JObj [(path, JObj fields)]) isPartial s in
  fst r = Rejected (TypeError "Cannot read properties of undefined")
  /\ this (snd r) = this s
  /\ debugged (world (snd r))
     = (debugged (world s) ++ [(path ++ " was identified as a collection")%string])%list.
Proof.
  intros Hown Hpath Hrt Hct r. subst r.
  unfold _handleMultiStatusResponse, bind, self, of_outcome, io, assign_this, ret.
  cbn [fst snd this world object_entries].
  rewrite entries_singleton. cbn [resolve_entries]. rewrite Hown.
  unfold resolve_entry, bind, of_outcome, debug, ret. rewrite Hpath.
  cbn [js_read]. fold (prop_of fields "{DAV:}resourcetype").
  fold (prop_of fields "{DAV:}getcontenttype"). rewrite Hrt.
  unfold object_condition. rewrite Hct.
  cbn [truthy negb orb andb length_is_zero find_collectionType
       fst snd this world sent debugged prefixes].
  repeat split.
Qed.

(* ================================================================== *)
(** * Further properties of the sources *)

(** ** Objects without repeated keys *)

Module JsObjectOrder.
Import JsObject.

Section Order.
Context {V : Type}.
Implicit Types (o : t V) (k : string) (v : V).

Lemma get_some_in o k v : get o k = Some v -> In (k, v) o.
Proof.
  induction o as [|[k' v'] r IH]; simpl; [discriminate|].
  destruct (String.eqb k' k) eqn:E.
  - apply String.eqb_eq in E. intros [= <-]. subst. now left.
  - intros Hg. right. auto.
Qed.

Lemma get_none_not_in o k : get o k = None <-> ~ In k (map fst o).
Proof.
  induction o as [|[k' v'] r IH]; simpl.
  - tauto.
  - destruct (String.eqb k' k) eqn:E.
    + apply String.eqb_eq in E. split; [discriminate|]. intros Hn. exfalso. auto.
    + apply String.eqb_neq in E. rewrite IH. tauto.
Qed.

Lemma in_get o k v : js_wf o -> In (k, v) o -> get o k = Some v.
Proof.
  unfold js_wf. induction o as [|[k' v'] r IH]; simpl; [tauto|].
  intros Hnd Hin. inversion Hnd as [|? ? Hk Hr]; subst.
  destruct Hin as [[= -> ->] | Hin].
  - now rewrite String.eqb_refl.
  - destruct (String.eqb k' k) eqn:E; auto.
    apply String.eqb_eq in E. subst. exfalso. apply Hk.
    change k with (fst (k, v)). now apply in_map.
Qed.

Lemma insert_index_perm (e : Z * (string * V)) l :
  Permutation (insert_index e l) (e :: l).
Proof.
  induction l as [|e' l IH]; simpl; auto.
  destruct (fst e <=? fst e')%Z; auto.
  rewrite IH. apply perm_swap.
Qed.

Lemma entries_perm o : Permutation (entries o) o.
Proof.
  unfold entries, named_entries.
  induction o as [|[k v] r IH]; simpl; auto.
  destruct (array_index k) as [n|]; simpl.
  - rewrite insert_index_perm. simpl. now constructor.
  - apply Permutation_sym, Permutation_cons_app, Permutation_sym, IH.
Qed.

Lemma keys_perm o : Permutation (keys o) (map fst o).
Proof. unfold keys. apply Permutation_map, entries_perm. Qed.

Lemma wf_entries o : js_wf o -> js_wf (entries o).
Proof.
  unfold js_wf. intros Hnd.
  eapply Permutation_NoDup; [|exact Hnd].
  apply Permutation_sym, Permutation_map, entries_perm.
Qed.

(** Enumerating an object does not change what its keys hold. *)
Lemma get_entries o k : js_wf o -> get (entries o) k = get o k.
Proof.
  intros Hwf. destruct (get o k) as [v|] eqn:Hg.
  - apply in_get; [now apply wf_entries|].
    apply (Permutation_in _ (Permutation_sym (entries_perm o))).
    now apply get_some_in.
  - apply get_none_not_in. apply get_none_not_in in Hg. intros Hin. apply Hg.
    apply (Permutation_in _ (keys_perm o)). exact Hin.
Qed.

Lemma set_keys o k v :
  map fst (set o k v) = if existsb (String.eqb k) (map fst o)
                        then map fst o else (map fst o ++ [k])%list.
Proof.
  induction o as [|[k' v'] r IH]; simpl; auto.
  rewrite (String.eqb_sym k k').
  destruct (String.eqb k' k) eqn:E; simpl; auto.
  rewrite IH. now destruct (existsb _ _).
Qed.

Lemma wf_set o k v : js_wf o -> js_wf (set o k v).
Proof.
  unfold js_wf. intros Hnd. rewrite set_keys.
  destruct (existsb (String.eqb k) (map fst o)) eqn:E; auto.
  apply NoDup_app; auto.
  - repeat constructor. auto.
  - intros x Hx [Ex|[]]. subst x.
    assert (existsb (String.eqb k) (map fst o) = true); [|congruence].
    apply existsb_exists. exists k. split; auto. apply String.eqb_refl.
Qed.

Lemma wf_put o k v : js_wf o -> js_wf (js_put o k v).
Proof. unfold js_put. destruct (String.eqb k "__proto__"); auto using wf_set. Qed.

Lemma wf_delete o k : js_wf o -> js_wf (delete o k).
Proof.
  unfold js_wf. induction o as [|[k' v'] r IH]; simpl; auto.
  intros Hnd. inversion Hnd as [|? ? Hk Hr]; subst.
  destruct (String.eqb k' k); simpl; auto.
  constructor; auto. intros Hin. apply Hk.
  clear - Hin. induction r as [|[k0 v0] r IH]; simpl in *; auto.
  destruct (String.eqb k0 k); simpl in *; tauto.
Qed.

(** A loop of [set]: the last write to a key wins. *)
Lemma get_fold_set (xs : list (string * V)) (init : t V) (k : string) :
  get (fold_left (fun acc e => set acc (fst e) (snd e)) xs init) k =
  match get (rev xs) k with
  | Some v => Some v
  | None => get init k
  end.
Proof.
  induction xs as [|[k' v'] xs IH] using rev_ind; simpl; auto.
  rewrite fold_left_app, rev_app_distr. simpl.
  destruct (String.eqb k' k) eqn:E.
  - apply String.eqb_eq in E. subst. apply JsObjectFacts.get_set_same.
  - rewrite JsObjectFacts.get_set_other; auto. now apply String.eqb_neq.
Qed.

Lemma get_rev o k : js_wf o -> get (rev o) k = get o k.
Proof.
  intros Hwf. destruct (get o k) as [v|] eqn:Hg.
  - apply in_get.
    + unfold js_wf. rewrite map_rev. apply NoDup_rev. exact Hwf.
    + apply in_rev. rewrite rev_involutive. now apply get_some_in.
  - apply get_none_not_in. apply get_none_not_in in Hg.
    rewrite map_rev, <- in_rev. exact Hg.
Qed.

(** [Object.assign(target, src)]: the source wins, the rest is kept. *)
Lemma get_assign (target src : t V) k :
  js_wf src ->
  get (assign target src) k =
  match get src k with Some v => Some v | None => get target k end.
Proof.
  intros Hwf. unfold assign. rewrite get_fold_set.
  rewrite get_rev by now apply wf_entries.
  now rewrite get_entries.
Qed.

Lemma set_fresh o k v : get o k = None -> set o k v = (o ++ [(k, v)])%list.
Proof.
  induction o as [|[k' v'] r IH]; simpl; auto.
  destruct (String.eqb k' k); [discriminate|].
  intros Hg. now rewrite IH.
Qed.

Lemma get_app_fresh o o' k : get o k = None -> get (o ++ o')%list k = get o' k.
Proof.
  induction o as [|[k' v'] r IH]; simpl; auto.
  destruct (String.eqb k' k); [discriminate|]. exact IH.
Qed.

Lemma keys_nil o : keys o = [] <-> o = [].
Proof.
  split; [|now intros ->].
  intros Hk. pose proof (keys_perm o) as Hp. rewrite Hk in Hp.
  apply Permutation_nil in Hp. now destruct o.
Qed.

Lemma first_key_held o k ks : keys o = k :: ks -> exists v, get o k = Some v.
Proof.
  intros Hk. destruct (get o k) as [v|] eqn:Hg; eauto.
  exfalso. apply get_none_not_in in Hg. apply Hg.
  apply (Permutation_in _ (keys_perm o)). rewrite Hk. now left.
Qed.

End Order.
End JsObjectOrder.

(** ** The headers and the body of a request *)

Lemma get_request_headers (method href : string)
      (headers : JsObject.t string) (body : option string) (k : string) :
  js_wf headers ->
  JsObject.get (cfg_headers (request_config method href headers body)) k
  = match JsObject.get headers k with
    | Some v => Some v
    | None => JsObject.get getDefaultHeaders k
    end.
Proof.
  intros Hwf. unfold request_config. cbn [cfg_headers].
  rewrite JsObjectOrder.get_assign by exact Hwf.
  now destruct (JsObject.get headers k).
Qed.

Section RequestRuns.
Context `{Platform}.

Lemma request_unresolved (rq : Request) (method url : string)
      (headers : JsObject.t string) (body : option string) (w : World) (e : JsError) :
  absoluteUrl rq url = Rejected e ->
  request rq method url headers body w = (Rejected e, w).
Proof. intros Hu. unfold request. now rewrite Hu. Qed.

Lemma request_sends_one (rq : Request) (method url href : string)
      (headers : JsObject.t string) (body : option string) (w : World) :
  absoluteUrl rq url = Resolved href ->
  sent (snd (request rq method url headers body w))
  = (sent w ++ [request_config method href headers body])%list
  /\ debugged (snd (request rq method url headers body w)) = debugged w
  /\ prefixes (snd (request rq method url headers body w)) = prefixes w.
Proof.
  intros Hu. unfold request. rewrite Hu.
  destruct (axios_request _ _) as [status data|error];
    [destruct (request_then_throws rq status data)|]; repeat split.
Qed.

Lemma pathname_resolves (rq : Request) (url : string) :
  resolves rq url <-> exists p, pathname rq url = Resolved p.
Proof.
  unfold resolves, absoluteUrl, pathname.
  destruct (new_URL url (baseUrl rq)); split; intros [x Hx]; try discriminate; eauto.
Qed.

End RequestRuns.


(** X2: [move] and [copy] on a url that does not resolve throw the
    [TypeError] of [request] and send nothing; on a url that resolves,
    [move] sends one MOVE whose [Destination] header is the destination,
    whose [Depth] header is ["Infinity"] and whose [Overwrite] header is
    ["T"] or ["F"], whatever the caller's headers say about these three;
    [copy] does the same with the depth it is given. *)
Theorem X2_copy_move_headers
        `{Platform} (rq : Request) (url destination depth : string)
        (overwrite : bool) (headers : JsObject.t string) (body : option string)
        (w : World) :
  js_wf headers ->
  match absoluteUrl rq url with
  | Rejected e =>
      move rq url destination overwrite headers body w = (Rejected e, w)
      /\ copy rq url destination depth overwrite headers body w = (Rejected e, w)
  | Resolved href =>
      (exists config,
          sent (snd (move rq url destination overwrite headers body w))
          = (sent w ++ [config])%list
          /\ cfg_method config = "MOVE"
          /\ cfg_url config = href
          /\ JsObject.get (cfg_headers config) "Destination" = Some destination
          /\ JsObject.get (cfg_headers config) "Depth" = Some "Infinity"
          /\ JsObject.get (cfg_headers config) "Overwrite"
             = Some (if overwrite then "T" else "F"))
      /\ (exists config,
          sent (snd (copy rq url destination depth overwrite headers body w))
          = (sent w ++ [config])%list
          /\ cfg_method config = "COPY"
          /\ cfg_url config = href
          /\ JsObject.get (cfg_headers config) "Destination" = Some destination
          /\ JsObject.get (cfg_headers config) "Depth" = Some depth
          /\ JsObject.get (cfg_headers config) "Overwrite"
             = Some (if overwrite then "T" else "F"))
  end.
Proof.
  intros Hwf. destruct (absoluteUrl rq url) as [href|e] eqn:Hu.
  - unfold move, copy. split; eexists;
      (split; [apply request_sends_one; exact Hu|]); (split; [reflexivity|]);
      (split; [reflexivity|]);
      repeat split;
      rewrite get_request_headers by (repeat apply JsObjectOrder.wf_put; exact Hwf);
      rewrite !JsObjectFacts.get_put; reflexivity.
  - unfold move, copy. split; now apply request_unresolved.
Qed.

(** X3: [propFind] on a url that resolves sends one PROPFIND whose [Depth]
    header is the depth it is given, even when the caller's headers carry
    another, and whose body is the serialized [propfind/prop] skeleton with
    one empty element per requested property, in order; on a url that does
    not resolve it throws a [TypeError] and sends nothing.  When the client
    answers 207 and the reduction of the answer throws, [propFind] rejects
    with a [NetworkRequestHttpError] without status; otherwise the body is
    the first entry alone exactly when the depth parses to 0, and the map
    keyed by path otherwise. *)
Theorem X3_propFind_request_and_unwrapping
        `{Platform} (rq : Request) (url : string) (properties : list QName)
        (depth : string) (headers : JsObject.t string) (w : World) :
  js_wf headers ->
  let skeleton :=
    Xml (NS.DAV, "propfind") []
        [Xml (NS.DAV, "prop") [] (map (fun p => Xml p [] [] None) properties) None]
        None in
  let xml := fst (xml_serialize (prefixes w) skeleton) in
  let r := propFind rq url properties depth headers w in
  (forall e, absoluteUrl rq url = Rejected e ->
             fst r = Rejected e /\ sent (snd r) = sent w)
  /\ (forall href,
        absoluteUrl rq url = Resolved href ->
        exists config,
          sent (snd r) = (sent w ++ [config])%list
          /\ cfg_method config = "PROPFIND"
          /\ cfg_url config = href
          /\ cfg_data config = Some xml
          /\ JsObject.get (cfg_headers config) "Depth" = Some depth
          /\ forall data,
               axios_request (sent w) config = AxiosFulfilled 207 data ->
               fst r
               = if _parseMultiStatusResponse_throws rq data
                 then Rejected (NetworkFailure NetworkRequestHttpError None None)
                 else Resolved
                        {| body := if match Js.parseInt (Some depth) with
                                      | Some d => (d =? 0)%Z
                                      | None => false
                                      end
                                   then first_entry (_parseMultiStatusResponse rq data)
                                   else multistatus_value
                                          (_parseMultiStatusResponse rq data);
                           status := 207 |}).
Proof.
  intros Hwf skeleton xml r.
  assert (Hdepth : forall href b,
             JsObject.get (cfg_headers (request_config "PROPFIND" href
                                          (js_put headers "Depth" depth) b)) "Depth"
             = Some depth).
  { intros href b. rewrite get_request_headers by (apply JsObjectOrder.wf_put; exact Hwf).
    now rewrite JsObjectFacts.get_put. }
  unfold r, propFind, serialize, bind, request.
  change (getRootSkeleton (NS.DAV, "propfind") [(NS.DAV, "prop")]
            (map (fun p => Xml p [] [] None) properties)) with skeleton.
  unfold xml. destruct (xml_serialize (prefixes w) skeleton) as [x p].
  cbn [fst snd sent debugged prefixes]. split.
  - intros e He. rewrite He. split; reflexivity.
  - intros href Hu. rewrite Hu.
    exists (request_config "PROPFIND" href (js_put headers "Depth" depth) (Some x)).
    split; [destruct (axios_request _ _) as [status data|error];
            [destruct (request_then_throws rq status data)|]; reflexivity|].
    repeat split; auto.
    intros data Hax. rewrite Hax. unfold request_then_throws.
    change ((207 =? 207)%Z) with true. cbn [andb].
    destruct (_parseMultiStatusResponse_throws rq data); [reflexivity|].
    cbn [fst]. unfold request_then.
    rewrite Hdepth. change ((207 =? 207)%Z) with true.
    change (String.eqb "PROPFIND" "PROPFIND") with true.
    rewrite andb_true_r. reflexivity.
Qed.


(** ** Status lines *)

Section StatusLine.

Lemma split_cons_no_blank (v rest : string) :
  lacks " " v -> Js.split " " (v ++ String " " rest) = v :: Js.split " " rest.
Proof.
  unfold lacks. induction v as [|c v IH]; simpl; intros Hv; auto.
  destruct (Ascii.eqb c " ") eqn:E.
  - apply Ascii.eqb_eq in E. exfalso. apply Hv. now left.
  - rewrite IH by tauto. reflexivity.
Qed.

Lemma split_no_blank (v : string) : lacks " " v -> Js.split " " v = [v].
Proof.
  unfold lacks. induction v as [|c v IH]; simpl; intros Hv; auto.
  destruct (Ascii.eqb c " ") eqn:E.
  - apply Ascii.eqb_eq in E. exfalso. apply Hv. now left.
  - rewrite IH by tauto. reflexivity.
Qed.

Lemma numeral_no_blank (d : Decimal.uint) : lacks " " (NilEmpty.string_of_uint d).
Proof.
  unfold lacks. induction d; simpl; intros Hin; auto;
    destruct Hin as [Hc | Hin]; auto; discriminate Hc.
Qed.

Lemma digits_numeral (d : Decimal.uint) :
  forall (acc : option Z) (a : nat),
    match acc with Some z => z | None => 0%Z end = Z.of_nat a ->
    Js.digits (NilEmpty.string_of_uint d) acc
    = match d with
      | Decimal.Nil => acc
      | _ => Some (Z.of_nat (Nat.of_uint_acc d a))
      end.
Proof.
  induction d; intros acc a Ha; [reflexivity|..];
    cbn [NilEmpty.string_of_uint Js.digits];
    match goal with
    | |- context [Js.is_digit ?c] =>
        change (Js.is_digit c) with true; cbv iota;
        let k := eval vm_compute in (Z.to_nat (Js.digit_value c)) in
        let v := eval vm_compute in (Js.digit_value c) in
        change (Js.digit_value c) with v;
        rewrite (IHd _ (k + Nat.tail_mul 10 a)%nat)
          by (rewrite Ha, Nat.tail_mul_spec; lia)
    end;
    (destruct d; [cbn [Nat.of_uint_acc]; rewrite Ha, Nat.tail_mul_spec; f_equal; lia
                 | reflexivity ..]).
Qed.

Lemma trim_start_numeral (d : Decimal.uint) :
  Js.trim_start (NilEmpty.string_of_uint d) = NilEmpty.string_of_uint d.
Proof.
  destruct d as [|d|d|d|d|d|d|d|d|d|d]; [reflexivity|..];
    cbn [NilEmpty.string_of_uint];
    (destruct (NilEmpty.string_of_uint d) as [|c2 [|c3 r3]]; reflexivity).
Qed.

Lemma round_double_small (z : Z) :
  (Z.abs z < 2 ^ 53)%Z -> Js.round_double z = z.
Proof.
  intros Hz. unfold Js.round_double.
  assert (He : (Z.log2 (Z.abs z) - 52 <= 0)%Z).
  { destruct (Z.eq_dec (Z.abs z) 0) as [E|E].
    - rewrite E. simpl. lia.
    - apply Z.log2_lt_pow2 in Hz; lia. }
  apply Z.leb_le in He. cbv zeta. now rewrite He.
Qed.

Lemma round_double_large (z : Z) :
  (2 ^ 53 <= z)%Z -> (2 ^ 53 <= Js.round_double z)%Z.
Proof.
  intros Hz. unfold Js.round_double. cbv zeta.
  rewrite (Z.abs_eq z) by lia.
  assert (Hl : (53 <= Z.log2 z)%Z) by (apply Z.log2_le_pow2; lia).
  destruct (Z.log2 z - 52 <=? 0)%Z eqn:He; [apply Z.leb_le in He; lia|].
  set (e := (Z.log2 z - 52)%Z) in *.
  assert (He0 : (0 < e)%Z) by (unfold e; lia).
  rewrite (Z.sgn_pos z) by lia. rewrite Z.mul_1_l.
  assert (Hq : (2 ^ 52 <= Z.shiftr z e)%Z).
  { rewrite Z.shiftr_div_pow2 by lia.
    apply Z.div_le_lower_bound; [apply Z.pow_pos_nonneg; lia|].
    rewrite <- Z.pow_add_r by lia.
    replace (e + 52)%Z with (Z.log2 z) by (unfold e; lia).
    apply Z.log2_spec. lia. }
  match goal with
  | |- context [Z.shiftl (if ?b then ?x else ?y) e] =>
      set (q' := if b then x else y);
      assert (Hq' : (2 ^ 52 <= q')%Z) by (unfold q'; destruct b; lia)
  end.
  assert (Hv : (2 ^ 53 <= Z.shiftl q' e)%Z).
  { rewrite Z.shiftl_mul_pow2 by lia.
    assert (Hp : (2 ^ 1 <= 2 ^ e)%Z) by (apply Z.pow_le_mono_r; lia).
    change (2 ^ 53)%Z with (2 ^ 52 * 2 ^ 1)%Z.
    apply Z.mul_le_mono_nonneg; lia. }
  destruct (Z.shiftl 1 1024 <=? Z.shiftl q' e)%Z; [|exact Hv].
  rewrite Z.shiftl_mul_pow2 by lia. rewrite Z.mul_1_l.
  apply Z.pow_le_mono_r; lia.
Qed.

(** Beyond [2^53] a status code is not the integer of its digits, and a
    numeral of more than 308 digits parses to [Infinity]. *)
Example parseInt_beyond_2_53 :
  Js.parseInt (Some "9007199254740993") = Some 9007199254740992%Z
  /\ Js.parseInt (Some "9007199254740995") = Some 9007199254740996%Z
  /\ getStatusCodeFromString "HTTP/1.1 9007199254740993 Odd"
     = Some 9007199254740992%Z.
Proof. repeat split; vm_compute; reflexivity. Qed.

Lemma parseInt_numeral (n : nat) :
  Js.parseInt (Some (NilEmpty.string_of_uint (Nat.to_uint n)))
  = Some (Js.round_double (Z.of_nat n)).
Proof.
  unfold Js.parseInt. rewrite trim_start_numeral.
  assert (Hd : Js.digits (NilEmpty.string_of_uint (Nat.to_uint n)) None
               = Some (Z.of_nat n)).
  { rewrite (digits_numeral _ None 0%nat) by reflexivity.
    pose proof (DecimalNat.Unsigned.of_to n) as Hof. unfold Nat.of_uint in Hof.
    destruct (Nat.to_uint n) eqn:E; [|now rewrite Hof..].
    simpl in Hof. subst n. discriminate E. }
  change (Some (Js.round_double (Z.of_nat n)))
    with (option_map Js.round_double (Some (Z.of_nat n))).
  rewrite <- Hd.
  destruct (Nat.to_uint n) as [|d|d|d|d|d|d|d|d|d|d]; reflexivity.
Qed.

End StatusLine.

(** X4: for a status line made of a version without blanks, one blank, the
    decimal numeral of a code [n] and then either nothing or a blank and any
    reason phrase, [getStatusCodeFromString] yields the double nearest to
    [n], which is [n] itself below [2^53]; whatever [n] is, the propstat
    block is taken exactly when [200 <= n < 300]. *)
Theorem X4_status_line_round_trip (version reason : string) (n : nat) :
  lacks " " version ->
  let code := NilEmpty.string_of_uint (Nat.to_uint n) in
  getStatusCodeFromString (version ++ " " ++ code)
  = Some (Js.round_double (Z.of_nat n))
  /\ getStatusCodeFromString (version ++ " " ++ code ++ " " ++ reason)
     = Some (Js.round_double (Z.of_nat n))
  /\ ((Z.of_nat n < 2 ^ 53)%Z ->
      getStatusCodeFromString (version ++ " " ++ code ++ " " ++ reason)
      = Some (Z.of_nat n))
  /\ (wasRequestSuccessful
        (getStatusCodeFromString (version ++ " " ++ code ++ " " ++ reason)) = true
      <-> (200 <= n < 300)%nat).
Proof.
  intros Hv code.
  assert (H1 : getStatusCodeFromString (version ++ " " ++ code)
               = Some (Js.round_double (Z.of_nat n))).
  { unfold getStatusCodeFromString.
    change (version ++ " " ++ code) with (version ++ String " " code).
    rewrite split_cons_no_blank by exact Hv.
    rewrite split_no_blank by apply numeral_no_blank.
    apply parseInt_numeral. }
  assert (H2 : getStatusCodeFromString (version ++ " " ++ code ++ " " ++ reason)
               = Some (Js.round_double (Z.of_nat n))).
  { unfold getStatusCodeFromString.
    change (version ++ " " ++ code ++ " " ++ reason)
      with (version ++ String " " (code ++ String " " reason)).
    rewrite split_cons_no_blank by exact Hv.
    rewrite split_cons_no_blank by apply numeral_no_blank.
    apply parseInt_numeral. }
  split; [exact H1|]. split; [exact H2|]. split.
  - intros Hn. rewrite H2, round_double_small; [reflexivity|lia].
  - rewrite H2. unfold wasRequestSuccessful, Js.in_range.
    rewrite andb_true_iff, Z.leb_le, Z.ltb_lt.
    destruct (Z_lt_le_dec (Z.of_nat n) (2 ^ 53)) as [Hn|Hn].
    + rewrite round_double_small by lia. lia.
    + pose proof (round_double_large _ Hn). lia.
Qed.


(** ** The last segment of a path *)

Lemma append_assoc (a b c : string) : (a ++ b) ++ c = a ++ (b ++ c).
Proof. induction a; simpl; congruence. Qed.

Lemma slice_last_snoc (s : string) (c : ascii) :
  Js.slice_last (s ++ String c "") = String c "".
Proof.
  induction s as [|a s IH]; simpl; auto.
  rewrite IH. destruct s; reflexivity.
Qed.

Lemma slice_init_snoc (s : string) (c : ascii) : slice_init (s ++ String c "") = s.
Proof.
  induction s as [|a s IH]; simpl; auto.
  rewrite IH. destruct s; reflexivity.
Qed.

Lemma slice_last_app (a b : string) : b <> "" -> Js.slice_last (a ++ b) = Js.slice_last b.
Proof.
  intros Hb. induction a as [|c a IH]; simpl; auto.
  rewrite IH. destruct (a ++ b) eqn:E; auto.
  destruct a; simpl in E; [contradiction|discriminate].
Qed.

Lemma slice_last_lacks (c : ascii) (s : string) :
  s <> "" -> lacks c s -> String.eqb (Js.slice_last s) (String c "") = false.
Proof.
  unfold lacks. induction s as [|a s IH]; [contradiction|].
  intros _ Hl. simpl in Hl. destruct s as [|b s].
  - cbn [Js.slice_last]. apply String.eqb_neq. intros [= ->]. tauto.
  - change (Js.slice_last (String a (String b s))) with (Js.slice_last (String b s)).
    apply IH; [discriminate|tauto].
Qed.

Lemma lastIndexOf_lacks (c : ascii) (s : string) : lacks c s -> lastIndexOf c s = None.
Proof.
  unfold lacks. induction s as [|a s IH]; simpl; auto.
  intros Hl. rewrite IH by tauto.
  destruct (Ascii.eqb a c) eqn:E; auto.
  apply Ascii.eqb_eq in E. tauto.
Qed.

Lemma lastIndexOf_last (c : ascii) (dir name : string) :
  lacks c name -> lastIndexOf c (dir ++ String c name) = Some (String.length dir).
Proof.
  intros Hl. induction dir as [|a dir IH]; simpl.
  - rewrite lastIndexOf_lacks by exact Hl. now rewrite Ascii.eqb_refl.
  - now rewrite IH.
Qed.

Lemma slice_from_length (dir rest : string) :
  slice_from (String.length dir) (dir ++ rest) = rest.
Proof. induction dir; simpl; auto. Qed.

(** X5: [filename] answers the last segment of the pathname with its
    leading separator, and a trailing separator makes no difference: for a
    pathname [dir/name] or [dir/name/] with a non-empty [name] free of
    separators it answers [/name]; for the root pathname [/] it answers the
    empty string; for a url that does not resolve it throws as [pathname]
    does. *)
Theorem X5_filename_is_the_last_segment
        `{Platform} (rq : Request) (url dir name : string) :
  name <> "" ->
  lacks "/" name ->
  (pathname rq url = Resolved (dir ++ "/" ++ name) ->
   filename rq url = Resolved ("/" ++ name))
  /\ (pathname rq url = Resolved (dir ++ "/" ++ name ++ "/") ->
      filename rq url = Resolved ("/" ++ name))
  /\ (pathname rq url = Resolved "/" -> filename rq url = Resolved "")
  /\ (forall e, pathname rq url = Rejected e -> filename rq url = Rejected e).
Proof.
  intros Hne Hl.
  assert (Hcore : forall p, p = dir ++ String "/" name ->
            match lastIndexOf "/" p with
            | Some slashPos => slice_from slashPos p
            | None => Js.slice_last p
            end = String "/" name).
  { intros p ->. rewrite lastIndexOf_last by exact Hl. apply slice_from_length. }
  split; [|split; [|split]]; intros Hp; unfold filename; try rewrite Hp.
  - f_equal. change (dir ++ "/" ++ name) with (dir ++ String "/" name).
    rewrite slice_last_app by discriminate.
    change (Js.slice_last (String "/" name)) with
      (match name with "" => "/" | String _ _ => Js.slice_last name end).
    destruct name as [|c n]; [contradiction|].
    rewrite (slice_last_lacks "/" (String c n)) by (auto; discriminate).
    now apply Hcore.
  - f_equal.
    replace (dir ++ "/" ++ name ++ "/") with ((dir ++ String "/" name) ++ String "/" "")
      by (rewrite append_assoc; reflexivity).
    rewrite slice_last_snoc, slice_init_snoc. cbn [String.eqb Ascii.eqb].
    change (String.eqb "/" "/") with true. cbv iota.
    now apply Hcore.
  - reflexivity.
  - intros Hr. now rewrite Hr.
Qed.


(** ** What the reducer keeps *)

Section ReducerKeeps.
Context `{Platform}.

Lemma writes_nil_of_unsuccessful (rq : Request) (r : ResponseNode) :
  (forall ps, In ps (propStats r) -> successful ps = false) -> writes rq r = [].
Proof.
  unfold writes. induction (propStats r) as [|ps pss IH]; simpl; auto.
  intros Hall. rewrite (Hall ps) by now left. simpl. apply IH.
  intros ps' Hin. apply Hall. now right.
Qed.

Lemma parse_response_of_writes (rq : Request) (document : Document) (r : ResponseNode) :
  parse_response rq document r
  = fold_left (fun a n => js_put a (clark n) (parse (parser rq) document n))
              (writes rq r) [].
Proof. unfold parse_response, writes. apply parse_propstat_writes. Qed.

End ReducerKeeps.

(** X6: every [response] element of a 207 body gets an entry under its href
    (unless the href is [__proto__]), and every entry comes from such an
    element; when no propstat block of the last [response] of a path is
    successful, the path is still there, with an empty property map. *)
Theorem X6_every_href_has_an_entry
        `{Platform} (rq : Request) (body : string) :
  let document := dom_parseFromString body in
  let result := _parseMultiStatusResponse rq body in
  (forall r, In r document -> href r <> "__proto__" ->
             exists props, JsObject.get result (href r) = Some props)
  /\ (forall path props, JsObject.get result path = Some props ->
                         exists r, In r document /\ href r = path)
  /\ (forall path r, last_response path document = Some r ->
                     path <> "__proto__" ->
                     (forall ps, In ps (propStats r) -> successful ps = false) ->
                     JsObject.get result path = Some []).
Proof.
  intros document result. unfold result, _parseMultiStatusResponse, reduce_document.
  fold document. split; [|split].
  - intros r Hin Hne. rewrite reduce_responses_get.
    apply String.eqb_neq in Hne. rewrite Hne. unfold last_response.
    destruct (List.find _ (rev document)) as [r'|] eqn:Hf; simpl; eauto.
    exfalso. apply in_rev in Hin.
    pose proof (find_none _ _ Hf r Hin) as Hx. simpl in Hx.
    rewrite String.eqb_refl in Hx. discriminate.
  - intros path props Hg. rewrite reduce_responses_get in Hg.
    destruct (String.eqb path "__proto__"); [discriminate|].
    unfold last_response in Hg.
    destruct (List.find _ (rev document)) as [r|] eqn:Hf; [|discriminate].
    apply find_some in Hf. destruct Hf as [Hin Hh].
    exists r. split; [now apply in_rev|now apply String.eqb_eq].
  - intros path r Hlast Hne Hall. rewrite reduce_responses_get.
    apply String.eqb_neq in Hne. rewrite Hne, Hlast. simpl.
    rewrite parse_response_of_writes, writes_nil_of_unsuccessful by exact Hall.
    reflexivity.
Qed.

(** X7: a property whose qualified name the parser does not accept never
    appears in the result of the reducer, whatever the document holds. *)
Theorem X7_unknown_properties_are_skipped
        `{Platform} (rq : Request) (body path key : string) (props : PropertyMap) :
  canParse (parser rq) key = false ->
  JsObject.get (_parseMultiStatusResponse rq body) path = Some props ->
  JsObject.get props key = None.
Proof.
  intros Hcan Hg.
  unfold _parseMultiStatusResponse, reduce_document in Hg.
  rewrite reduce_responses_get in Hg.
  destruct (String.eqb path "__proto__"); [discriminate|].
  destruct (last_response path (dom_parseFromString body)) as [r|]; [|discriminate].
  injection Hg as <-. rewrite parse_response_get. unfold last_write_within.
  destruct (List.find _ (rev (writes rq r))) as [n|] eqn:Hf; auto.
  apply find_some in Hf. destruct Hf as [Hin Hk].
  apply in_rev, in_writes in Hin. destruct Hin as (ps & _ & _ & _ & Hc).
  apply String.eqb_eq in Hk. congruence.
Qed.

(** ** Resolution has no effect outside the node *)

Section ResolutionEffects.
Context `{Platform}.

Lemma debug_keeps (m : string) (w : World) :
  sent (snd (debug m w)) = sent w /\ prefixes (snd (debug m w)) = prefixes w.
Proof. now split. Qed.

Lemma resolve_entry_world (c : DavCollection) (isPartial : bool) (path : string)
      (props : JsVal) (w : World) :
  sent (snd (resolve_entry c isPartial path props w)) = sent w
  /\ prefixes (snd (resolve_entry c isPartial path props w)) = prefixes w.
Proof.
  unfold resolve_entry, bind, of_outcome, debug, ret.
  repeat match goal with
         | |- context [match ?x with _ => _ end] => destruct x
         | |- context [if ?b then _ else _] => destruct b
         end; cbn [fst snd sent debugged prefixes]; auto.
Qed.

Lemma resolve_entries_world (c : DavCollection) (isPartial : bool)
      (entries : list (string * JsVal)) :
  forall index children w,
    sent (snd (resolve_entries c isPartial entries index children w)) = sent w
    /\ prefixes (snd (resolve_entries c isPartial entries index children w)) = prefixes w.
Proof.
  induction entries as [|[path props] rest IH]; intros index children w; simpl; auto.
  destruct (is_own_url c path); auto.
  unfold bind. pose proof (resolve_entry_world c isPartial path props w) as [Hs Hp].
  destruct (resolve_entry c isPartial path props w) as [[child|e] w1]; simpl in *.
  - destruct (IH (index ++ [path])%list (children ++ [child])%list w1) as [Hs' Hp'].
    now rewrite Hs', Hp'.
  - auto.
Qed.

End ResolutionEffects.

(** X8: [_handleMultiStatusResponse] never talks to the server, and it is
    all or nothing: when it throws (for one entry it cannot instantiate) the
    node is exactly as before, no path recorded; when it returns, the node
    differs in [_childrenNames] only. *)
Theorem X8_resolution_is_local_and_atomic
        `{Platform} (s : State) (responseBody : JsVal) (isPartial : bool) :
  let r := _handleMultiStatusResponse responseBody isPartial s in
  sent (world (snd r)) = sent (world s)
  /\ prefixes (world (snd r)) = prefixes (world s)
  /\ (forall e, fst r = Rejected e -> this (snd r) = this s)
  /\ (forall children, fst r = Resolved children ->
        exists names, this (snd r)
                      = with_childrenNames (_childrenNames (this s) ++ names)%list (this s)).
Proof.
  intros r. subst r.
  unfold _handleMultiStatusResponse, bind, self, of_outcome, io, assign_this, ret.
  cbn [fst snd this world].
  destruct (object_entries responseBody) as [entries|e0]; cbn [fst snd this world].
  - pose proof (resolve_entries_world (this s) isPartial entries [] [] (world s))
      as [Hs Hp].
    destruct (resolve_entries (this s) isPartial entries [] [] (world s))
      as [[r|e1] w1]; cbn [fst snd this world] in *.
    + repeat split; auto; [discriminate|]. intros children _. now exists (fst r).
    + repeat split; auto. discriminate.
  - repeat split; auto. discriminate.
Qed.

(** ** [find] step by step *)

Section FindRuns.
Context `{Platform}.

(** What [find] does once the client has answered its PROPFIND with 207 and
    the reduction of the answer has returned. *)
Lemma find_after_207 (s : State) (uri data href : string) :
  let c := this s in
  uri <> "" ->
  absoluteUrl (_request c) (_url c ++ uri) = Resolved href ->
  (forall config,
      cfg_method config = "PROPFIND" ->
      cfg_url config = href ->
      axios_request (sent (world s)) config = AxiosFulfilled 207 data) ->
  _parseMultiStatusResponse_throws (_request c) data = false ->
  exists w1,
    sent w1 = (sent (world s) ++
               [request_config "PROPFIND" href (js_put [] "Depth" "0")
                  (Some (fst (xml_serialize (prefixes (world s))
                           (getRootSkeleton (NS.DAV, "propfind") [(NS.DAV, "prop")]
                              (map (fun p => Xml p [] [] None) (_propFindList c))))))])%list
    /\ find uri s
       = match resolve_entry c false (_url c ++ uri)
                 (first_entry (_parseMultiStatusResponse (_request c) data)) w1 with
         | (Resolved child, w2) =>
             (Resolved (Some child),
              {| this := with_childrenNames
                           (_childrenNames c ++ [(_url c ++ uri)%string])%list c;
                 world := w2 |})
         | (Rejected e, w2) => (Rejected e, {| this := c; world := w2 |})
         end.
Proof.
  intros c Huri Hhref Hax Hno.
  unfold find, propFind, serialize, request, bind, self, io.
  cbn [fst snd this world sent debugged prefixes]. fold c.
  destruct (xml_serialize _ _) as [xml p].
  cbn [fst snd this world sent debugged prefixes].
  rewrite Hhref, Hax by reflexivity.
  unfold request_then_throws. rewrite Hno, andb_false_r.
  cbn [fst snd this world sent debugged prefixes].
  unfold request_then, request_config. cbn [cfg_headers body].
  rewrite depth0_headers.
  change (Js.parseInt (Some "0")) with (Some 0%Z).
  change ((207 =? 207)%Z) with true.
  change ((0 =? 0)%Z) with true.
  change (String.eqb "PROPFIND" "PROPFIND") with true.
  cbn [andb].
  unfold _handleMultiStatusResponse, bind, self, of_outcome, io, assign_this, ret.
  cbn [fst snd this world object_entries]. fold c.
  rewrite entries_singleton. cbn [resolve_entries].
  rewrite (is_own_url_child c uri Huri). unfold bind.
  exists {| sent := (sent (world s) ++
                     [request_config "PROPFIND" href
                        (js_put [] "Depth" "0") (Some xml)])%list;
            debugged := debugged (world s);
            prefixes := p |}.
  split; [reflexivity|].
  match goal with
  | |- _ = match resolve_entry ?a ?b ?q ?v ?w with _ => _ end =>
      match goal with
      | |- context [resolve_entry a b q ?v0 ?w0] =>
          change (resolve_entry a b q v0 w0) with (resolve_entry a b q v w);
          destruct (resolve_entry a b q v w) as [[child|e] w2]
      end
  end; reflexivity.
Qed.

(** What [find] does once the client has answered its PROPFIND with 207 and
    the reduction of the answer has thrown. *)
Lemma find_207_throws (s : State) (uri data href : string) :
  let c := this s in
  absoluteUrl (_request c) (_url c ++ uri) = Resolved href ->
  (forall config,
      cfg_method config = "PROPFIND" ->
      cfg_url config = href ->
      axios_request (sent (world s)) config = AxiosFulfilled 207 data) ->
  _parseMultiStatusResponse_throws (_request c) data = true ->
  exists w1,
    sent w1 = (sent (world s) ++
               [request_config "PROPFIND" href (js_put [] "Depth" "0")
                  (Some (fst (xml_serialize (prefixes (world s))
                           (getRootSkeleton (NS.DAV, "propfind") [(NS.DAV, "prop")]
                              (map (fun p => Xml p [] [] None) (_propFindList c))))))])%list
    /\ find uri s = (Rejected request_catch_thrown, {| this := c; world := w1 |}).
Proof.
  intros c Hhref Hax Hthrows.
  unfold find, propFind, serialize, request, bind, self, io.
  cbn [fst snd this world sent debugged prefixes]. fold c.
  destruct (xml_serialize _ _) as [xml p].
  cbn [fst snd this world sent debugged prefixes].
  rewrite Hhref, Hax by reflexivity.
  unfold request_then_throws. rewrite Hthrows.
  change ((207 =? 207)%Z) with true. cbn [andb fst snd this world].
  eexists {| sent := _; debugged := _; prefixes := _ |}.
  split; [|reflexivity]. reflexivity.
Qed.

Lemma first_entry_undefined (m : MultiStatus) : first_entry m = JUndefined <-> m = [].
Proof.
  unfold first_entry. split.
  - destruct (JsObject.keys m) as [|k ks] eqn:Hk.
    + intros _. now apply JsObjectOrder.keys_nil.
    + destruct (JsObjectOrder.first_key_held m k ks Hk) as [v Hv].
      rewrite Hv. discriminate.
  - now intros ->.
Qed.

End FindRuns.

(** X9: a Depth-0 PROPFIND, on a url that resolves, answered with a 207
    body without any [response] element yields an [undefined] body, and
    [find] (for a non-empty uri) then throws a [TypeError] instead of
    returning a node; it has sent its one request and leaves the node as it
    was.  The unwrapped body is [undefined] only when the reduced map is
    empty. *)
Theorem X9_find_on_an_empty_multistatus_throws
        `{Platform} (s : State) (uri data href : string) :
  let c := this s in
  uri <> "" ->
  absoluteUrl (_request c) (_url c ++ uri) = Resolved href ->
  (forall config,
      cfg_method config = "PROPFIND" ->
      cfg_url config = href ->
      axios_request (sent (world s)) config = AxiosFulfilled 207 data) ->
  (first_entry (_parseMultiStatusResponse (_request c) data) = JUndefined
   <-> _parseMultiStatusResponse (_request c) data = [])
  /\ (dom_parseFromString data = [] ->
      fst (find uri s) = Rejected (TypeError "Cannot read properties of undefined")
      /\ this (snd (find uri s)) = c
      /\ List.length (sent (world (snd (find uri s))))
         = S (List.length (sent (world s)))).
Proof.
  intros c Huri Hhref Hax. split; [apply first_entry_undefined|].
  intros Hdoc.
  assert (Hno : _parseMultiStatusResponse_throws (_request c) data = false)
    by (unfold _parseMultiStatusResponse_throws; now rewrite Hdoc).
  destruct (find_after_207 s uri data href Huri Hhref Hax Hno) as (w1 & Hsent & Hfind).
  fold c in Hfind. rewrite Hfind.
  unfold _parseMultiStatusResponse. rewrite Hdoc.
  change (first_entry (reduce_document (_request c) [])) with JUndefined.
  unfold resolve_entry, bind, of_outcome.
  pose proof (proj1 (pathname_resolves (_request c) (_url c ++ uri))
                    (ex_intro _ href Hhref)) as [p Hp].
  rewrite Hp. cbn [js_read fst snd this world].
  repeat split. rewrite Hsent, length_app. simpl. lia.
Qed.

(** ** Exposed properties *)

Section ExposedFacts.
Context `{Platform}.



Lemma existsb_eqb_in (k : string) (l : list string) :
  existsb (String.eqb k) l = true <-> In k l.
Proof.
  rewrite existsb_exists. split.
  - intros (x & Hx & He). apply String.eqb_eq in He. now subst.
  - intros Hi. exists k. split; auto. apply String.eqb_refl.
Qed.

(** What the setter of a mutable property does to a node with an object
    for [_props]. *)
Lemma set_property_mutable (s : State) (localName : string) (val : JsVal)
      (e : Exposed) (fields : PropertyMap) :
  localName <> "url" ->
  is_exposed (this s) localName = Some e ->
  exposed_mutable e = true ->
  _props (this s) = JObj fields ->
  set_property localName val s
  = (Resolved tt,
     {| this := with_updatedProperties
                  (if existsb (String.eqb (exposed_key e)) (_updatedProperties (this s))
                   then _updatedProperties (this s)
                   else (_updatedProperties (this s) ++ [exposed_key e])%list)
                  (with_props (JObj (js_put fields (exposed_key e) val)) (this s));
        world := world s |}).
Proof.
  intros Hurl He Hm Hp. unfold set_property, bind, self.
  apply String.eqb_neq in Hurl. rewrite Hurl, He, Hm.
  unfold of_outcome, assign_this, ret. rewrite Hp. cbn [props_assign fst snd this world].
  destruct (existsb _ _); reflexivity.
Qed.

End ExposedFacts.

(** X10: assigning to a property exposed as mutable, on a node whose
    [_props] is an object, stores the value so that the getter returns it,
    leaves every other exposed property and the outside world alone, and
    puts the property's key on the dirty list once: assigning again does not
    add it again.  Assigning to a property exposed without a setter throws a
    [TypeError] and changes nothing. *)
Theorem X10_setter_then_getter
        `{Platform} (s : State) (localName : string) (val val' : JsVal)
        (e : Exposed) (fields : PropertyMap) :
  localName <> "url" ->
  is_exposed (this s) localName = Some e ->
  exposed_key e <> "__proto__" ->
  _props (this s) = JObj fields ->
  let c := this s in
  let r := set_property localName val s in
  (exposed_mutable e = true ->
     fst r = Resolved tt
     /\ world (snd r) = world s
     /\ get_property (this (snd r)) localName = Resolved val
     /\ (forall other e',
           is_exposed c other = Some e' -> exposed_key e' <> exposed_key e ->
           get_property (this (snd r)) other = get_property c other)
     /\ _updatedProperties (this (snd r))
        = (if existsb (String.eqb (exposed_key e)) (_updatedProperties c)
           then _updatedProperties c
           else _updatedProperties c ++ [exposed_key e])%list
     /\ _updatedProperties (this (snd (set_property localName val' (snd r))))
        = _updatedProperties (this (snd r)))
  /\ (exposed_mutable e = false ->
      r = (Rejected (TypeError "Cannot set property which has only a getter"), s)).
Proof.
  intros Hurl He Hk Hp c r. split.
  - intros Hm. unfold r.
    rewrite (set_property_mutable s localName val e fields Hurl He Hm Hp).
    cbn [fst snd this world]. fold c.
    set (dirty := if existsb (String.eqb (exposed_key e)) (_updatedProperties c)
                  then _updatedProperties c
                  else (_updatedProperties c ++ [exposed_key e])%list).
    split; [reflexivity|]. split; [reflexivity|]. split; [|split; [|split]].
    + unfold get_property, is_exposed. cbn [_exposed with_updatedProperties with_props _props].
      fold (is_exposed c localName). unfold c. rewrite He. cbn [js_read].
      now rewrite JsObjectFacts.get_put, String.eqb_refl,
                  (proj2 (String.eqb_neq _ _) Hk).
    + intros other e' He' Hne.
      unfold get_property, is_exposed. cbn [_exposed with_updatedProperties with_props _props].
      fold (is_exposed c other). rewrite He'. fold c in Hp. rewrite Hp. cbn [js_read].
      rewrite JsObjectFacts.get_put.
      assert (Hx : String.eqb (exposed_key e) (exposed_key e') = false)
        by (apply String.eqb_neq; congruence).
      rewrite Hx. now destruct (String.eqb (exposed_key e) "__proto__").
    + reflexivity.
    + match goal with
      | |- context [set_property localName val' ?s1] =>
          rewrite (set_property_mutable s1 localName val' e
                     (js_put fields (exposed_key e) val) Hurl He Hm eq_refl)
      end.
      cbn [fst snd this world _updatedProperties with_updatedProperties with_props].
      assert (Hin : existsb (String.eqb (exposed_key e)) dirty = true).
      { unfold dirty. destruct (existsb _ (_updatedProperties c)) eqn:E; auto.
        apply existsb_eqb_in, in_or_app. right. now left. }
      now rewrite Hin.
  - intros Hm. unfold r, set_property, bind, self.
    apply String.eqb_neq in Hurl. fold c. unfold c. now rewrite Hurl, He, Hm.
Qed.

(** ** The dirty list *)

Section DirtyInvariant.
Context `{Platform}.










End DirtyInvariant.


(** ** What [update] sends *)

Section UpdateFacts.
Context `{Platform}.

Lemma gather_properties_spec (fields : PropertyMap) (dirty : list string) :
  forall acc,
    NoDup dirty -> ~ In "__proto__" dirty ->
    (forall k, In k dirty -> JsObject.get acc k = None) ->
    gather_properties (JObj fields) dirty acc
    = Resolved (acc ++ map (fun k => (k, prop_of fields k)) dirty)%list.
Proof.
  induction dirty as [|k rest IH]; intros acc Hnd Hproto Hfresh; simpl.
  - now rewrite app_nil_r.
  - inversion Hnd as [|? ? Hk Hrest]; subst.
    fold (prop_of fields k). unfold js_put.
    assert (Hp : String.eqb k "__proto__" = false).
    { apply String.eqb_neq. intros ->. apply Hproto. now left. }
    rewrite Hp, JsObjectOrder.set_fresh by (apply Hfresh; now left).
    rewrite IH; auto.
    + now rewrite <- app_assoc.
    + intros Hin. apply Hproto. now right.
    + intros k' Hin. rewrite JsObjectOrder.get_app_fresh by (apply Hfresh; now right).
      simpl. destruct (String.eqb k k') eqn:E; auto.
      apply String.eqb_eq in E. subst. contradiction.
Qed.

Lemma propSet_of_flat_map (factories : list (PropertyMap -> list XmlNode))
      (properties : PropertyMap) :
  propSet_of factories properties = flat_map (fun p => p properties) factories.
Proof.
  unfold propSet_of.
  assert (Hg : forall acc,
             fold_left (fun arr p => (arr ++ p properties)%list) factories acc
             = (acc ++ flat_map (fun p => p properties) factories)%list).
  { induction factories as [|p ps IH]; intros acc; simpl.
    - now rewrite app_nil_r.
    - now rewrite IH, app_assoc. }
  apply Hg.
Qed.

End UpdateFacts.

(** X12: with a non-empty dirty list that names no key twice, on a node
    whose [_props] is an object, [update] sends at most one request.  When
    the node's url does not parse against the base url it rejects with the
    [TypeError] of the URL constructor and sends nothing.  Otherwise it
    sends exactly one request: a PROPPATCH to the resolved url whose body
    is the serialized [propertyupdate/set/prop] skeleton holding, encoder
    after encoder in registration order, what each registered encoder makes
    of the dirty keys paired, in the order they became dirty, with their
    current values ([undefined] for a key [_props] lacks).  It settles as
    the client does (a 207 answer whose reduction throws rejects as a
    [NetworkRequestHttpError]) and leaves the node, dirty list included, as
    it was.  On a node whose [_props] is [undefined] it throws a
    [TypeError] and sends nothing. *)
Theorem X12_update_sends_the_dirty_properties
        `{Platform} (s : State) :
  let c := this s in
  _updatedProperties c <> [] ->
  NoDup (_updatedProperties c) ->
  ~ In "__proto__" (_updatedProperties c) ->
  (forall fields,
      _props c = JObj fields ->
      let properties := map (fun k => (k, prop_of fields k)) (_updatedProperties c) in
      let propSet := flat_map (fun p => p properties) (_propSetFactory c) in
      let xml := xml_serialize (prefixes (world s)) (propertyupdate propSet) in
      this (snd (update s)) = c
      /\ match absoluteUrl (_request c) (_url c) with
         | Rejected e =>
             fst (update s) = Rejected e
             /\ sent (world (snd (update s))) = sent (world s)
         | Resolved href =>
             let config := request_config "PROPPATCH" href [] (Some (fst xml)) in
             sent (world (snd (update s))) = (sent (world s) ++ [config])%list
             /\ fst (update s)
                = match axios_request (sent (world s)) config with
                  | AxiosFulfilled status data =>
                      if request_then_throws (_request c) status data
                      then Rejected request_catch_thrown
                      else Resolved tt
                  | AxiosRejected error => Rejected (request_catch error)
                  end
         end)
  /\ (_props c = JUndefined ->
      update s = (Rejected (TypeError "Cannot read properties of undefined"), s)).
Proof.
  intros c Hne Hnd Hproto.
  assert (Hlen : (List.length (_updatedProperties c) =? 0)%nat = false).
  { destruct (_updatedProperties c); [contradiction|reflexivity]. }
  split.
  - intros fields Hp properties propSet xml.
    unfold update, bind, self, of_outcome, io, serialize, propPatch, request.
    fold c. rewrite Hlen, Hp.
    rewrite gather_properties_spec by (auto; intros; reflexivity).
    cbn [app fst snd this world sent debugged prefixes].
    fold properties. rewrite propSet_of_flat_map. fold propSet.
    unfold xml. destruct (xml_serialize _ _) as [x p].
    cbn [fst snd this world sent debugged prefixes].
    destruct (absoluteUrl (_request c) (_url c)) as [href|e];
      cbn [fst snd this world sent debugged prefixes]; [|repeat split].
    cbv zeta.
    destruct (axios_request _ _) as [st data|error];
      cbn [fst snd this world sent debugged prefixes];
      [destruct (request_then_throws _ _ _)|];
      cbn [fst snd this world sent debugged prefixes]; repeat split; auto.
  - intros Hp. unfold update, bind, self, of_outcome. fold c. rewrite Hlen, Hp.
    destruct (_updatedProperties c) as [|k rest]; [contradiction|]. reflexivity.
Qed.

(** ** A request the client rejects *)

(** Runs a call up to its first request, which either does not resolve its
    url or is rejected by the client. *)
Ltac first_request_rejected Hax :=
  unfold ends_at_first_request, rejects_after_one_request,
         rejects_before_any_request, bind, self, io, serialize, debug, request,
         of_outcome, ret, url;
  cbn [fst snd this world sent debugged prefixes];
  repeat match goal with
         | |- context [xml_serialize ?p ?n] => destruct (xml_serialize p n)
         end;
  cbn [fst snd this world sent debugged prefixes];
  match goal with
  | |- match ?o with _ => _ end => destruct o as [href|e']
  end;
  cbn [fst snd this world sent debugged prefixes];
  [rewrite ?Hax;
   cbn [fst snd this world sent debugged prefixes];
   split; [reflexivity|]; split; [reflexivity|];
   eexists; split; reflexivity
  |repeat split].

(** X13: a call ends at its first request when that request fails.  When
    the url of the request does not resolve against the base url, the call
    rejects with the error of the URL constructor and nothing is sent.
    When the client rejects the request, the call rejects with the error
    the transport makes of the rejection and nothing further is sent: no
    PROPFIND follows a PUT, MKCOL or POST that failed.  Either way the node
    is as it was and no child name is recorded. *)
Theorem X13_a_rejected_request_ends_the_call
        `{Platform} (s : State) (error : AxiosError) :
  (forall config, axios_request (sent (world s)) config = AxiosRejected error) ->
  let c := this s in
  let e := request_catch error in
  ends_at_first_request "PROPFIND" (_url c) findAll s e
  /\ (forall filter,
         ends_at_first_request "PROPFIND" (_url c) (findAllByFilter filter) s e)
  /\ (forall uri, ends_at_first_request "PROPFIND" (_url c ++ uri) (find uri) s e)
  /\ (forall name props,
         ends_at_first_request "MKCOL" (_url c ++ _getAvailableNameFromToken c name)
                               (createCollection name props) s e)
  /\ (forall name headers data,
         ends_at_first_request "PUT" (_url c ++ name)
                               (createObject name headers data) s e)
  /\ (forall headers, ends_at_first_request "DELETE" (_url c) (delete_ headers) s e)
  /\ ends_at_first_request "PROPFIND" (_url c) _updatePropsFromServer s e
  /\ ends_at_first_request "POST" (_url c) publish s e
  /\ ends_at_first_request "POST" (_url c) unpublish s e
  /\ (forall uri, ends_at_first_request "MOVE" uri (restore uri) s e)
  /\ (forall nextcloud vobject,
         ends_at_first_request "REPORT" (_url c ++ "objects")
                               (findDeletedObjects nextcloud vobject) s e).
Proof.
  intros Hax c e. unfold e, c.
  repeat match goal with |- _ /\ _ => split end; intros.
  - unfold findAll, propFind. first_request_rejected Hax.
  - unfold findAllByFilter, findAll, propFind. first_request_rejected Hax.
  - unfold find, propFind. first_request_rejected Hax.
  - unfold createCollection, mkCol. first_request_rejected Hax.
  - unfold createObject, put. first_request_rejected Hax.
  - unfold delete_, delete. first_request_rejected Hax.
  - unfold _updatePropsFromServer, propFind. first_request_rejected Hax.
  - unfold publish, post. first_request_rejected Hax.
  - unfold unpublish, post. first_request_rejected Hax.
  - unfold restore, move. first_request_rejected Hax.
  - unfold findDeletedObjects, report. first_request_rejected Hax.
Qed.

(** ** Registered constructors *)

(** X14: [_registerObjectFactory] (for an identifier other than
    [__proto__]) touches nothing outside the node, appends the constructor's
    own property names to the names asked for in PROPFIND requests, leaves
    the constructors of other content types in place, and replaces the one
    of its identifier: from then on an entry without collection type whose
    content type, cut at the first [;], is the identifier, is instantiated
    with the registered constructor, given the parent, the request, the
    path name of the entry, its property map and [isPartial].  An entry
    whose path has no path name is rejected with the error of the URL
    constructor. *)
Theorem X14_registered_object_factory_is_used
        `{Platform} (s : State) (identifier : string) (factory : Factory) :
  identifier <> "__proto__" ->
  let r := _registerObjectFactory identifier factory s in
  let c' := this (snd r) in
  fst r = Resolved tt
  /\ world (snd r) = world s
  /\ _propFindList c'
     = (_propFindList (this s)
        ++ match factory_getPropFindList factory with Some l => l | None => [] end)%list
  /\ (forall other, other <> identifier ->
        JsObject.get (_objectFactoryMapper c') other
        = JsObject.get (_objectFactoryMapper (this s)) other)
  /\ (forall isPartial path props w e,
        pathname (_request (this s)) path = Rejected e ->
        fst (resolve_entry c' isPartial path props w) = Rejected e)
  /\ (forall isPartial path url fields contentType w,
        pathname (_request (this s)) path = Resolved url ->
        prop_of fields "{DAV:}resourcetype" = JUndefined
        \/ prop_of fields "{DAV:}resourcetype" = JArr [] ->
        prop_of fields "{DAV:}getcontenttype" = JStr contentType ->
        contentType <> "" ->
        hd EmptyString (Js.split ";" contentType) = identifier ->
        existsb (String.eqb identifier) inherited_names = false ->
        fst (resolve_entry c' isPartial path (JObj fields) w)
        = Resolved (NewObject factory (_url (this s)) url (JObj fields) isPartial)).
Proof.
  intros Hid r c'. unfold c', r, _registerObjectFactory.
  apply String.eqb_neq in Hid. rewrite Hid. unfold assign_this.
  cbn [fst snd this world _propFindList _objectFactoryMapper with_factories].
  split; [reflexivity|]. split; [reflexivity|]. split; [|split; [|split]].
  - unfold register_propFindList.
    destruct (factory_getPropFindList factory); [reflexivity|now rewrite app_nil_r].
  - intros other Hne. apply JsObjectFacts.get_set_other. congruence.
  - intros isPartial path props w e Hp.
    unfold resolve_entry, bind, of_outcome. cbn [_request with_factories].
    now rewrite Hp.
  - intros isPartial path url fields contentType w Hp Hrt Hct Hne Hhd Hin.
    rewrite (object_branch_instantiates _ isPartial path url (JObj fields)
               (prop_of fields "{DAV:}resourcetype") contentType w).
    + rewrite Hhd. cbn [_objectFactoryMapper with_factories _url _request].
      now rewrite JsObjectFacts.get_set_same.
    + exact Hp.
    + reflexivity.
    + cbn [js_read]. fold (prop_of fields "{DAV:}getcontenttype"). now rewrite Hct.
    + apply String.eqb_neq in Hne. unfold object_condition.
      cbn [truthy]. rewrite Hne.
      destruct Hrt as [-> | ->]; reflexivity.
    + now rewrite Hhd.
Qed.

(** X15: [_registerCollectionFactory] (for an identifier other than
    [__proto__]) touches nothing outside the node, appends the constructor's
    own property names to the names asked for in PROPFIND requests, leaves
    the constructors of other collection types in place, and replaces the
    one of its identifier: from then on an entry whose first resource type
    other than [{DAV:}collection] is the identifier is instantiated with the
    registered constructor, whatever its content type.  An entry whose
    path has no path name is rejected with the error of the URL
    constructor. *)
Theorem X15_registered_collection_factory_is_used
        `{Platform} (s : State) (identifier : string) (factory : Factory) :
  identifier <> "__proto__" ->
  let r := _registerCollectionFactory identifier factory s in
  let c' := this (snd r) in
  fst r = Resolved tt
  /\ world (snd r) = world s
  /\ _propFindList c'
     = (_propFindList (this s)
        ++ match factory_getPropFindList factory with Some l => l | None => [] end)%list
  /\ (forall other, other <> identifier ->
        JsObject.get (_collectionFactoryMapper c') other
        = JsObject.get (_collectionFactoryMapper (this s)) other)
  /\ (forall isPartial path props w e,
        pathname (_request (this s)) path = Rejected e ->
        fst (resolve_entry c' isPartial path props w) = Rejected e)
  /\ (forall isPartial path url fields types w,
        pathname (_request (this s)) path = Resolved url ->
        prop_of fields "{DAV:}resourcetype" = JArr types ->
        List.find (fun t => negb (String.eqb t "{DAV:}collection")) types
        = Some identifier ->
        identifier <> "" ->
        existsb (String.eqb identifier) inherited_names = false ->
        fst (resolve_entry c' isPartial path (JObj fields) w)
        = Resolved (NewCollection factory (_url (this s)) url (JObj fields))).
Proof.
  intros Hid r c'. unfold c', r, _registerCollectionFactory.
  apply String.eqb_neq in Hid. rewrite Hid. unfold assign_this.
  cbn [fst snd this world _propFindList _collectionFactoryMapper with_factories].
  split; [reflexivity|]. split; [reflexivity|]. split; [|split; [|split]].
  - unfold register_propFindList.
    destruct (factory_getPropFindList factory); [reflexivity|now rewrite app_nil_r].
  - intros other Hne. apply JsObjectFacts.get_set_other. congruence.
  - intros isPartial path props w e Hp.
    unfold resolve_entry, bind, of_outcome. cbn [_request with_factories].
    now rewrite Hp.
  - intros isPartial path url fields types w Hp Hrt Hfind Hne Hin.
    rewrite (collection_branch_dispatch _ isPartial path url (JObj fields)
               (prop_of fields "{DAV:}getcontenttype") types w).
    + rewrite Hfind. cbn [_collectionFactoryMapper with_factories _url _request].
      now rewrite JsObjectFacts.get_set_same.
    + exact Hp.
    + cbn [js_read]. fold (prop_of fields "{DAV:}resourcetype"). now rewrite Hrt.
    + reflexivity.
    + destruct types as [|t types]; [discriminate|]. reflexivity.
    + intros t Ht. rewrite Hfind in Ht. injection Ht as <-. auto.
Qed.

(** ** Comparing collection types *)

Lemma forallb_existsb_incl (a b : list string) :
  forallb (fun r => existsb (String.eqb r) b) a = true <-> incl a b.
Proof.
  rewrite forallb_forall. unfold incl.
  split; intros Hx t Ht; apply existsb_eqb_in; auto.
Qed.

Lemma no_difference_arrays (a b : list string) :
  no_difference (JArr a) (JArr b)
  = Resolved (forallb (fun r => existsb (String.eqb r) b) a).
Proof. now destruct a. Qed.

(** X16: for two collections whose resourcetype is a list,
    [isSameCollectionTypeAs] answers true exactly when the two lists hold
    the same types, whatever their order and repetitions, and it answers
    the same with the two collections exchanged; when the resourcetype of
    either collection is [undefined] it throws a [TypeError]. *)
Theorem X16_same_collection_type
        `{Platform} (c collection : DavCollection) (ownResourceType foreignResourceType : JsVal) :
  get_property c "resourcetype" = Resolved ownResourceType ->
  get_property collection "resourcetype" = Resolved foreignResourceType ->
  (forall own foreign,
      ownResourceType = JArr own -> foreignResourceType = JArr foreign ->
      exists same,
        isSameCollectionTypeAs c collection = Resolved same
        /\ isSameCollectionTypeAs collection c = Resolved same
        /\ (same = true <-> forall t, In t own <-> In t foreign))
  /\ (ownResourceType = JUndefined \/ foreignResourceType = JUndefined ->
      exists what, isSameCollectionTypeAs c collection = Rejected (TypeError what)).
Proof.
  intros Hown Hforeign. unfold isSameCollectionTypeAs. rewrite Hown, Hforeign. split.
  - intros own foreign -> ->. rewrite !no_difference_arrays.
    eexists. split; [reflexivity|]. split; [now rewrite andb_comm|].
    rewrite andb_true_iff, !forallb_existsb_incl. unfold incl.
    split.
    + intros [H1 H2] t. split; auto.
    + intros Hx. split; intros t; apply Hx.
  - intros [-> | ->].
    + eexists. reflexivity.
    + destruct ownResourceType as [|x|[|t own]|fields]; simpl; eexists; reflexivity.
Qed.

(** ** Publishing *)

(** X17: on a node whose url resolves, once the client has fulfilled the
    POST, [publish] sends the POST of the serialized [publish-calendar]
    element to the resolved url and, unless the POST was answered with a
    207 whose reduction throws (then [publish] rejects as a
    [NetworkRequestHttpError] after that one request), a PROPFIND of depth
    0 on the same url asking for the properties of the node's class.  When
    the PROPFIND is answered with 207 and the reduction of the answer
    returns, [publish] resolves and [_props] is replaced as a whole by the
    first entry of the answer; when the reduction throws or the PROPFIND is
    rejected, [publish] rejects although the POST went through, and the
    node is as it was.  The dirty list is the same in every case. *)
Theorem X17_publish_posts_then_reloads
        `{Platform} (s : State) (href : string) (status : Z) (answer : string) :
  let c := this s in
  let xml := xml_serialize (prefixes (world s))
               (getRootSkeleton (NS.CALENDARSERVER, "publish-calendar") [] []) in
  let posted := request_config "POST" href xml_content_type (Some (fst xml)) in
  let query := xml_serialize (snd xml)
                 (getRootSkeleton (NS.DAV, "propfind") [(NS.DAV, "prop")]
                    (map (fun p => Xml p [] [] None) (_getPropFindList c))) in
  let asked := request_config "PROPFIND" href
                              (js_put [] "Depth" "0") (Some (fst query)) in
  absoluteUrl (_request c) (_url c) = Resolved href ->
  axios_request (sent (world s)) posted = AxiosFulfilled status answer ->
  _updatedProperties (this (snd (publish s))) = _updatedProperties c
  /\ if request_then_throws (_request c) status answer
     then fst (publish s) = Rejected request_catch_thrown
          /\ this (snd (publish s)) = c
          /\ sent (world (snd (publish s))) = (sent (world s) ++ [posted])%list
     else sent (world (snd (publish s))) = (sent (world s) ++ [posted; asked])%list
          /\ (forall data,
                 axios_request (sent (world s) ++ [posted])%list asked
                 = AxiosFulfilled 207 data ->
                 if _parseMultiStatusResponse_throws (_request c) data
                 then fst (publish s) = Rejected request_catch_thrown
                      /\ this (snd (publish s)) = c
                 else fst (publish s) = Resolved tt
                      /\ this (snd (publish s))
                         = with_props
                             (first_entry (_parseMultiStatusResponse (_request c) data)) c)
          /\ (forall error,
                 axios_request (sent (world s) ++ [posted])%list asked
                 = AxiosRejected error ->
                 fst (publish s) = Rejected (request_catch error)
                 /\ this (snd (publish s)) = c).
Proof.
  intros c xml posted query asked Hhref Hpost.
  unfold publish, _updatePropsFromServer, propFind, post, bind, self, io, serialize,
         debug, request, assign_this, url.
  cbn [fst snd this world sent debugged prefixes]. fold c.
  unfold asked, query, posted in *. clear asked query posted. unfold xml in *. clear xml.
  destruct (xml_serialize (prefixes (world s)) _) as [x p].
  cbn [fst snd this world sent debugged prefixes] in *.
  rewrite Hhref. cbv zeta. rewrite Hpost. clear Hpost.
  destruct (request_then_throws (_request c) status answer);
    cbn [fst snd this world sent debugged prefixes]; [now repeat split|].
  destruct (xml_serialize p _) as [x' p'].
  cbn [fst snd this world sent debugged prefixes].
  rewrite Hhref. cbv zeta.
  destruct (axios_request _ _) as [st data|error];
    cbn [fst snd this world sent debugged prefixes _updatedProperties with_props].
  - destruct (request_then_throws (_request c) st data) eqn:Ht;
      cbn [fst snd this world sent debugged prefixes _updatedProperties with_props].
    + split; [reflexivity|]. split; [now rewrite <- app_assoc|]. split.
      * intros data' [= -> ->]. unfold request_then_throws in Ht.
        change ((207 =? 207)%Z) with true in Ht. cbn [andb] in Ht. rewrite Ht.
        split; reflexivity.
      * intros error [=].
    + split; [reflexivity|]. split; [now rewrite <- app_assoc|]. split.
      * intros data' [= -> ->]. unfold request_then_throws in Ht.
        change ((207 =? 207)%Z) with true in Ht. cbn [andb] in Ht. rewrite Ht.
        split; [reflexivity|].
        unfold request_then, request_config. cbn [cfg_headers body].
        rewrite depth0_headers. reflexivity.
      * intros error [=].
  - split; [reflexivity|]. split; [now rewrite <- app_assoc|]. split.
    + intros data' [=].
    + intros error' [= ->]. split; reflexivity.
Qed.

(** ** The property set of an address book *)

Lemma addressBookPropSet_flat_map (props : PropertyMap) :
  addressBookPropSet props
  = flat_map (fun e : string * JsVal =>
                if String.eqb (fst e) "{urn:ietf:params:xml:ns:carddav}addressbook-description"
                then [Xml (NS.IETF_CARDDAV, "addressbook-description") [] [] (Some (snd e))]
                else if String.eqb (fst e) "{http://owncloud.org/ns}enabled"
                then [Xml (NS.OWNCLOUD, "enabled") [] []
                          (Some (JStr (if truthy (snd e) then "1" else "0")))]
                else [])
             (JsObject.entries props).
Proof.
  unfold addressBookPropSet.
  generalize (JsObject.entries props) as l.
  assert (Hg : forall (l : list (string * JsVal)) acc,
             fold_left
               (fun xmlified e =>
                  let (key, value) := e : string * JsVal in
                  if String.eqb key "{urn:ietf:params:xml:ns:carddav}addressbook-description"
                  then (xmlified
                         ++ [Xml (NS.IETF_CARDDAV, "addressbook-description") [] []
                                 (Some value)])%list
                  else if String.eqb key "{http://owncloud.org/ns}enabled"
                  then (xmlified
                         ++ [Xml (NS.OWNCLOUD, "enabled") [] []
                                 (Some (JStr (if truthy value then "1" else "0")))])%list
                  else xmlified) l acc
             = (acc ++ flat_map (fun e : string * JsVal =>
                  if String.eqb (fst e) "{urn:ietf:params:xml:ns:carddav}addressbook-description"
                  then [Xml (NS.IETF_CARDDAV, "addressbook-description") [] [] (Some (snd e))]
                  else if String.eqb (fst e) "{http://owncloud.org/ns}enabled"
                  then [Xml (NS.OWNCLOUD, "enabled") [] []
                            (Some (JStr (if truthy (snd e) then "1" else "0")))]
                  else []) l)%list).
  { induction l as [|[k v] l IH]; intros acc; simpl.
    - now rewrite app_nil_r.
    - rewrite IH.
      destruct (String.eqb k _); [now rewrite <- app_assoc|].
      destruct (String.eqb k _); [now rewrite <- app_assoc|]. reflexivity. }
  intros l. apply Hg.
Qed.

(** X18: for a property map, [addressBookPropSet] yields an
    [addressbook-description] element carrying the value of that key when
    the map has it, an [enabled] element when the map has that key, with
    the text ["1"] when the value is truthy (the string ["0"] included) and
    ["0"] otherwise, and nothing else: every other key is dropped. *)
Theorem X18_addressBookPropSet_encodes_two_keys
        (props : PropertyMap) (n : XmlNode) :
  js_wf props ->
  In n (addressBookPropSet props)
  <-> (exists v,
          JsObject.get props "{urn:ietf:params:xml:ns:carddav}addressbook-description"
          = Some v
          /\ n = Xml (NS.IETF_CARDDAV, "addressbook-description") [] [] (Some v))
      \/ (exists v,
          JsObject.get props "{http://owncloud.org/ns}enabled" = Some v
          /\ n = Xml (NS.OWNCLOUD, "enabled") [] []
                     (Some (JStr (if truthy v then "1" else "0")))).
Proof.
  intros Hwf. rewrite addressBookPropSet_flat_map, in_flat_map. split.
  - intros ([k v] & Hin & Hn). cbn [fst snd] in Hn.
    apply (Permutation_in _ (JsObjectOrder.entries_perm props)) in Hin.
    apply (JsObjectOrder.in_get _ _ _ Hwf) in Hin.
    destruct (String.eqb k "{urn:ietf:params:xml:ns:carddav}addressbook-description")
      eqn:E1; simpl in Hn.
    + apply String.eqb_eq in E1. subst k. destruct Hn as [Hn|Hn]; [subst n|contradiction]. left. eauto.
    + destruct (String.eqb k "{http://owncloud.org/ns}enabled") eqn:E2; simpl in Hn;
        [|destruct Hn].
      apply String.eqb_eq in E2. subst k. destruct Hn as [Hn|Hn]; [subst n|contradiction]. right. eauto.
  - intros [(v & Hg & ->) | (v & Hg & ->)];
      apply JsObjectOrder.get_some_in in Hg;
      apply (Permutation_in _ (Permutation_sym (JsObjectOrder.entries_perm props))) in Hg;
      eexists; (split; [exact Hg|]); simpl; now left.
Qed.

(** ** The calendar trash bin *)

(** X19: [restore] takes the uri it is given as it is, not relative to the
    trash bin.  When the uri does not resolve against the base url it
    rejects with the error of the URL constructor and sends nothing.
    Otherwise it sends exactly one request, a MOVE of the resolved uri,
    without body, whose [Destination] header is the url of the trash bin
    followed by [restore/file], with [Depth: Infinity] and [Overwrite: F];
    it settles as the client does (a 207 answer whose reduction throws
    rejects as a [NetworkRequestHttpError]) and leaves the node as it
    was. *)
Theorem X19_restore_moves_to_the_restore_file
        `{Platform} (s : State) (uri : string) :
  let c := this s in
  match absoluteUrl (_request c) uri with
  | Rejected e => restore uri s = (Rejected e, s)
  | Resolved href =>
      exists config,
        sent (world (snd (restore uri s))) = (sent (world s) ++ [config])%list
        /\ cfg_method config = "MOVE"
        /\ cfg_url config = href
        /\ cfg_data config = None
        /\ JsObject.get (cfg_headers config) "Destination"
           = Some (_url c ++ "restore/file")
        /\ JsObject.get (cfg_headers config) "Depth" = Some "Infinity"
        /\ JsObject.get (cfg_headers config) "Overwrite" = Some "F"
        /\ this (snd (restore uri s)) = c
        /\ fst (restore uri s)
           = match axios_request (sent (world s)) config with
             | AxiosFulfilled status data =>
                 if request_then_throws (_request c) status data
                 then Rejected request_catch_thrown
                 else Resolved tt
             | AxiosRejected error => Rejected (request_catch error)
             end
  end.
Proof.
  intros c.
  unfold restore, move, bind, self, io, request, ret.
  cbn [fst snd this world sent debugged prefixes]. fold c.
  destruct (absoluteUrl (_request c) uri) as [href|e];
    cbn [fst snd this world sent debugged prefixes]; [|now destruct s].
  exists (request_config "MOVE" href
            (js_put (js_put (js_put [] "Destination" (_url c ++ "restore/file"))
                            "Depth" "Infinity") "Overwrite" "F") None).
  cbv zeta.
  destruct (axios_request _ _) as [st data|error];
    [destruct (request_then_throws _ _ _)|];
    cbn [fst snd this world sent debugged prefixes]; repeat split.
Qed.

(** X20: a trash bin comes out of its constructor asking, in its PROPFIND
    requests, for the property names of [VObject] after those of objects and
    collections, with [retentionDuration] exposed without a setter, and with
    [VObject] registered for [text/calendar]: an entry without collection
    type whose content type, cut at the first [;], is [text/calendar] is
    instantiated as a [VObject] at the path name of the entry. *)
Theorem X20_trash_bin_instantiates_vobjects
        `{Platform} (nextcloud : string) (vobject : list QName)
        (parent : option string) (request : Request) (u : string) (props : JsVal) :
  let c := new_CalendarTrashBin nextcloud vobject parent request u props in
  _propFindList c
  = (DavObject_getPropFindList ++ DavCollection_getPropFindList ++ vobject)%list
  /\ _url c = _url (new_DavCollection parent request u props)
  /\ get_property c "retentionDuration"
     = js_read props (xmlKey nextcloud "trash-bin-retention-duration")
  /\ (forall val w,
        set_property "retentionDuration" val {| this := c; world := w |}
        = (Rejected (TypeError "Cannot set property which has only a getter"),
           {| this := c; world := w |}))
  /\ (forall isPartial path url fields contentType w,
        pathname request path = Resolved url ->
        prop_of fields "{DAV:}resourcetype" = JUndefined
        \/ prop_of fields "{DAV:}resourcetype" = JArr [] ->
        prop_of fields "{DAV:}getcontenttype" = JStr contentType ->
        hd EmptyString (Js.split ";" contentType) = "text/calendar" ->
        fst (resolve_entry c isPartial path (JObj fields) w)
        = Resolved (NewObject (VObject vobject) (_url c) url
                              (JObj fields) isPartial)).
Proof.
  intros c. split; [|split; [|split; [|split]]].
  - unfold c, new_CalendarTrashBin, register_propFindList.
    cbn [_propFindList with_factories VObject factory_getPropFindList new_DavCollection].
    now rewrite <- app_assoc.
  - reflexivity.
  - reflexivity.
  - reflexivity.
  - intros isPartial path url fields contentType w Hp Hrt Hct Hhd.
    assert (Hne : contentType <> "") by (intros ->; discriminate Hhd).
    rewrite (object_branch_instantiates c isPartial path url (JObj fields)
               (prop_of fields "{DAV:}resourcetype") contentType w).
    + rewrite Hhd. reflexivity.
    + exact Hp.
    + reflexivity.
    + cbn [js_read]. fold (prop_of fields "{DAV:}getcontenttype"). now rewrite Hct.
    + apply String.eqb_neq in Hne. unfold object_condition.
      cbn [truthy]. rewrite Hne.
      destruct Hrt as [-> | ->]; reflexivity.
    + now rewrite Hhd.
Qed.

(** X21: on a trash bin whose url followed by [objects] resolves,
    [findDeletedObjects] sends exactly one request, a REPORT with
    [Depth: 1] to that resolved url, whose body is the serialized calendar
    query; when the client answers 207 and the reduction of the answer
    throws, it rejects as a [NetworkRequestHttpError]; otherwise the answer
    is never cut down to its first entry: every entry of the reduced map
    goes through [_handleMultiStatusResponse], as after [findAll]. *)
Theorem X21_findDeletedObjects_reports_with_depth_one
        `{Platform} (nextcloud : string) (vobject : list QName)
        (s : State) (href data : string) :
  let c := this s in
  let xml := xml_serialize (prefixes (world s))
                           (deleted_objects_query nextcloud vobject) in
  let config := request_config "REPORT" href [("Depth", "1")] (Some (fst xml)) in
  let w1 := {| sent := (sent (world s) ++ [config])%list;
               debugged := debugged (world s);
               prefixes := snd xml |} in
  absoluteUrl (_request c) (_url c ++ "objects") = Resolved href ->
  axios_request (sent (world s)) config = AxiosFulfilled 207 data ->
  JsObject.get (cfg_headers config) "Depth" = Some "1"
  /\ JsObject.get (cfg_headers config) "Content-Type"
     = Some "application/xml; charset=utf-8"
  /\ findDeletedObjects nextcloud vobject s
     = (if _parseMultiStatusResponse_throws (_request c) data
        then (Rejected request_catch_thrown, {| this := c; world := w1 |})
        else _handleMultiStatusResponse
               (multistatus_value (_parseMultiStatusResponse (_request c) data)) false
               {| this := c; world := w1 |})
  /\ sent (world (snd (findDeletedObjects nextcloud vobject s)))
     = (sent (world s) ++ [config])%list.
Proof.
  intros c xml config w1 Hhref Hax.
  assert (Hrun : findDeletedObjects nextcloud vobject s
     = (if _parseMultiStatusResponse_throws (_request c) data
        then (Rejected request_catch_thrown, {| this := c; world := w1 |})
        else _handleMultiStatusResponse
               (multistatus_value (_parseMultiStatusResponse (_request c) data)) false
               {| this := c; world := w1 |})).
  { unfold findDeletedObjects, report. unfold bind at 1 2 3. unfold self, io, serialize, request.
    cbn [fst snd this world sent debugged prefixes]. fold c.
    unfold w1, config, xml in *. clear w1 config xml.
    destruct (xml_serialize _ _) as [x p].
    cbn [fst snd this world sent debugged prefixes] in *.
    rewrite Hhref. cbv zeta. rewrite Hax. unfold request_then_throws.
    change ((207 =? 207)%Z) with true. cbn [andb].
    now destruct (_parseMultiStatusResponse_throws (_request c) data). }
  split; [reflexivity|]. split; [reflexivity|]. split; [exact Hrun|].
  rewrite Hrun.
  destruct (_parseMultiStatusResponse_throws (_request c) data); [reflexivity|].
  match goal with
  | |- sent (world (snd (_handleMultiStatusResponse ?b ?p ?s1))) = _ =>
      pose proof (resolve_entries_world c p) as Hw;
      unfold _handleMultiStatusResponse, bind, self, of_outcome, io, assign_this, ret;
      cbn [fst snd this world]
  end.
  destruct (object_entries _) as [entries|e]; cbn [fst snd this world]; auto.
  match goal with
  | |- context [resolve_entries c false entries [] [] ?w] =>
      destruct (Hw entries [] [] w) as [Hs _];
      destruct (resolve_entries c false entries [] [] w) as [[r|e] w2]
  end; cbn [fst snd this world] in *; exact Hs.
Qed.

(** ** Names that are taken *)

Section TakenNames.
Context `{Platform}.

Lemma name_is_available_false (c : DavCollection) (name : string) :
  name_is_available c name = false
  <-> In (_url c ++ name) (_childrenNames c)
      \/ In (_url c ++ name ++ "/") (_childrenNames c).
Proof.
  unfold name_is_available.
  rewrite andb_false_iff, !negb_false_iff, !existsb_eqb_in. tauto.
Qed.

(** What a successful [_handleMultiStatusResponse] records. *)
Lemma handle_records (s : State) (responseBody : JsVal) (isPartial : bool)
      (children : list Node) :
  fst (_handleMultiStatusResponse responseBody isPartial s) = Resolved children ->
  exists entries,
    object_entries responseBody = Resolved entries
    /\ this (snd (_handleMultiStatusResponse responseBody isPartial s))
       = with_childrenNames
           (_childrenNames (this s)
            ++ map fst (filter (fun e => negb (is_own_url (this s) (fst e))) entries))%list
           (this s).
Proof.
  unfold _handleMultiStatusResponse, bind, self, of_outcome, io, assign_this, ret.
  cbn [fst snd this world].
  destruct (object_entries responseBody) as [entries|e0]; [|discriminate].
  cbn [fst snd this world].
  destruct (resolve_entries (this s) isPartial entries [] [] (world s))
    as [[r|e1] w1] eqn:Hr; cbn [fst snd this world]; [|discriminate].
  intros _. exists entries. split; [reflexivity|].
  apply resolve_entries_spec in Hr. destruct Hr as [Hi _]. now rewrite Hi.
Qed.

End TakenNames.

(** X22: the names [_getAvailableNameFromToken] lets [StringUtility.uri]
    choose from shrink with every successful resolution: a name that was
    taken stays taken, and every resolved entry takes the name under which
    it lies in the collection, with or without a trailing separator. *)
Theorem X22_resolved_names_are_taken
        `{Platform} (s : State) (responseBody : JsVal) (isPartial : bool)
        (children : list Node) :
  let r := _handleMultiStatusResponse responseBody isPartial s in
  fst r = Resolved children ->
  (forall token,
      _getAvailableNameFromToken (this (snd r)) token
      = StringUtility_uri token (name_is_available (this (snd r))))
  /\ (forall name, name_is_available (this s) name = false ->
                   name_is_available (this (snd r)) name = false)
  /\ (forall entries path name,
        object_entries responseBody = Resolved entries ->
        In path (map fst entries) ->
        is_own_url (this s) path = false ->
        path = (_url (this s) ++ name)%string
        \/ path = (_url (this s) ++ name ++ "/")%string ->
        name_is_available (this (snd r)) name = false).
Proof.
  intros r Hr. unfold r in *.
  destruct (handle_records s responseBody isPartial children Hr) as (entries & He & Hthis).
  rewrite Hthis. split; [reflexivity|]. split.
  - intros name Hn. apply name_is_available_false in Hn.
    apply name_is_available_false. cbn [_url _childrenNames with_childrenNames].
    destruct Hn as [Hn|Hn]; [left|right]; apply in_or_app; now left.
  - intros entries' path name He' Hin Hown Hpath.
    rewrite He in He'. injection He' as <-.
    apply name_is_available_false. cbn [_url _childrenNames with_childrenNames].
    assert (Hrec : In path (map fst (filter (fun e => negb (is_own_url (this s) (fst e)))
                                            entries))).
    { apply in_map_iff in Hin. destruct Hin as (e & <- & Hin).
      apply in_map, filter_In. split; auto. now rewrite Hown. }
    destruct Hpath as [<- | <-]; [left|right]; apply in_or_app; now right.
Qed.

(** ** Creating children *)

Section CreateFacts.
Context `{Platform}.

(** The outcome of [find] once its PROPFIND is answered with 207. *)
Lemma find_207_outcome (s : State) (uri data href : string) :
  let c := this s in
  uri <> "" ->
  absoluteUrl (_request c) (_url c ++ uri) = Resolved href ->
  (forall config,
      cfg_method config = "PROPFIND" ->
      cfg_url config = href ->
      axios_request (sent (world s)) config = AxiosFulfilled 207 data) ->
  let r := find uri s in
  (exists config,
      sent (world (snd r)) = (sent (world s) ++ [config])%list
      /\ cfg_method config = "PROPFIND"
      /\ cfg_url config = href
      /\ JsObject.get (cfg_headers config) "Depth" = Some "0")
  /\ fst r <> Resolved None
  /\ (forall child,
        fst r = Resolved (Some child) ->
        node_props child = first_entry (_parseMultiStatusResponse (_request c) data)
        /\ this (snd r)
           = with_childrenNames (_childrenNames c ++ [(_url c ++ uri)%string])%list c)
  /\ (forall e, fst r = Rejected e -> this (snd r) = c)
  /\ (_parseMultiStatusResponse_throws (_request c) data = true ->
      fst r = Rejected request_catch_thrown).
Proof.
  intros c Huri Hhref Hax r.
  destruct (_parseMultiStatusResponse_throws (_request c) data) eqn:Hthrows.
  { destruct (find_207_throws s uri data href Hhref Hax Hthrows) as (w1 & Hsent & Hfind).
    fold c in Hsent, Hfind. unfold r. rewrite Hfind. cbn [fst snd this world].
    split; [|split; [discriminate|split; [discriminate|split; reflexivity]]].
    eexists. rewrite Hsent. split; [reflexivity|]. repeat split. }
  destruct (find_after_207 s uri data href Huri Hhref Hax Hthrows) as (w1 & Hsent & Hfind).
  fold c in Hsent, Hfind. unfold r. rewrite Hfind.
  pose proof (resolve_entry_world c false (_url c ++ uri)
                (first_entry (_parseMultiStatusResponse (_request c) data)) w1)
    as [Hw _].
  destruct (resolve_entry c false (_url c ++ uri)
              (first_entry (_parseMultiStatusResponse (_request c) data)) w1)
    as [[child|e] w2] eqn:Hr; cbn [fst snd this world] in *.
  - split; [|split; [discriminate|split; [|split; discriminate]]].
    + eexists. rewrite Hw, Hsent. split; [reflexivity|]. repeat split.
    + intros child' [= <-]. split; [|reflexivity].
      eapply resolve_entry_props. exact Hr.
  - split; [|split; [discriminate|split; [discriminate|split; [reflexivity|discriminate]]]].
    eexists. rewrite Hw, Hsent. split; [reflexivity|]. repeat split.
Qed.

End CreateFacts.

(** X23: [createObject] puts the caller's headers and data to the url of
    the collection followed by the name.  On a url that resolves, once the
    client has fulfilled the PUT: when the answer is a 207 whose reduction
    throws, [createObject] rejects as a [NetworkRequestHttpError] after
    that one request; otherwise exactly one more request is sent, a
    PROPFIND of depth 0 on the same url.  When that is answered with 207,
    [createObject] never returns [undefined]: it either throws (as a
    [NetworkRequestHttpError] when the reduction of the answer throws),
    leaving the node as it was, or returns a child holding the first entry
    of the answer, and the name is then taken. *)
Theorem X23_createObject_puts_then_finds
        `{Platform} (s : State) (name : string) (headers : JsObject.t string)
        (data href : string) (status : Z) (answer found : string) :
  let c := this s in
  let stored := request_config "PUT" href headers (Some data) in
  name <> "" ->
  absoluteUrl (_request c) (_url c ++ name) = Resolved href ->
  axios_request (sent (world s)) stored = AxiosFulfilled status answer ->
  (forall config,
      cfg_method config = "PROPFIND" ->
      cfg_url config = href ->
      axios_request (sent (world s) ++ [stored])%list config = AxiosFulfilled 207 found) ->
  let r := createObject name headers data s in
  if request_then_throws (_request c) status answer
  then fst r = Rejected request_catch_thrown
       /\ this (snd r) = c
       /\ sent (world (snd r)) = (sent (world s) ++ [stored])%list
  else
    (exists asked,
        sent (world (snd r)) = (sent (world s) ++ [stored; asked])%list
        /\ cfg_method asked = "PROPFIND"
        /\ cfg_url asked = href
        /\ JsObject.get (cfg_headers asked) "Depth" = Some "0")
    /\ fst r <> Resolved None
    /\ (forall child,
          fst r = Resolved (Some child) ->
          node_props child = first_entry (_parseMultiStatusResponse (_request c) found)
          /\ this (snd r)
             = with_childrenNames (_childrenNames c ++ [(_url c ++ name)%string])%list c
          /\ name_is_available (this (snd r)) name = false)
    /\ (forall e, fst r = Rejected e -> this (snd r) = c)
    /\ (_parseMultiStatusResponse_throws (_request c) found = true ->
        fst r = Rejected request_catch_thrown).
Proof.
  intros c stored Hname Hhref Hput Hfind r.
  set (s1 := {| this := c;
                world := {| sent := (sent (world s) ++ [stored])%list;
                            debugged := (debugged (world s) ++ ["creating an object"])%list;
                            prefixes := prefixes (world s) |} |}).
  destruct (request_then_throws (_request c) status answer) eqn:Ht.
  { unfold r, createObject, put. unfold bind, io, debug, self, request, url.
    cbn [fst snd this world sent debugged prefixes]. fold c.
    rewrite Hhref. cbv zeta. fold stored. rewrite Hput, Ht.
    cbn [fst snd this world sent debugged prefixes]. now repeat split. }
  assert (Hrun : r = find name s1).
  { unfold r, createObject, put. unfold bind at 1 2 3. unfold io, debug, self, request, url.
    cbn [fst snd this world sent debugged prefixes]. fold c.
    rewrite Hhref. cbv zeta. fold stored.
    now rewrite Hput, Ht. }
  destruct (find_207_outcome s1 name found href Hname Hhref Hfind)
    as ((asked & Hsent & Hasked) & Hsome & Hchild & Hthrow & Hbroken).
  rewrite <- Hrun in *. cbn [this world sent s1] in *.
  split; [|split; [exact Hsome|split; [|split; [exact Hthrow|exact Hbroken]]]].
  - exists asked. rewrite Hsent, <- app_assoc. split; [reflexivity|exact Hasked].
  - intros child Hc. destruct (Hchild child Hc) as [Hp Hn].
    split; [exact Hp|]. split; [exact Hn|].
    rewrite Hn. apply name_is_available_false. left.
    cbn [_url _childrenNames with_childrenNames]. apply in_or_app. right. now left.
Qed.

(** X24: [createCollection] asks [StringUtility.uri] for a name that is
    not taken and sends a MKCOL to the url of the collection followed by
    that name, whose body holds the given properties or, without any, a
    [resourcetype] with [collection].  On urls that resolve, once the
    client has fulfilled the MKCOL: when the answer is a 207 whose
    reduction throws, [createCollection] rejects as a
    [NetworkRequestHttpError] after that one request; otherwise exactly one
    more request is sent, a PROPFIND of depth 0 on that url followed by a
    separator.  When that is answered with 207, [createCollection] never
    returns [undefined]: it either throws (as a [NetworkRequestHttpError]
    when the reduction of the answer throws), leaving the node as it was,
    or returns a child holding the first entry of the answer, and the name
    is then taken. *)
Theorem X24_createCollection_makes_then_finds
        `{Platform} (s : State) (name : string) (props : option (list XmlNode))
        (href href' : string) (status : Z) (answer found : string) :
  let c := this s in
  let uri := StringUtility_uri name (name_is_available c) in
  let children :=
    match props with
    | Some p => p
    | None => [Xml (NS.DAV, "resourcetype") []
                   [Xml (NS.DAV, "collection") [] [] None] None]
    end in
  let xml := xml_serialize (prefixes (world s))
               (Xml (NS.DAV, "mkcol") []
                    [Xml (NS.DAV, "set") [] [Xml (NS.DAV, "prop") [] children None] None]
                    None) in
  let made := request_config "MKCOL" href [] (Some (fst xml)) in
  absoluteUrl (_request c) (_url c ++ uri) = Resolved href ->
  absoluteUrl (_request c) (_url c ++ uri ++ "/") = Resolved href' ->
  axios_request (sent (world s)) made = AxiosFulfilled status answer ->
  (forall config,
      cfg_method config = "PROPFIND" ->
      cfg_url config = href' ->
      axios_request (sent (world s) ++ [made])%list config = AxiosFulfilled 207 found) ->
  let r := createCollection name props s in
  if request_then_throws (_request c) status answer
  then fst r = Rejected request_catch_thrown
       /\ this (snd r) = c
       /\ sent (world (snd r)) = (sent (world s) ++ [made])%list
  else
    (exists asked,
        sent (world (snd r)) = (sent (world s) ++ [made; asked])%list
        /\ cfg_method asked = "PROPFIND"
        /\ cfg_url asked = href'
        /\ JsObject.get (cfg_headers asked) "Depth" = Some "0")
    /\ fst r <> Resolved None
    /\ (forall child,
          fst r = Resolved (Some child) ->
          node_props child = first_entry (_parseMultiStatusResponse (_request c) found)
          /\ this (snd r)
             = with_childrenNames
                 (_childrenNames c ++ [(_url c ++ uri ++ "/")%string])%list c
          /\ name_is_available (this (snd r)) uri = false)
    /\ (forall e, fst r = Rejected e -> this (snd r) = c)
    /\ (_parseMultiStatusResponse_throws (_request c) found = true ->
        fst r = Rejected request_catch_thrown).
Proof.
  intros c uri children xml made Hhref Hhref' Hmade Hfind r.
  set (s1 := {| this := c;
                world := {| sent := (sent (world s) ++ [made])%list;
                            debugged := (debugged (world s) ++ ["creating a collection"])%list;
                            prefixes := snd xml |} |}).
  assert (Hskel : getRootSkeleton (NS.DAV, "mkcol") [(NS.DAV, "set"); (NS.DAV, "prop")]
              match props with
              | Some p => p
              | None => [Xml (NS.DAV, "resourcetype") []
                             [Xml (NS.DAV, "collection") [] [] None] None]
              end
            = Xml (NS.DAV, "mkcol") []
                [Xml (NS.DAV, "set") [] [Xml (NS.DAV, "prop") [] children None] None]
                None) by reflexivity.
  destruct (request_then_throws (_request c) status answer) eqn:Ht.
  { unfold r, createCollection, mkCol.
    unfold bind, io, debug, self, serialize, request, url.
    cbn [fst snd this world sent debugged prefixes]. fold c.
    change (_getAvailableNameFromToken c name) with uri.
    rewrite Hskel.
    unfold made, xml in *.
    destruct (xml_serialize _ _) as [x p].
    cbn [fst snd this world sent debugged prefixes] in *.
    rewrite Hhref. cbv zeta. rewrite Hmade, Ht.
    cbn [fst snd this world sent debugged prefixes]. now repeat split. }
  assert (Hrun : r = find (uri ++ "/") s1).
  { unfold r, createCollection, mkCol. unfold bind at 1 2 3 4.
    unfold io, debug, self, serialize, request, url.
    cbn [fst snd this world sent debugged prefixes]. fold c.
    change (_getAvailableNameFromToken c name) with uri.
    rewrite Hskel.
    unfold s1, made, xml in *. clear s1.
    destruct (xml_serialize _ _) as [x p].
    cbn [fst snd this world sent debugged prefixes] in *.
    rewrite Hhref. cbv zeta.
    now rewrite Hmade, Ht. }
  assert (Huri : (uri ++ "/")%string <> "").
  { intros Heq. apply (f_equal String.length) in Heq.
    rewrite length_append in Heq. simpl in Heq. lia. }
  assert (Hhref1 : absoluteUrl (_request (this s1)) (_url (this s1) ++ (uri ++ "/"))
                   = Resolved href') by exact Hhref'.
  assert (Hfind' : forall config,
             cfg_method config = "PROPFIND" ->
             cfg_url config = href' ->
             axios_request (sent (world s1)) config = AxiosFulfilled 207 found)
    by exact Hfind.
  destruct (find_207_outcome s1 (uri ++ "/") found href' Huri Hhref1 Hfind')
    as ((asked & Hsent & Hasked) & Hsome & Hchild & Hthrow & Hbroken).
  rewrite <- Hrun in *. cbn [this world sent s1] in *.
  split; [|split; [exact Hsome|split; [|split; [exact Hthrow|exact Hbroken]]]].
  - exists asked. rewrite Hsent, <- app_assoc. split; [reflexivity|exact Hasked].
  - intros child Hc. destruct (Hchild child Hc) as [Hp Hn].
    split; [exact Hp|]. split; [exact Hn|].
    rewrite Hn. apply name_is_available_false. right.
    cbn [_url _childrenNames with_childrenNames]. apply in_or_app. right. now left.
Qed.

(** ** Registered encoders *)

(** X25: a collection comes out of its constructor with the encoder of
    [davCollectionPropSet] alone; [_registerPropSetFactory] touches nothing
    outside the node, and from then on the property set that [update]
    serializes, for any dirty properties, is what it was before followed by
    what the new encoder makes of them, so that encoders apply in the order
    of their registration. *)
Theorem X25_registered_encoder_is_applied_last
        `{Platform} (s : State) (factory : PropertyMap -> list XmlNode)
        (properties : PropertyMap) :
  let r := _registerPropSetFactory factory s in
  fst r = Resolved tt
  /\ world (snd r) = world s
  /\ _updatedProperties (this (snd r)) = _updatedProperties (this s)
  /\ propSet_of (_propSetFactory (this (snd r))) properties
     = (propSet_of (_propSetFactory (this s)) properties ++ factory properties)%list
  /\ (forall parent request u props,
        propSet_of (_propSetFactory (new_DavCollection parent request u props)) properties
        = davCollectionPropSet properties).
Proof.
  intros r. unfold r, _registerPropSetFactory, assign_this.
  cbn [fst snd this world _propSetFactory _updatedProperties with_factories].
  repeat split.
  rewrite !propSet_of_flat_map, flat_map_app. simpl. now rewrite app_nil_r.
Qed.

(* ================================================================== *)
(** * The statements on the concrete platform *)

#[local] Existing Instance Sample.platform.

(** The answer of the sample server to a PROPFIND of a url that resolves. *)
Ltac sample_answer Hm Hu :=
  simpl in Hu; injection Hu as Hu; simpl; rewrite Hm, <- Hu; reflexivity.

(** The 404 propstat of the calendar contributes nothing, and its
    displayname comes from the 200 propstat. *)
Lemma C1_witness :
  parse_propstat Sample.rq Sample.doc_alice []
                 (Sample.not_found [Sample.dav "getcontenttype" "text/calendar"]) = []
  /\ exists r ps n,
       In r Sample.doc_alice /\ href r = "/dav/alice/personal/"
       /\ In ps (propStats r)
       /\ wasRequestSuccessful (getStatusCodeFromString (status_text ps)) = true
       /\ In n (prop_nodes ps) /\ clark n = Sample.displayname
       /\ canParse (parser Sample.rq) Sample.displayname = true
       /\ JStr "Personal" = parse (parser Sample.rq) Sample.doc_alice n.
Proof.
  destruct (C1_unsuccessful_propstat_contributes_nothing
              Sample.rq "https://host/dav/alice/") as (Hdrop & _ & Hfrom).
  split.
  - apply Hdrop. reflexivity.
  - eapply (Hfrom "/dav/alice/personal/" _ Sample.displayname (JStr "Personal"));
      reflexivity.
Defined.

(** A clean node sends nothing; a node with a dirty displayname sends one
    PROPPATCH and stays dirty. *)
Lemma C2_witness :
  update Sample.state0 = (Resolved tt, Sample.state0)
  /\ List.length (sent (world (snd (update Sample.state_dirty)))) = 1%nat
  /\ _updatedProperties (this (snd (update Sample.state_dirty))) = [Sample.displayname]
  /\ fst (update Sample.state_dirty) = Resolved tt.
Proof.
  destruct (C2_update_sends_one_proppatch_and_keeps_dirty_set Sample.state0)
    as [Hclean _].
  destruct (C2_update_sends_one_proppatch_and_keeps_dirty_set Sample.state_dirty)
    as [_ Hdirty].
  destruct (Hdirty Sample.displayname
                   [(Sample.displayname, JStr "Alice B.");
                    (publish_url_key, JStr "https://host/p/1")]
                   "https://host/dav/alice/"
                   eq_refl eq_refl eq_refl) as (Hsent & _ & _ & Hkeep & Hok).
  split; [exact (Hclean eq_refl)|].
  split; [rewrite Hsent; reflexivity|].
  split; [exact Hkeep|].
  exact (Hok 207%Z "" eq_refl).
Defined.

(** The reading with a cleared dirty set fails on the dirty node. *)
Lemma C2_counterexample : ~ dirty_set_cleared_on_success Sample.state_dirty.
Proof.
  intros Hclear. specialize (Hclear eq_refl). discriminate Hclear.
Qed.

(** Depth 0 on the calendar: the node holds the map of the single entry. *)
Lemma C3_witness :
  exists node,
    resolved_or None (fst (find "personal/" Sample.state0)) = Some node
    /\ node_props node
       = JObj [(Sample.resourcetype, JArr ["{DAV:}collection"]);
               (Sample.displayname, JStr "Personal")].
Proof.
  apply (C3_find_returns_the_first_entry
           Sample.state0 "personal/" "https://host/dav/alice/personal/"
           "/dav/alice/personal/" []).
  - discriminate.
  - intros config Hm Hu. sample_answer Hm Hu.
  - reflexivity.
  - reflexivity.
  - reflexivity.
Defined.

(** The server answers Depth 0 on [work/] with two responses, the requested
    one second: the node holds the map of the other path. *)
Lemma C3_counterexample :
  ~ find_returns_requested_entry Sample.state0 "work/" "https://host/dav/alice/work/".
Proof.
  intros Hclaim.
  assert (Hnode : node_props
                    (NewDavCollection
                       (new_DavCollection (Some "/dav/alice/") Sample.rq "/dav/alice/work/"
                          (JObj [(Sample.resourcetype, JArr ["{DAV:}collection"]);
                                 (Sample.displayname, JStr "Other")])))
                  = JObj [(Sample.resourcetype, JArr ["{DAV:}collection"]);
                          (Sample.displayname, JStr "Work")]).
  { apply Hclaim.
    - intros config Hm Hu. sample_answer Hm Hu.
    - reflexivity.
    - reflexivity. }
  discriminate Hnode.
Qed.



(** A vCard without resourcetype is classified as a file. *)
Lemma C5_witness :
  exists rest,
    debugged (snd (resolve_entry Sample.alice false "/dav/alice/card.vcf"
                     (JObj [(Sample.getcontenttype, JStr "text/vcard")]) Sample.world0))
    = "/dav/alice/card.vcf was identified as a file" :: rest.
Proof.
  destruct (C5_object_iff_untyped_with_content_type
              Sample.alice false "/dav/alice/card.vcf" "/dav/alice/card.vcf"
              [(Sample.getcontenttype, JStr "text/vcard")] Sample.world0
              eq_refl
              (or_introl eq_refl)
              (or_intror (ex_intro _ "text/vcard" eq_refl))) as (Hfile & _ & _ & _).
  apply Hfile. split.
  - left. reflexivity.
  - exists "text/vcard". split; [reflexivity | discriminate].
Defined.

(** An empty resourcetype with an empty getcontenttype: the content type is
    present, yet a generic collection is instantiated. *)
Lemma C5_counterexample :
  ~ object_iff_content_type_present
      Sample.alice false "/dav/alice/x"
      [(Sample.resourcetype, JArr []); (Sample.getcontenttype, JStr "")]
      Sample.world0.
Proof.
  intros Hclaim. specialize (Hclaim _ eq_refl). destruct Hclaim as [_ Hobj].
  assert (Hfalse : false = true).
  { apply Hobj. split; [right; reflexivity | discriminate]. }
  discriminate Hfalse.
Qed.

(** The child for which the server found no property. *)
Lemma C6_witness :
  first_entry (reduce_document Sample.rq Sample.doc_bare) = JObj []
  /\ fst (_handleMultiStatusResponse (JObj [("/dav/alice/bare", JObj [])])
            false Sample.state0)
     = Rejected (TypeError "Cannot read properties of undefined")
  /\ fst (find "bare" Sample.state0)
     = Rejected (TypeError "Cannot read properties of undefined").
Proof.
  destruct (C6_entry_without_resourcetype_throws
              Sample.state0 "/dav/alice/bare" "/dav/alice/bare" [] false
              eq_refl eq_refl eq_refl eq_refl)
    as (Hthrow & _ & _).
  split; [reflexivity|]. split; [exact Hthrow | reflexivity].
Defined.

(** The second response of [/dav/alice/a] drops the displayname written by
    the first. *)
Lemma C7_counterexample :
  ~ per_key_last_write_wins Sample.rq "https://host/dav/alice/a"
                            "/dav/alice/a" Sample.displayname.
Proof.
  intros Hclaim. specialize (Hclaim _ eq_refl). discriminate Hclaim.
Qed.

(** A GET answered 404 by the server is rejected as a network error with
    status -1; the url [//] does not resolve and nothing is sent; an answer
    whose reduction throws is rejected without status. *)
Lemma C8_witness :
  fst (request Sample.rq "GET" "/dav/alice/missing" [] None Sample.world0)
  = Rejected (NetworkFailure NetworkRequestError None (Some (-1)%Z))
  /\ request Sample.rq "GET" "//" [] None Sample.world0
     = (Rejected (TypeError "Invalid URL"), Sample.world0)
  /\ fst (request Sample.rq "PROPFIND" "/dav/alice/broken" [] None Sample.world0)
     = Rejected (NetworkFailure NetworkRequestHttpError None None).
Proof.
  destruct (C8_refused_status_is_a_network_error
              Sample.rq "GET" "/dav/alice/missing" [] None Sample.world0)
    as [_ Hsent].
  destruct (Hsent "https://host/dav/alice/missing" eq_refl) as (_ & _ & _ & Hstatus).
  destruct (C8_refused_status_is_a_network_error
              Sample.rq "GET" "//" [] None Sample.world0)
    as [Hurl _].
  destruct (C8_refused_status_is_a_network_error
              Sample.rq "PROPFIND" "/dav/alice/broken" [] None Sample.world0)
    as [_ Hthen].
  destruct (Hthen "https://host/dav/alice/broken" eq_refl) as (_ & Hfulfilled & _).
  split; [exact (Hstatus 404%Z eq_refl)|].
  split; [exact (Hurl _ eq_refl)|].
  exact (Hfulfilled 207%Z "https://host/dav/alice/broken" eq_refl).
Defined.



(** Unpublishing the sample collection removes its publish-url only. *)
Lemma C10_witness :
  exists props',
    _props (this (snd (unpublish Sample.state0))) = props'
    /\ js_read props' publish_url_key = Resolved JUndefined
    /\ js_read props' Sample.displayname = Resolved (JStr "Alice")
    /\ _updatedProperties (this (snd (unpublish Sample.state0))) = [].
Proof.
  destruct (C10_unpublish_removes_only_publish_url
              Sample.state0 (snd (unpublish Sample.state0)) eq_refl)
    as (props' & Hthis & Hgone & Hkept & _ & Hdirty).
  exists props'. split; [rewrite Hthis; reflexivity|].
  split; [exact Hgone|]. split.
  - rewrite Hkept; [reflexivity | discriminate].
  - exact Hdirty.
Defined.

(** ** The further properties on the concrete platform *)

(** Reading a statement by cases at an input on which the case is known. *)
Lemma if_false_elim (b : bool) (P Q : Prop) :
  (if b then P else Q) -> b = false -> Q.
Proof. intros H Hb. now rewrite Hb in H. Qed.

Lemma resolved_elim {A} (o : Outcome A) (P : A -> Prop) (Q : JsError -> Prop) :
  match o with Resolved x => P x | Rejected e => Q e end ->
  forall a, o = Resolved a -> P a.
Proof. intros H a Ho. now rewrite Ho in H. Qed.


(** A MOVE overrides the depth of the caller; a MOVE of [//] is never
    sent. *)
Lemma X2_witness :
  (exists config,
      sent (snd (move Sample.rq "/dav/alice/a" "/dav/alice/b" true [("Depth", "0")] None
                      Sample.world0)) = [config]
      /\ cfg_url config = "https://host/dav/alice/a"
      /\ JsObject.get (cfg_headers config) "Depth" = Some "Infinity"
      /\ JsObject.get (cfg_headers config) "Overwrite" = Some "T")
  /\ move Sample.rq "//" "/dav/alice/b" true [("Depth", "0")] None Sample.world0
     = (Rejected (TypeError "Invalid URL"), Sample.world0).
Proof.
  assert (Hwf : js_wf [("Depth", "0")]) by (repeat constructor; simpl; tauto).
  split.
  - pose proof (X2_copy_move_headers
                  Sample.rq "/dav/alice/a" "/dav/alice/b" "0" true [("Depth", "0")] None
                  Sample.world0 Hwf) as Hsent.
    apply resolved_elim with (a := "https://host/dav/alice/a") in Hsent; [|reflexivity].
    destruct Hsent as [(config & Hs & _ & Hu & _ & Hd & Ho) _].
    exists config. split; [exact Hs|]. split; [exact Hu|]. split; [exact Hd|exact Ho].
  - exact (proj1 (X2_copy_move_headers
                    Sample.rq "//" "/dav/alice/b" "0" true [("Depth", "0")] None
                    Sample.world0 Hwf)).
Defined.

(** Depth 0 on the calendar: the body is the property map of the entry.
    An answer the decoder throws on is rejected, and [//] is never
    asked. *)
Lemma X3_witness :
  fst (propFind Sample.rq "/dav/alice/personal/" [(NS.DAV, "displayname")] "0" []
                Sample.world0)
  = Resolved {| body := JObj [(Sample.resourcetype, JArr ["{DAV:}collection"]);
                              (Sample.displayname, JStr "Personal")];
                status := 207 |}
  /\ fst (propFind Sample.rq "/dav/alice/broken" [(NS.DAV, "getcontenttype")] "0" []
                   Sample.world0)
     = Rejected (NetworkFailure NetworkRequestHttpError None None)
  /\ propFind Sample.rq "//" [(NS.DAV, "displayname")] "0" [] Sample.world0
     = (Rejected (TypeError "Invalid URL"), Sample.world0).
Proof.
  split; [|split].
  - destruct (X3_propFind_request_and_unwrapping
                Sample.rq "/dav/alice/personal/" [(NS.DAV, "displayname")] "0" []
                Sample.world0) as [_ Hok]; [constructor|].
    destruct (Hok "https://host/dav/alice/personal/" eq_refl)
      as (config & _ & Hm & Hu & _ & _ & Hbody).
    rewrite (Hbody "https://host/dav/alice/personal/");
      [reflexivity|simpl; rewrite Hm, Hu; reflexivity].
  - destruct (X3_propFind_request_and_unwrapping
                Sample.rq "/dav/alice/broken" [(NS.DAV, "getcontenttype")] "0" []
                Sample.world0) as [_ Hok]; [constructor|].
    destruct (Hok "https://host/dav/alice/broken" eq_refl)
      as (config & _ & Hm & Hu & _ & _ & Hbody).
    rewrite (Hbody "https://host/dav/alice/broken");
      [reflexivity|simpl; rewrite Hm, Hu; reflexivity].
  - destruct (X3_propFind_request_and_unwrapping
                Sample.rq "//" [(NS.DAV, "displayname")] "0" []
                Sample.world0) as [Hbad _]; [constructor|].
    destruct (Hbad (TypeError "Invalid URL") eq_refl) as [Hfst Hsent].
    reflexivity.
Defined.

(** The status line of a multi-status answer. *)
Lemma X4_witness :
  getStatusCodeFromString "HTTP/1.1 207 Multi Status" = Some 207%Z
  /\ wasRequestSuccessful (getStatusCodeFromString "HTTP/1.1 207 Multi Status") = true.
Proof.
  destruct (X4_status_line_round_trip "HTTP/1.1" "Multi Status" 207)
    as (_ & _ & Hcode & Hok).
  - unfold lacks. simpl. intuition discriminate.
  - split; [exact (Hcode eq_refl)|]. apply Hok. lia.
Defined.

(** The file name of the calendar. *)
Lemma X5_witness :
  filename Sample.rq "https://host/dav/alice/personal/" = Resolved "/personal".
Proof.
  destruct (X5_filename_is_the_last_segment
              Sample.rq "https://host/dav/alice/personal/" "/dav/alice" "personal")
    as (_ & Hslash & _).
  - discriminate.
  - unfold lacks. simpl. intuition discriminate.
  - apply Hslash. reflexivity.
Defined.

(** A child for which nothing was found still has an entry. *)
Lemma X6_witness :
  JsObject.get (_parseMultiStatusResponse Sample.rq "https://host/dav/alice/bare")
               "/dav/alice/bare" = Some [].
Proof.
  destruct (X6_every_href_has_an_entry Sample.rq "https://host/dav/alice/bare")
    as (_ & _ & Hempty).
  eapply Hempty.
  - reflexivity.
  - discriminate.
  - intros ps [<-|[]]. reflexivity.
Defined.

(** The sample parser does not decode [getetag]: the entity tag of the
    vCard is dropped, its content type is kept. *)
Lemma X7_witness :
  exists props,
    JsObject.get (_parseMultiStatusResponse Sample.rq "https://host/dav/alice/card.vcf")
                 "/dav/alice/card.vcf" = Some props
    /\ JsObject.get props "{DAV:}getetag" = None
    /\ JsObject.get props Sample.getcontenttype = Some (JStr "text/vcard").
Proof.
  exists [(Sample.getcontenttype, JStr "text/vcard")].
  split; [reflexivity|]. split; [|reflexivity].
  apply (X7_unknown_properties_are_skipped
           Sample.rq "https://host/dav/alice/card.vcf" "/dav/alice/card.vcf"
           "{DAV:}getetag");
    reflexivity.
Defined.

(** Resolving the bare child throws and records nothing. *)
Lemma X8_witness :
  this (snd (_handleMultiStatusResponse
               (multistatus_value (reduce_document Sample.rq Sample.doc_bare))
               false Sample.state0)) = Sample.alice.
Proof.
  destruct (X8_resolution_is_local_and_atomic
              Sample.state0
              (multistatus_value (reduce_document Sample.rq Sample.doc_bare)) false)
    as (_ & _ & Hthrow & _).
  apply (Hthrow (TypeError "Cannot read properties of undefined")).
  reflexivity.
Defined.

(** The server knows nothing under [nothing]: [find] throws. *)
Lemma X9_witness :
  fst (find "nothing" Sample.state0)
  = Rejected (TypeError "Cannot read properties of undefined").
Proof.
  destruct (X9_find_on_an_empty_multistatus_throws
              Sample.state0 "nothing" "https://host/dav/alice/nothing"
              "https://host/dav/alice/nothing")
    as (_ & Hthrow).
  - discriminate.
  - reflexivity.
  - intros config Hm Hu. simpl. rewrite Hm, Hu. reflexivity.
  - apply Hthrow. reflexivity.
Defined.

(** [alice.displayname = 'Alice B.'], then read it back. *)
Lemma X10_witness :
  get_property (this (snd (set_property "displayname" (JStr "Alice B.") Sample.state0)))
               "displayname" = Resolved (JStr "Alice B.")
  /\ _updatedProperties
       (this (snd (set_property "displayname" (JStr "Alice C.") Sample.state_dirty)))
     = [Sample.displayname]
  /\ set_property "owner" (JStr "bob") Sample.state0
     = (Rejected (TypeError "Cannot set property which has only a getter"),
        Sample.state0).
Proof.
  destruct (X10_setter_then_getter
              Sample.state0 "displayname" (JStr "Alice B.") (JStr "Alice C.")
              (expose "displayname" NS.DAV "displayname" true)
              [(Sample.displayname, JStr "Alice");
               (publish_url_key, JStr "https://host/p/1")])
    as [Hset _]; try reflexivity; try discriminate.
  destruct (Hset eq_refl) as (_ & _ & Hget & _ & _ & Hagain).
  destruct (X10_setter_then_getter
              Sample.state0 "owner" (JStr "bob") (JStr "bob")
              (expose "owner" NS.DAV "owner" false)
              [(Sample.displayname, JStr "Alice");
               (publish_url_key, JStr "https://host/p/1")])
    as [_ Hthrow]; try reflexivity; try discriminate.
  split; [exact Hget|]. split; [exact Hagain|]. exact (Hthrow eq_refl).
Defined.


(** A second mutable property: both dirty keys go out in one PROPPATCH. *)
Lemma X12_witness :
  let s := fold_left perform
             [OpExposeProperty "color" "http://apple.com/ns/ical/" "calendar-color" true;
              OpSetProperty "color" (JStr "#ff0000");
              OpSetProperty "displayname" (JStr "Alice B.")] Sample.state0 in
  List.length (sent (world (snd (update s)))) = 1%nat
  /\ fst (update s) = Resolved tt
  /\ _updatedProperties (this (snd (update s)))
     = ["{http://apple.com/ns/ical/}calendar-color"; Sample.displayname].
Proof.
  intros s.
  destruct (X12_update_sends_the_dirty_properties s) as [Hsend _].
  - discriminate.
  - repeat constructor; simpl; intuition discriminate.
  - simpl. intuition discriminate.
  - destruct (Hsend [(Sample.displayname, JStr "Alice B.");
                     (publish_url_key, JStr "https://host/p/1");
                     ("{http://apple.com/ns/ical/}calendar-color", JStr "#ff0000")]
                    eq_refl) as (Hthis & Hsent).
    apply resolved_elim with (a := "https://host/dav/alice/") in Hsent; [|reflexivity].
    destruct Hsent as [Hsent Hfst].
    split; [rewrite Hsent; reflexivity|].
    split; [exact Hfst|]. rewrite Hthis. reflexivity.
Defined.

(** With the server out of reach, a listing and a creation reject after
    one request. *)
Lemma X13_witness :
  let s := @Build_State Offline.platform
             (@new_DavCollection Offline.platform None Sample.rq "/dav/alice" JUndefined)
             (@Build_World Offline.platform [] [] tt) in
  fst (@findAll Offline.platform s)
  = Rejected (NetworkFailure NetworkRequestError None (Some (-1)%Z))
  /\ List.length
       (@sent Offline.platform
          (@world Offline.platform
             (snd (@createObject Offline.platform "a.vcf" [] "BEGIN:VCARD" s))))
     = 1%nat.
Proof.
  intros s.
  destruct (@X13_a_rejected_request_ends_the_call Offline.platform s Offline.unreachable)
    as (Hall & _ & _ & _ & Hobject & _).
  - intros config. reflexivity.
  - apply resolved_elim with (a := "https://host/dav/alice/") in Hall; [|reflexivity].
    split; [exact (proj1 Hall)|].
    pose proof (Hobject "a.vcf" [] "BEGIN:VCARD") as Hput.
    apply resolved_elim with (a := "https://host/dav/alice/a.vcf") in Hput; [|reflexivity].
    destruct Hput as (_ & _ & config & Hsent & _).
    rewrite Hsent. reflexivity.
Defined.

(** A vCard constructor, registered and then used. *)
Lemma X14_witness :
  let vcard := {| factory_name := "VCard";
                  factory_getPropFindList := Some [(NS.IETF_CARDDAV, "address-data")] |} in
  let fields := [(Sample.getcontenttype, JStr "text/vcard; charset=utf-8")] in
  fst (resolve_entry
         (this (snd (_registerObjectFactory "text/vcard" vcard Sample.state0)))
         true "/dav/alice/card.vcf" (JObj fields) Sample.world0)
  = Resolved (NewObject vcard "/dav/alice/" "/dav/alice/card.vcf" (JObj fields) true).
Proof.
  intros vcard fields.
  destruct (X14_registered_object_factory_is_used Sample.state0 "text/vcard" vcard)
    as (_ & _ & _ & _ & _ & Huse).
  - discriminate.
  - apply (Huse true "/dav/alice/card.vcf" "/dav/alice/card.vcf" fields
                "text/vcard; charset=utf-8" Sample.world0).
    + reflexivity.
    + left. reflexivity.
    + reflexivity.
    + discriminate.
    + reflexivity.
    + reflexivity.
Defined.

(** A calendar constructor, registered and then used. *)
Lemma X15_witness :
  let calendar := {| factory_name := "Calendar"; factory_getPropFindList := None |} in
  let fields := [(Sample.resourcetype,
                  JArr ["{DAV:}collection"; "{urn:ietf:params:xml:ns:caldav}calendar"])] in
  fst (resolve_entry
         (this (snd (_registerCollectionFactory
                       "{urn:ietf:params:xml:ns:caldav}calendar" calendar Sample.state0)))
         false "/dav/alice/personal/" (JObj fields) Sample.world0)
  = Resolved (NewCollection calendar "/dav/alice/" "/dav/alice/personal/" (JObj fields)).
Proof.
  intros calendar fields.
  destruct (X15_registered_collection_factory_is_used
              Sample.state0 "{urn:ietf:params:xml:ns:caldav}calendar" calendar)
    as (_ & _ & _ & _ & _ & Huse).
  - discriminate.
  - apply (Huse false "/dav/alice/personal/" "/dav/alice/personal/" fields
                ["{DAV:}collection"; "{urn:ietf:params:xml:ns:caldav}calendar"]
                Sample.world0).
    + reflexivity.
    + reflexivity.
    + reflexivity.
    + discriminate.
    + reflexivity.
Defined.

(** The same types in another order, one of them twice. *)
Lemma X16_witness :
  let plain (types : list string) :=
    new_DavCollection None Sample.rq "/dav/alice/c"
                      (JObj [(Sample.resourcetype, JArr types)]) in
  isSameCollectionTypeAs (plain ["{DAV:}collection"; "calendar"])
                         (plain ["calendar"; "{DAV:}collection"; "calendar"])
  = Resolved true.
Proof.
  intros plain.
  destruct (X16_same_collection_type
              (plain ["{DAV:}collection"; "calendar"])
              (plain ["calendar"; "{DAV:}collection"; "calendar"])
              (JArr ["{DAV:}collection"; "calendar"])
              (JArr ["calendar"; "{DAV:}collection"; "calendar"])
              eq_refl eq_refl) as [Hsame _].
  destruct (Hsame _ _ eq_refl eq_refl) as (same & Hrun & _ & Hiff).
  rewrite Hrun. f_equal. apply Hiff. intros t. simpl. tauto.
Defined.

(** Publishing alice reloads her properties from the server. *)
Lemma X17_witness :
  fst (publish Sample.state0) = Resolved tt
  /\ _props (this (snd (publish Sample.state0)))
     = JObj [(Sample.displayname, JStr "Alice");
             (Sample.resourcetype, JArr ["{DAV:}collection"])]
  /\ List.length (sent (world (snd (publish Sample.state0)))) = 2%nat.
Proof.
  destruct (X17_publish_posts_then_reloads
              Sample.state0 "https://host/dav/alice/" 207%Z "")
    as (_ & Hrun).
  - reflexivity.
  - reflexivity.
  - apply if_false_elim in Hrun; [|reflexivity].
    destruct Hrun as (Hsent & Hok & _).
    pose proof (Hok "https://host/dav/alice/" eq_refl) as Hloaded.
    apply if_false_elim in Hloaded; [|reflexivity].
    destruct Hloaded as [Hfst Hthis].
    split; [exact Hfst|]. split; [rewrite Hthis; reflexivity|].
    rewrite Hsent. reflexivity.
Defined.

(** The string ["0"] is truthy: the address book is sent as enabled. *)
Lemma X18_witness :
  In (Xml (NS.OWNCLOUD, "enabled") [] [] (Some (JStr "1")))
     (addressBookPropSet [(Sample.displayname, JStr "Contacts");
                          ("{http://owncloud.org/ns}enabled", JStr "0")]).
Proof.
  apply (X18_addressBookPropSet_encodes_two_keys
           [(Sample.displayname, JStr "Contacts");
            ("{http://owncloud.org/ns}enabled", JStr "0")]).
  - repeat constructor; simpl; intuition discriminate.
  - right. exists (JStr "0"). split; reflexivity.
Defined.

(** A deleted event in the trash bin is a [VObject]. *)
Lemma X20_witness :
  let bin := new_CalendarTrashBin "http://nextcloud.com/ns" [(NS.DAV, "getetag")]
                                  None Sample.rq "/dav/alice/trashbin" JUndefined in
  let fields := [(Sample.getcontenttype, JStr "text/calendar; charset=utf-8")] in
  fst (resolve_entry bin false "/dav/alice/trashbin/objects/e.ics" (JObj fields)
                     Sample.world0)
  = Resolved (NewObject (VObject [(NS.DAV, "getetag")]) "/dav/alice/trashbin/"
                        "/dav/alice/trashbin/objects/e.ics" (JObj fields) false).
Proof.
  intros bin fields.
  destruct (X20_trash_bin_instantiates_vobjects
              "http://nextcloud.com/ns" [(NS.DAV, "getetag")]
              None Sample.rq "/dav/alice/trashbin" JUndefined)
    as (_ & _ & _ & _ & Huse).
  apply (Huse false "/dav/alice/trashbin/objects/e.ics"
              "/dav/alice/trashbin/objects/e.ics" fields
              "text/calendar; charset=utf-8" Sample.world0).
  - reflexivity.
  - left. reflexivity.
  - reflexivity.
  - reflexivity.
Defined.

(** A trash bin with one deleted event: one REPORT, one [VObject]. *)
Lemma X21_witness :
  let bin := {| this := new_CalendarTrashBin "http://nextcloud.com/ns"
                          [(NS.DAV, "getetag")] None Sample.rq "/dav/alice" JUndefined;
                world := Sample.world0 |} in
  let run := findDeletedObjects "http://nextcloud.com/ns" [(NS.DAV, "getetag")] bin in
  List.length (sent (world (snd run))) = 1%nat
  /\ fst run
     = Resolved [NewObject (VObject [(NS.DAV, "getetag")]) "/dav/alice/"
                           "/dav/alice/objects/e.ics"
                           (JObj [(Sample.getcontenttype,
                                   JStr "text/calendar; charset=utf-8")])
                           false].
Proof.
  intros bin run.
  destruct (X21_findDeletedObjects_reports_with_depth_one
              "http://nextcloud.com/ns" [(NS.DAV, "getetag")] bin
              "https://host/dav/alice/objects" "https://host/dav/alice/objects")
    as (_ & _ & Hrun & Hsent).
  - reflexivity.
  - reflexivity.
  - split.
    + unfold run. rewrite Hsent. reflexivity.
    + unfold run. rewrite Hrun. reflexivity.
Defined.

(** After listing alice, the name of her calendar is taken. *)
Lemma X22_witness :
  name_is_available
    (this (snd (_handleMultiStatusResponse
                  (multistatus_value (reduce_document Sample.rq Sample.doc_alice))
                  false Sample.state0))) "personal" = false.
Proof.
  destruct (X22_resolved_names_are_taken
              Sample.state0
              (multistatus_value (reduce_document Sample.rq Sample.doc_alice)) false
              (resolved_or []
                 (fst (_handleMultiStatusResponse
                         (multistatus_value (reduce_document Sample.rq Sample.doc_alice))
                         false Sample.state0)))
              eq_refl) as (_ & _ & Htaken).
  eapply (Htaken _ "/dav/alice/personal/" "personal").
  - reflexivity.
  - simpl. tauto.
  - reflexivity.
  - right. reflexivity.
Defined.

(** A vCard is stored and found again; its name is then taken. *)
Lemma X23_witness :
  let r := createObject "a" [] "BEGIN:VCARD" Sample.state0 in
  fst r = Resolved (Some (NewDavObject "/dav/alice/" "/dav/alice/a"
                            (JObj [(Sample.getcontenttype, JStr "text/vcard")])))
  /\ name_is_available (this (snd r)) "a" = false
  /\ List.length (sent (world (snd r))) = 2%nat.
Proof.
  intros r.
  pose proof (X23_createObject_puts_then_finds
                Sample.state0 "a" [] "BEGIN:VCARD" "https://host/dav/alice/a"
                207%Z "" "https://host/dav/alice/a") as Hrun.
  cbv zeta in Hrun. fold r in Hrun.
  assert (Hnamed : "a" <> "") by discriminate.
  specialize (Hrun Hnamed eq_refl eq_refl).
  assert (Hfound : forall config,
             cfg_method config = "PROPFIND" ->
             cfg_url config = "https://host/dav/alice/a" ->
             axios_request
               (sent (world Sample.state0)
                ++ [request_config "PUT" "https://host/dav/alice/a" [] (Some "BEGIN:VCARD")])%list
               config
             = AxiosFulfilled 207 "https://host/dav/alice/a")
    by (intros config Hm Hu; simpl; rewrite Hm, Hu; reflexivity).
  specialize (Hrun Hfound).
  apply if_false_elim in Hrun; [|reflexivity].
  destruct Hrun as ((asked & Hsent & _) & _ & Hchild & _).
  destruct (Hchild (NewDavObject "/dav/alice/" "/dav/alice/a"
                      (JObj [(Sample.getcontenttype, JStr "text/vcard")])) eq_refl)
    as (_ & _ & Htaken).
  split; [reflexivity|]. split; [exact Htaken|].
  rewrite Hsent. reflexivity.
Defined.

(** A collection is made and found again; its name is then taken. *)
Lemma X24_witness :
  let r := createCollection "work" None Sample.state0 in
  fst r <> Resolved None
  /\ (forall child, fst r = Resolved (Some child) ->
                    name_is_available (this (snd r)) "work" = false)
  /\ List.length (sent (world (snd r))) = 2%nat.
Proof.
  intros r.
  pose proof (X24_createCollection_makes_then_finds
                Sample.state0 "work" None "https://host/dav/alice/work"
                "https://host/dav/alice/work/" 207%Z ""
                "https://host/dav/alice/work/") as Hrun.
  cbv zeta in Hrun. fold r in Hrun.
  specialize (Hrun eq_refl eq_refl eq_refl).
  assert (Hfound : forall config,
             cfg_method config = "PROPFIND" ->
             cfg_url config = "https://host/dav/alice/work/" ->
             axios_request
               (sent (world Sample.state0)
                ++ [request_config "MKCOL" "https://host/dav/alice/work" []
                      (Some (fst (xml_serialize (prefixes (world Sample.state0))
                         (Xml (NS.DAV, "mkcol") []
                            [Xml (NS.DAV, "set") []
                               [Xml (NS.DAV, "prop") []
                                  [Xml (NS.DAV, "resourcetype") []
                                     [Xml (NS.DAV, "collection") [] [] None] None]
                                  None] None] None))))])%list
               config
             = AxiosFulfilled 207 "https://host/dav/alice/work/")
    by (intros config Hm Hu; simpl; rewrite Hm, Hu; reflexivity).
  specialize (Hrun Hfound).
  apply if_false_elim in Hrun; [|reflexivity].
  destruct Hrun as ((asked & Hsent & _) & Hsome & Hchild & _).
  split; [exact Hsome|]. split.
  - intros child Hc. exact (proj2 (proj2 (Hchild child Hc))).
  - rewrite Hsent. reflexivity.
Defined.
